(** * arabi-flow-forge: the mock query/mutation API, the landing page
      generation pipeline and the cash-on-delivery order validator

    A shallow embedding of the services of the application: the mock
    API over the in-memory store ([src/services/api.ts], with the data of
    [src/lib/mockData.ts]), the generator and the order service
    ([LandingPageGenerator], [codOrderService]), the adapters of the
    remote services they call ([serpApiService], [browseAiService],
    [groqService], [imageProcessingService]), and the hooks of the
    landing page with the utilities they use
    ([src/hooks/useLandingPageGenerator.ts], [landingPageUtils]).

    Conventions of the embedding.
    - A JavaScript array is a [list]; an index or a page number is a [Z].
    - A [throw] is the [Throw] branch of [Result]; an [async] function is
      the function of its awaited results: the code is a strictly
      sequential chain of [await]s, so the order of effects is the order of
      the definitions' [let]s and binds.
    - Whatever the code reads from outside ([Math.random], [Date.now], the
      replies of the remote services) is an explicit argument of the
      function that reads it. *)

From Stdlib Require Import ZArith String Ascii List Lia Permutation Sorted.
From stdpp Require Import base list strings.

Local Open Scope Z_scope.

(** ** Thrown values *)

(** What a [catch] clause receives: an [Error] object with its [message],
    or some other thrown value. *)
Inductive Exn : Type :=
  | ErrorObj (message : string)
  | OtherThrown.

Inductive Result (A : Type) : Type :=
  | Ok (a : A)
  | Throw (e : Exn).
Arguments Ok {A} a.
Arguments Throw {A} e.

(** [createErrorResponse(message)]: [throw new Error(message)]. *)
Definition createErrorResponse {A : Type} (message : string) : Result A :=
  Throw (ErrorObj message).

(** [error instanceof Error ? error.message : fallback]. *)
Definition messageOf (e : Exn) (fallback : string) : string :=
  match e with
  | ErrorObj m => m
  | OtherThrown => fallback
  end.

(** ** JavaScript array and value helpers *)

Module JS.

(** Truthiness of an optional string: [undefined] and [''] are falsy. *)
Definition truthy_string (o : option string) : option string :=
  match o with
  | Some s => if decide (s = EmptyString) then None else Some s
  | None => None
  end.

(** [x || d] for an optional integer-valued number: [undefined] and [0]
    are falsy. *)
Definition or_default (o : option Z) (d : Z) : Z :=
  match o with
  | Some z => if z =? 0 then d else z
  | None => d
  end.

(** The relative index of [Array.prototype.slice]: a negative index counts
    from the end, and both ends are clamped to the array. *)
Definition relative_index (len i : Z) : Z :=
  if i <? 0 then Z.max (len + i) 0 else Z.min i len.

(** [l.slice(from, to)]. *)
Definition slice {A : Type} (l : list A) (from to : Z) : list A :=
  let len := Z.of_nat (length l) in
  let k := relative_index len from in
  let final := relative_index len to in
  take (Z.to_nat (final - k)) (drop (Z.to_nat k) l).

(** [Math.ceil(a / b)] for integers [a] and [b <> 0]: the quotient rounded
    towards plus infinity. *)
Definition ceil_div (a b : Z) : Z := - ((- a) / b).

End JS.

(** ** JavaScript strings and regular expressions

    A string is the sequence of its UTF-16 code units.  The texts that a
    user types into the order form are lists of code units ([list Z]), of
    any value.  The texts that the program writes itself or compares
    (messages, ids, the fields of the mock records) are [string]s, whose
    [ascii] characters are the code units below 256. *)

Module JSString.

Definition code (c : ascii) : Z := Z.of_N (N_of_ascii c).

(** The code units of a [string]. *)
Definition units (s : string) : list Z := code <$> list_ascii_of_string s.

Definition is_digit (c : Z) : bool := (48 <=? c) && (c <=? 57).

Definition is_lower (c : Z) : bool := (97 <=? c) && (c <=? 122).

Definition is_upper (c : Z) : bool := (65 <=? c) && (c <=? 90).

(** A digit of base 36, as [toString(36)] writes it. *)
Definition is_base36 (c : Z) : bool := is_digit c || is_lower c.

(** The class [\s]: the white space and the line terminators of
    ECMAScript (tab to carriage return, space, no-break space, U+1680,
    U+2000 to U+200A, U+2028, U+2029, U+202F, U+205F, U+3000, U+FEFF). *)
Definition is_space (c : Z) : bool :=
  ((9 <=? c) && (c <=? 13)) || (c =? 32) || (c =? 160) || (c =? 5760)
  || ((8192 <=? c) && (c <=? 8202)) || (c =? 8232) || (c =? 8233)
  || (c =? 8239) || (c =? 8287) || (c =? 12288) || (c =? 65279).

Definition is_char (a : ascii) (c : Z) : bool := c =? code a.

(** [!s] for a string: only the empty string is falsy. *)
Definition falsy (s : list Z) : bool := bool_decide (s = []).

(** [s.length]. *)
Definition strlen (s : list Z) : Z := Z.of_nat (length s).

(** [s.toUpperCase()] on a text of ASCII characters, where it changes the
    letters a to z and nothing else: the one text that the program puts
    in upper case is the order id, made of ["COD-"], ["-"] and digits of
    base 36. *)
Definition upper_char (c : ascii) : ascii :=
  if is_lower (code c) then ascii_of_N (N_of_ascii c - 32) else c.

Fixpoint toUpperCase (s : string) : string :=
  match s with
  | EmptyString => EmptyString
  | String c s' => String (upper_char c) (toUpperCase s')
  end.

(** [String.prototype.toLowerCase] is a parameter of the methods that
    call it on the texts of the store.  On a text of ASCII characters it
    changes the letters A to Z and nothing else: [asciiToLowerCase] is
    the function on such texts, to run the methods on sample data. *)
Definition lower_char (c : ascii) : ascii :=
  if is_upper (code c) then ascii_of_N (N_of_ascii c + 32) else c.

Fixpoint asciiToLowerCase (s : string) : string :=
  match s with
  | EmptyString => EmptyString
  | String c s' => String (lower_char c) (asciiToLowerCase s')
  end.

(** [s > t] on two strings: the order of their code units. *)
Definition string_gt (s t : string) : bool :=
  match String.compare s t with
  | Gt => true
  | _ => false
  end.

(** [s.substr(from, len)] for [from] and [len] within [0 ..]. *)
Definition substr (from len : nat) (s : string) : string :=
  String.substring from len s.

(** [l.join(sep)]. *)
Definition join (sep : string) (l : list string) : string :=
  String.concat sep l.

(** [s.includes(t)]. *)
Fixpoint includes (s t : string) : bool :=
  String.prefix t s ||
  match s with
  | EmptyString => false
  | String _ s' => includes s' t
  end.

(** *** Regular expressions, matched by derivatives *)

Inductive regex : Type :=
  | Void
  | Eps
  | Class (p : Z → bool)
  | Seq (r1 r2 : regex)
  | Alt (r1 r2 : regex)
  | Star (r : regex).

(** [r+] and [r{n}]. *)
Definition Plus (r : regex) : regex := Seq r (Star r).

Fixpoint Repeat (n : nat) (r : regex) : regex :=
  match n with
  | O => Eps
  | S n' => Seq r (Repeat n' r)
  end.

(** A literal string. *)
Fixpoint Lit (s : string) : regex :=
  match s with
  | EmptyString => Eps
  | String c s' => Seq (Class (is_char c)) (Lit s')
  end.

Fixpoint nullable (r : regex) : bool :=
  match r with
  | Void => false
  | Eps => true
  | Class _ => false
  | Seq r1 r2 => nullable r1 && nullable r2
  | Alt r1 r2 => nullable r1 || nullable r2
  | Star _ => true
  end.

Fixpoint deriv (c : Z) (r : regex) : regex :=
  match r with
  | Void => Void
  | Eps => Void
  | Class p => if p c then Eps else Void
  | Seq r1 r2 =>
      if nullable r1
      then Alt (Seq (deriv c r1) r2) (deriv c r2)
      else Seq (deriv c r1) r2
  | Alt r1 r2 => Alt (deriv c r1) (deriv c r2)
  | Star r => Seq (deriv c r) (Star r)
  end.

(** [/^r$/.test(s)]: the whole of [s] matches [r]. *)
Fixpoint test (r : regex) (s : list Z) : bool :=
  match s with
  | [] => nullable r
  | c :: s' => test (deriv c r) s'
  end.

(** *** [Number.prototype.toString(36)] on integers *)

Definition digit36 (d : Z) : ascii :=
  if d <? 10 then ascii_of_N (Z.to_N (48 + d)) else ascii_of_N (Z.to_N (87 + d)).

(** The digits of [n > 0] in base 36, most significant first, in front of
    [acc]; there are no more of them than binary digits, which bound the
    fuel. *)
Fixpoint digits36 (fuel : nat) (n : Z) (acc : string) : string :=
  match fuel with
  | O => acc
  | S fuel' =>
      if n <=? 0 then acc
      else digits36 fuel' (n / 36) (String (digit36 (n mod 36)) acc)
  end.

Definition toString36 (n : Z) : string :=
  if n =? 0 then "0"
  else if n <? 0
       then String "-" (digits36 (S (Z.to_nat (Z.log2 (- n)))) (- n) EmptyString)
       else digits36 (S (Z.to_nat (Z.log2 n))) n EmptyString.

End JSString.

(** ** The query engine: [filterAndPaginate] *)

Module QueryEngine.

Inductive SortOrder : Type := asc | desc.

(** [QueryParams = PaginationParams & SortParams & FilterParams]; every
    field is optional.  [page] and [limit] are whole numbers. *)
Record QueryParams : Type := mkQueryParams {
  page : option Z;
  limit : option Z;
  sortBy : option string;
  sortOrder : option SortOrder;
  search : option string;
  category : option string;
  status : option string
}.

Record Pagination : Type := mkPagination {
  pg_page : Z;
  pg_limit : Z;
  pg_total : Z;
  pg_totalPages : Z
}.

Record Page (T : Type) : Type := mkPage {
  data : list T;
  pagination : Pagination
}.
Arguments mkPage {T} _ _.
Arguments data {T} _.
Arguments pagination {T} _.

Section Engine.

(** The records of the collection, the values of their fields, the
    property read [(a as any)[key]] and JavaScript's [>] on those
    values. *)
Context {T V : Type}.
Variable field : T → string → V.
Variable js_gt : V → V → bool.

(** [Array.prototype.sort] of the host engine, applied to a comparator.
    The comparator of [filterAndPaginate] never answers [0], so it is not
    a consistent comparator in the sense of ECMAScript and the order the
    engine produces is implementation-defined: the engine is a parameter
    of the model (module [V8] below gives one). *)
Variable array_sort : (T → T → Z) → list T → list T.

(** The comparator handed to [sort]. *)
Definition compareBy (key : string) (order : option SortOrder) (a b : T) : Z :=
  let aValue := field a key in
  let bValue := field b key in
  match order with
  | Some desc => if js_gt bValue aValue then 1 else -1
  | _ => if js_gt aValue bValue then 1 else -1
  end.

(** "Apply search filter". *)
Definition applySearch (data : list T) (params : QueryParams)
    (filterFn : option (T → string → bool)) : list T :=
  match JS.truthy_string (search params), filterFn with
  | Some s, Some f => List.filter (fun item => f item s) data
  | _, _ => data
  end.

(** "Apply sorting". *)
Definition applySort (filteredData : list T) (params : QueryParams) : list T :=
  match JS.truthy_string (sortBy params) with
  | Some key => array_sort (compareBy key (sortOrder params)) filteredData
  | None => filteredData
  end.

Definition filterAndPaginate (data : list T) (params : QueryParams)
    (filterFn : option (T → string → bool)) : Page T :=
  let filteredData := applySearch data params filterFn in
  let filteredData := applySort filteredData params in
  let page := JS.or_default (page params) 1 in
  let limit := JS.or_default (limit params) 10 in
  let startIndex := (page - 1) * limit in
  let endIndex := startIndex + limit in
  let paginatedData := JS.slice filteredData startIndex endIndex in
  mkPage paginatedData
    (mkPagination page limit
       (Z.of_nat (length filteredData))
       (JS.ceil_div (Z.of_nat (length filteredData)) limit)).

(** *** A predicate that throws

    [filter] calls the predicate on the records in turn; what a call
    throws ends [filter], and [filterAndPaginate] with it. *)
Fixpoint filterThrowing (f : T → Result bool) (data : list T) : Result (list T) :=
  match data with
  | [] => Ok []
  | item :: rest =>
      match f item with
      | Throw e => Throw e
      | Ok keep =>
          match filterThrowing f rest with
          | Throw e => Throw e
          | Ok kept => Ok (if keep then item :: kept else kept)
          end
      end
  end.

Definition applySearchThrowing (data : list T) (params : QueryParams)
    (filterFn : option (T → string → Result bool)) : Result (list T) :=
  match JS.truthy_string (search params), filterFn with
  | Some s, Some f => filterThrowing (fun item => f item s) data
  | _, _ => Ok data
  end.

(** [filterAndPaginate] with a predicate that may throw: the sorting
    and the pagination are those of [filterAndPaginate], on the records
    that the search kept. *)
Definition filterAndPaginateThrowing (data : list T) (params : QueryParams)
    (filterFn : option (T → string → Result bool)) : Result (Page T) :=
  match applySearchThrowing data params filterFn with
  | Throw e => Throw e
  | Ok filteredData =>
      let filteredData := applySort filteredData params in
      let page := JS.or_default (page params) 1 in
      let limit := JS.or_default (limit params) 10 in
      let startIndex := (page - 1) * limit in
      let endIndex := startIndex + limit in
      let paginatedData := JS.slice filteredData startIndex endIndex in
      Ok (mkPage paginatedData
            (mkPagination page limit
               (Z.of_nat (length filteredData))
               (JS.ceil_div (Z.of_nat (length filteredData)) limit)))
  end.

End Engine.

End QueryEngine.

(** ** One host engine: V8's [Array.prototype.sort]

    V8 (Chrome, Node.js) sorts with TimSort
    ([third_party/v8/builtins/array-sort.tq]).  The minimal run length of
    an array shorter than 64 elements is its own length, so such an array
    is sorted as a single run: [CountAndMakeRun] finds the initial run
    (reversing it when it descends) and [BinaryInsertionSort] inserts the
    remaining elements one by one.  [ArrayTimSort] below is that path,
    whatever the length: what V8 does with 64 elements and more, cutting
    the array into several runs and merging them, is not modelled. *)

Module V8.

Section Sort.

Context {T : Type}.
Variable comparefn : T → T → Z.

(** The loop of [CountAndMakeRun]: how many further elements continue the
    run that ends in [previousElement]. *)
Fixpoint run_extent (isDescending : bool) (previousElement : T)
    (rest : list T) : nat :=
  match rest with
  | [] => 0%nat
  | currentElement :: rest' =>
      let order := comparefn currentElement previousElement in
      if (if isDescending then 0 <=? order else order <? 0)
      then 0%nat
      else S (run_extent isDescending currentElement rest')
  end.

(** [CountAndMakeRun(0, length)]: the array after the call and the length
    of its initial run. *)
Definition CountAndMakeRun (workArray : list T) : list T * nat :=
  match workArray with
  | [] => ([], 0%nat)
  | [_] => (workArray, 1%nat)
  | elementHigh :: elementLow :: rest =>
      let order := comparefn elementLow elementHigh in
      let isDescending := order <? 0 in
      let runLength := (2 + run_extent isDescending elementLow rest)%nat in
      (if isDescending
       then rev (take runLength workArray) ++ drop runLength workArray
       else workArray,
       runLength)
  end.

(** The binary search of [BinaryInsertionSort] for the slot of [pivot] in
    the sorted prefix, between [left] and [right]. *)
Fixpoint binary_search (fuel : nat) (sorted : list T) (pivot : T)
    (left right : nat) : nat :=
  match fuel with
  | O => left
  | S fuel' =>
      if (left <? right)%nat then
        let mid := (left + (right - left) / 2)%nat in
        match sorted !! mid with
        | Some element =>
            if comparefn pivot element <? 0
            then binary_search fuel' sorted pivot left mid
            else binary_search fuel' sorted pivot (mid + 1)%nat right
        | None => left
        end
      else left
  end.

(** One round of [BinaryInsertionSort]: the pivot moves into its slot. *)
Definition insert_pivot (sorted : list T) (pivot : T) : list T :=
  let left :=
    binary_search (length sorted) sorted pivot 0%nat (length sorted) in
  take left sorted ++ pivot :: drop left sorted.

Definition BinaryInsertionSort (sorted rest : list T) : list T :=
  fold_left insert_pivot rest sorted.

Definition ArrayTimSort (array : list T) : list T :=
  match array with
  | [] | [_] => array
  | _ =>
      let '(workArray, runLength) := CountAndMakeRun array in
      BinaryInsertionSort (take runLength workArray) (drop runLength workArray)
  end.

End Sort.

(** [array.sort(comparefn)]. *)
Definition sort {T : Type} (comparefn : T → T → Z) (array : list T) : list T :=
  ArrayTimSort comparefn array.

End V8.

(** ** JavaScript numbers

    A [number] is an IEEE-754 double.  The model does not fix a
    representation: it is parametric in the type of numbers and in the
    operations the code applies to them, so what is proved holds for
    doubles with their rounding.  [num_of_Z] reads an integer literal,
    [num_ltb a b] is [a < b] (false when either side is [NaN]). *)

Class Numeric (num : Type) : Type := {
  num_of_Z : Z → num;
  num_add : num → num → num;
  num_mul : num → num → num;
  num_ltb : num → num → bool
}.

(** Integers, as far as doubles represent them exactly. *)
#[export] Instance Z_Numeric : Numeric Z := {
  num_of_Z := id;
  num_add := Z.add;
  num_mul := Z.mul;
  num_ltb := Z.ltb
}.

(** ** The in-memory store and its mutations ([src/services/api.ts]) *)

Module Api.

Inductive Role : Type := admin | user | moderator.

Inductive OrderStatus : Type :=
  pending | processing | shipped | delivered | cancelled.

Record Address : Type := mkAddress {
  street : string;
  city : string;
  state : string;
  zipCode : string;
  country : string
}.

(** A user as the store holds it.  [name], [email] and [role] are
    [undefined] ([None]) once an update has written [undefined] over
    them; [avatar] is optional. *)
Record User : Type := mkUser {
  u_id : string;
  u_name : option string;
  u_email : option string;
  u_avatar : option string;
  u_role : option Role;
  u_createdAt : string;
  u_updatedAt : string
}.

Record CreateUserRequest : Type := mkCreateUserRequest {
  cu_name : string;
  cu_email : string;
  cu_role : option Role
}.

(** A key of a partial object: absent, or present with its value, which
    may be [undefined] ([None]): the type [name?: string] admits
    [{ name: undefined }] as it admits [{}]. *)
Inductive Key (A : Type) : Type :=
  | Absent
  | Present (value : option A).
Arguments Absent {A}.
Arguments Present {A} value.

Record UpdateUserRequest : Type := mkUpdateUserRequest {
  uu_name : Key string;
  uu_email : Key string;
  uu_role : Key Role
}.

Record ApiResponse (A : Type) : Type := mkApiResponse {
  data : A;
  message : string;
  success : bool
}.
Arguments mkApiResponse {A} _ _ _.
Arguments data {A} _.
Arguments message {A} _.
Arguments success {A} _.

Record PaginatedResponse (A : Type) : Type := mkPaginatedResponse {
  pr_data : list A;
  pr_pagination : QueryEngine.Pagination;
  pr_message : string;
  pr_success : bool
}.
Arguments mkPaginatedResponse {A} _ _ _ _.
Arguments pr_data {A} _.
Arguments pr_pagination {A} _.
Arguments pr_message {A} _.
Arguments pr_success {A} _.

(** The values of the fields of a user: strings, or [undefined] for an
    absent [avatar], for a name, an email or a role over which an update
    wrote [undefined], and for a key that names no field (the inherited
    properties of an object are not modelled). *)
Inductive JsValue : Type :=
  | JsUndefined
  | JsString (s : string).

(** [a > b]: two strings are compared by their code units; [undefined]
    converts to [NaN], which is greater than nothing and which nothing is
    greater than. *)
Definition js_gt (a b : JsValue) : bool :=
  match a, b with
  | JsString s, JsString t => JSString.string_gt s t
  | _, _ => false
  end.

Definition role_string (r : Role) : string :=
  match r with
  | admin => "admin"
  | user => "user"
  | moderator => "moderator"
  end.

(** [(u as any)[key]]. *)
Definition userField (u : User) (key : string) : JsValue :=
  if decide (key = "id") then JsString (u_id u)
  else if decide (key = "name") then from_option JsString JsUndefined (u_name u)
  else if decide (key = "email") then from_option JsString JsUndefined (u_email u)
  else if decide (key = "avatar") then from_option JsString JsUndefined (u_avatar u)
  else if decide (key = "role")
       then from_option (λ r, JsString (role_string r)) JsUndefined (u_role u)
  else if decide (key = "createdAt") then JsString (u_createdAt u)
  else if decide (key = "updatedAt") then JsString (u_updatedAt u)
  else JsUndefined.

(** The initial content of [mockUsers] ([src/lib/mockData.ts]). *)
Definition mockUsers_initial : list User := [
  {| u_id := "1"; u_name := Some "John Doe";
     u_email := Some "john.doe@example.com";
     u_avatar := Some "https://images.unsplash.com/photo-1472099645785-5658abf4ff4e?w=150&h=150&fit=crop&crop=face";
     u_role := Some admin;
     u_createdAt := "2024-01-15T10:00:00Z"; u_updatedAt := "2024-01-15T10:00:00Z" |};
  {| u_id := "2"; u_name := Some "Jane Smith";
     u_email := Some "jane.smith@example.com";
     u_avatar := Some "https://images.unsplash.com/photo-1494790108755-2616b612b786?w=150&h=150&fit=crop&crop=face";
     u_role := Some user;
     u_createdAt := "2024-01-16T14:30:00Z"; u_updatedAt := "2024-01-16T14:30:00Z" |};
  {| u_id := "3"; u_name := Some "Mike Johnson";
     u_email := Some "mike.johnson@example.com";
     u_avatar := Some "https://images.unsplash.com/photo-1507003211169-0a1dd7228f2d?w=150&h=150&fit=crop&crop=face";
     u_role := Some moderator;
     u_createdAt := "2024-01-17T09:15:00Z"; u_updatedAt := "2024-01-17T09:15:00Z" |};
  {| u_id := "4"; u_name := Some "Sarah Wilson";
     u_email := Some "sarah.wilson@example.com";
     u_avatar := Some "https://images.unsplash.com/photo-1438761681033-6461ffad8d80?w=150&h=150&fit=crop&crop=face";
     u_role := Some user;
     u_createdAt := "2024-01-18T16:45:00Z"; u_updatedAt := "2024-01-18T16:45:00Z" |}
].

(** What one call of an API method reads from its environment:
    [shouldSimulateError()], that is [Math.random() < 0.05]; the results
    of its successive calls of [generateId()]; the results of its
    successive calls of [getCurrentTimestamp()]. *)
Record Env : Type := mkEnv {
  shouldSimulateError : bool;
  generateId : nat → string;
  getCurrentTimestamp : nat → string
}.

Section Store.

Context {num : Type} `{Numeric num}.

Record Product : Type := mkProduct {
  p_id : string;
  p_name : string;
  p_description : string;
  p_price : num;
  p_category : string;
  p_stock : num;
  p_imageUrl : option string;
  p_createdAt : string;
  p_updatedAt : string
}.

Record CreateProductRequest : Type := mkCreateProductRequest {
  cp_name : string;
  cp_description : string;
  cp_price : num;
  cp_category : string;
  cp_stock : num;
  cp_imageUrl : option string
}.

Record UpdateProductRequest : Type := mkUpdateProductRequest {
  up_name : option string;
  up_description : option string;
  up_price : option num;
  up_category : option string;
  up_stock : option num;
  up_imageUrl : option string
}.

Record OrderItem : Type := mkOrderItem {
  oi_id : string;
  oi_productId : string;
  oi_product : option Product;
  oi_quantity : num;
  oi_price : num
}.

Record Order : Type := mkOrder {
  o_id : string;
  o_userId : string;
  o_user : option User;
  o_items : list OrderItem;
  o_total : num;
  o_status : OrderStatus;
  o_shippingAddress : Address;
  o_createdAt : string;
  o_updatedAt : string
}.

Record OrderItemRequest : Type := mkOrderItemRequest {
  ir_productId : string;
  ir_quantity : num
}.

Record CreateOrderRequest : Type := mkCreateOrderRequest {
  co_userId : string;
  co_items : list OrderItemRequest;
  co_shippingAddress : Address
}.

(** The three module-level arrays.  No method mutates a record in place:
    an update builds a fresh object with the spread syntax and stores it
    in the slot of the old one, so a record held elsewhere (an order's
    [user], an item's [product]) is a value, not an alias. *)
Record Store : Type := mkStore {
  mockUsers : list User;
  mockProducts : list Product;
  mockOrders : list Order
}.

(** One key of [{ ...old, ...partial }] for a partial object whose keys
    hold values: the value that the partial object sets, or else the old
    value. *)
Definition spread {A : Type} (old : A) (partial : option A) : A :=
  match partial with
  | Some v => v
  | None => old
  end.

(** One key of [{ ...old, ...partial }]: a key that the partial object
    has is copied with its value, [undefined] too; a key that it has not
    leaves the old value. *)
Definition spread_key {A : Type} (old : option A) (partial : Key A) : option A :=
  match partial with
  | Absent => old
  | Present value => value
  end.

(** *** Users *)

(** [String.prototype.toLowerCase] of the engine, and the message of the
    [TypeError] of a method call on [undefined]. *)
Variable toLowerCase : string → string.
Variable undefined_read_message : string.

(** [text.toLowerCase().includes(search.toLowerCase())] on a property
    that may be [undefined]. *)
Definition lowerIncludes (text : option string) (search : string) : Result bool :=
  match text with
  | Some text => Ok (JSString.includes (toLowerCase text) (toLowerCase search))
  | None => Throw (ErrorObj undefined_read_message)
  end.

(** The search predicate of [getUsers]: [||] reads the email only when
    the name does not match. *)
Definition userMatches (user : User) (search : string) : Result bool :=
  match lowerIncludes (u_name user) search with
  | Throw e => Throw e
  | Ok true => Ok true
  | Ok false => lowerIncludes (u_email user) search
  end.

(** [getUsers(params)], on an engine whose [sort] is [array_sort]. *)
Definition getUsers (array_sort : (User → User → Z) → list User → list User)
    (env : Env) (params : QueryEngine.QueryParams) (s : Store)
    : Result (PaginatedResponse User) :=
  if shouldSimulateError env then createErrorResponse "Failed to fetch users"
  else
    let filterFn := userMatches in
    match
      QueryEngine.filterAndPaginateThrowing userField js_gt array_sort
        (mockUsers s) params (Some filterFn)
    with
    | Throw e => Throw e
    | Ok result =>
        Ok (mkPaginatedResponse (QueryEngine.data result)
              (QueryEngine.pagination result) "Users fetched successfully" true)
    end.

Definition createUser (env : Env) (userData : CreateUserRequest) (s : Store)
    : Store * Result (ApiResponse User) :=
  if shouldSimulateError env then (s, createErrorResponse "Failed to create user")
  else
    let newUser := {|
      u_id := generateId env 0;
      u_name := Some (cu_name userData);
      u_email := Some (cu_email userData);
      u_avatar := None;
      u_role := Some (default user (cu_role userData));
      u_createdAt := getCurrentTimestamp env 0;
      u_updatedAt := getCurrentTimestamp env 1
    |} in
    (mkStore (mockUsers s ++ [newUser]) (mockProducts s) (mockOrders s),
     Ok (mkApiResponse newUser "User created successfully" true)).

Definition updateUser (env : Env) (id : string) (userData : UpdateUserRequest)
    (s : Store) : Store * Result (ApiResponse User) :=
  if shouldSimulateError env then (s, createErrorResponse "Failed to update user")
  else
    match list_find (λ u, u_id u = id) (mockUsers s) with
    | None => (s, createErrorResponse "User not found")
    | Some (userIndex, found) =>
        let updatedUser := {|
          u_id := u_id found;
          u_name := spread_key (u_name found) (uu_name userData);
          u_email := spread_key (u_email found) (uu_email userData);
          u_avatar := u_avatar found;
          u_role := spread_key (u_role found) (uu_role userData);
          u_createdAt := u_createdAt found;
          u_updatedAt := getCurrentTimestamp env 0
        |} in
        (mkStore (<[userIndex := updatedUser]> (mockUsers s))
           (mockProducts s) (mockOrders s),
         Ok (mkApiResponse updatedUser "User updated successfully" true))
    end.

(** *** Products *)

Definition createProduct (env : Env) (productData : CreateProductRequest)
    (s : Store) : Store * Result (ApiResponse Product) :=
  if shouldSimulateError env then (s, createErrorResponse "Failed to create product")
  else
    let newProduct := {|
      p_id := generateId env 0;
      p_name := cp_name productData;
      p_description := cp_description productData;
      p_price := cp_price productData;
      p_category := cp_category productData;
      p_stock := cp_stock productData;
      p_imageUrl := cp_imageUrl productData;
      p_createdAt := getCurrentTimestamp env 0;
      p_updatedAt := getCurrentTimestamp env 1
    |} in
    (mkStore (mockUsers s) (mockProducts s ++ [newProduct]) (mockOrders s),
     Ok (mkApiResponse newProduct "Product created successfully" true)).

Definition updateProduct (env : Env) (id : string)
    (productData : UpdateProductRequest) (s : Store)
    : Store * Result (ApiResponse Product) :=
  if shouldSimulateError env then (s, createErrorResponse "Failed to update product")
  else
    match list_find (λ p, p_id p = id) (mockProducts s) with
    | None => (s, createErrorResponse "Product not found")
    | Some (productIndex, found) =>
        let updatedProduct := {|
          p_id := p_id found;
          p_name := spread (p_name found) (up_name productData);
          p_description := spread (p_description found) (up_description productData);
          p_price := spread (p_price found) (up_price productData);
          p_category := spread (p_category found) (up_category productData);
          p_stock := spread (p_stock found) (up_stock productData);
          p_imageUrl :=
            match up_imageUrl productData with
            | Some url => Some url
            | None => p_imageUrl found
            end;
          p_createdAt := p_createdAt found;
          p_updatedAt := getCurrentTimestamp env 0
        |} in
        (mkStore (mockUsers s)
           (<[productIndex := updatedProduct]> (mockProducts s)) (mockOrders s),
         Ok (mkApiResponse updatedProduct "Product updated successfully" true))
    end.

(** *** Orders *)

(** [mockProducts.find(p => p.id === productId)]. *)
Definition findProduct (products : list Product) (productId : string)
    : option Product :=
  List.find (λ p, bool_decide (p_id p = productId)) products.

(** [mockUsers.find(u => u.id === userId)]. *)
Definition findUser (users : list User) (userId : string) : option User :=
  List.find (λ u, bool_decide (u_id u = userId)) users.

(** [orderData.items.map(item => ...)] with the running [total]: [k] is
    the number of ids generated so far, [total] the sum so far.  The
    callback throws at the first item whose product is not found. *)
Fixpoint mapItems (env : Env) (products : list Product) (k : nat) (total : num)
    (items : list OrderItemRequest) : Result (list OrderItem * num) :=
  match items with
  | [] => Ok ([], total)
  | item :: rest =>
      match findProduct products (ir_productId item) with
      | None =>
          createErrorResponse
            ("Product with ID " +:+ ir_productId item +:+ " not found")
      | Some product =>
          let itemTotal := num_mul (p_price product) (ir_quantity item) in
          let total := num_add total itemTotal in
          let orderItem := {|
            oi_id := generateId env k;
            oi_productId := ir_productId item;
            oi_product := Some product;
            oi_quantity := ir_quantity item;
            oi_price := p_price product
          |} in
          match mapItems env products (S k) total rest with
          | Ok (orderItems, total') => Ok (orderItem :: orderItems, total')
          | Throw e => Throw e
          end
      end
  end.

Definition createOrder (env : Env) (orderData : CreateOrderRequest) (s : Store)
    : Store * Result (ApiResponse Order) :=
  if shouldSimulateError env then (s, createErrorResponse "Failed to create order")
  else
    match mapItems env (mockProducts s) 0 (num_of_Z 0) (co_items orderData) with
    | Throw e => (s, Throw e)
    | Ok (items, total) =>
        match findUser (mockUsers s) (co_userId orderData) with
        | None => (s, createErrorResponse "User not found")
        | Some found =>
            let newOrder := {|
              o_id := generateId env (length (co_items orderData));
              o_userId := co_userId orderData;
              o_user := Some found;
              o_items := items;
              o_total := total;
              o_status := pending;
              o_shippingAddress := co_shippingAddress orderData;
              o_createdAt := getCurrentTimestamp env 0;
              o_updatedAt := getCurrentTimestamp env 1
            |} in
            (mkStore (mockUsers s) (mockProducts s) (mockOrders s ++ [newOrder]),
             Ok (mkApiResponse newOrder "Order created successfully" true))
        end
    end.

(** *** What the specification says of an order, in the words of the model *)

(** [sum(price * quantity)] over the items of an order, added up from
    [0] in the order of the items. *)
Definition sumOfItems (items : list OrderItem) : num :=
  fold_left (λ acc oi, num_add acc (num_mul (oi_price oi) (oi_quantity oi)))
    items (num_of_Z 0).

(** The order item [oi] is the requested [item] with the price that the
    product it refers to has in [products]. *)
Definition snapshotOf (products : list Product) (item : OrderItemRequest)
    (oi : OrderItem) : Prop :=
  ∃ product,
    findProduct products (ir_productId item) = Some product
    ∧ oi_productId oi = ir_productId item
    ∧ oi_quantity oi = ir_quantity item
    ∧ oi_price oi = p_price product.

(** The first requested item whose product is not in [products]. *)
Definition firstMissing (products : list Product)
    (items : list OrderItemRequest) : option OrderItemRequest :=
  List.find
    (λ item, bool_decide (findProduct products (ir_productId item) = None))
    items.

End Store.

Arguments Product : clear implicits.
Arguments Order : clear implicits.
Arguments OrderItem : clear implicits.
Arguments Store : clear implicits.
Arguments CreateOrderRequest : clear implicits.
Arguments OrderItemRequest : clear implicits.
Arguments CreateProductRequest : clear implicits.
Arguments UpdateProductRequest : clear implicits.

(** The update that sets no key: [{}]. *)
Definition emptyUserUpdate : UpdateUserRequest :=
  mkUpdateUserRequest Absent Absent Absent.

(** The user [u] with another [updatedAt] and nothing else changed. *)
Definition touched (u : User) (updatedAt : string) : User :=
  mkUser (u_id u) (u_name u) (u_email u) (u_avatar u) (u_role u)
    (u_createdAt u) updatedAt.

(** The partial object merged over the user [u], at the time [updatedAt]:
    what the specification calls a partial update.  A key that the
    object has not leaves the field as it is; a key that it has is
    written with its value. *)
Definition merged (u : User) (partial : UpdateUserRequest) (updatedAt : string)
    (updated : User) : Prop :=
  u_id updated = u_id u
  ∧ u_avatar updated = u_avatar u
  ∧ u_createdAt updated = u_createdAt u
  ∧ u_name updated
    = match uu_name partial with Absent => u_name u | Present v => v end
  ∧ u_email updated
    = match uu_email partial with Absent => u_email u | Present v => v end
  ∧ u_role updated
    = match uu_role partial with Absent => u_role u | Present v => v end
  ∧ u_updatedAt updated = updatedAt
  ∧ (partial = emptyUserUpdate → updated = touched u updatedAt).

(** A small store with whole-number prices, and calls on it, to run the
    methods on. *)
Definition sampleProducts : list (Product Z) := [
  mkProduct "1" "Wireless Bluetooth Headphones" "High-quality wireless headphones"
    200 "Electronics" 50 None "2024-01-10T08:00:00Z" "2024-01-10T08:00:00Z";
  mkProduct "3" "Ergonomic Office Chair" "Comfortable office chair"
    250 "Furniture" 25 None "2024-01-12T12:00:00Z" "2024-01-12T12:00:00Z"
].

Definition sampleStore : Store Z := mkStore mockUsers_initial sampleProducts [].

Definition sampleAddress : Address :=
  mkAddress "123 Main St" "New York" "NY" "10001" "USA".

Definition sampleEnv : Env :=
  mkEnv false (λ k, "k3x9a1b2" +:+ JSString.toString36 (Z.of_nat k))
    (λ _, "2024-02-01T00:00:00.000Z").

Definition laterEnv : Env :=
  mkEnv false (λ k, "p7m2q8r4" +:+ JSString.toString36 (Z.of_nat k))
    (λ _, "2024-03-01T00:00:00.000Z").

Definition faultyEnv : Env :=
  mkEnv true (λ k, "k3x9a1b2" +:+ JSString.toString36 (Z.of_nat k))
    (λ _, "2024-02-01T00:00:00.000Z").

Definition sampleUser : CreateUserRequest :=
  mkCreateUserRequest "Test User" "test@example.com" None.

(** The order of [examples/apiUsage.ts]: two of product 1, one of
    product 3, for user 2. *)
Definition sampleOrder : CreateOrderRequest Z :=
  mkCreateOrderRequest "2"
    [mkOrderItemRequest "1" 2; mkOrderItemRequest "3" 1] sampleAddress.

(** The same order with an item whose product does not exist. *)
Definition orderOfMissingProduct : CreateOrderRequest Z :=
  mkCreateOrderRequest "2"
    [mkOrderItemRequest "1" 2; mkOrderItemRequest "99" 1] sampleAddress.

End Api.

(** ** The landing page generator
    ([src/services/landingPageGenerator.ts], [src/services/realApiServices.ts]) *)

Module Generator.

Inductive Category : Type :=
  electronics | fashion | home | beauty | sports | books | other.

Inductive TargetAudience : Type := men | women | unisex | kids | general.

Inductive PriceRange : Type := budget | mid_range | premium | luxury.

Inductive UrgencyLevel : Type := low | medium | high.

Record ProductClassification : Type := mkProductClassification {
  pc_category : Category;
  pc_subcategory : string;
  pc_targetAudience : TargetAudience;
  pc_priceRange : PriceRange
}.

Record ColorPalette : Type := mkColorPalette {
  primary : string;
  secondary : string;
  accent : string;
  background : string;
  text : string;
  textLight : string
}.

Record FontPairing : Type := mkFontPairing {
  f_heading : string;
  f_body : string;
  f_accent : string
}.

Record DesignTheme : Type := mkDesignTheme {
  th_name : string;
  th_colorPalette : ColorPalette;
  th_fonts : FontPairing;
  th_style : string
}.

Record FAQ : Type := mkFAQ {
  question : string;
  answer : string
}.

Record ProcessedImage : Type := mkProcessedImage {
  original : string;
  backgroundRemoved : string;
  cloudinaryUrl : string;
  optimizedUrl : string;
  thumbnailUrl : string
}.

(** The two fields of the upload response that the code reads. *)
Record CloudinaryUploadResponse : Type := mkCloudinaryUploadResponse {
  public_id : string;
  secure_url : string
}.

Record ValidationRule : Type := mkValidationRule {
  required : bool;
  minLength : option Z;
  pattern : option string;
  min : option Z;
  max : option Z
}.

Record CODFormConfig : Type := mkCODFormConfig {
  enabled : bool;
  fields : list string;
  validationRules : list (string * ValidationRule)
}.

(** The customizations that the service reads. *)
Record Customizations : Type := mkCustomizations {
  urgencyLevel : option UrgencyLevel;
  countdownHours : option Z
}.

Record GenerateLandingPageRequest : Type := mkGenerateLandingPageRequest {
  productUrl : string;
  customizations : option Customizations
}.

Record GenerationProgress : Type := mkGenerationProgress {
  step : string;
  progress : Z;
  message : string;
  completed : bool;
  error : option string
}.

(** *** Sequential code that reports progress and may throw

    A computation takes the reports delivered so far and returns them
    extended, with its result or the value it threw. *)
Definition M (A : Type) : Type :=
  list GenerationProgress → list GenerationProgress * Result A.

#[export] Instance M_ret : MRet M := λ A a trace, (trace, Ok a).

#[export] Instance M_bind : MBind M := λ A B f m trace,
  match m trace with
  | (trace', Ok a) => f a trace'
  | (trace', Throw e) => (trace', Throw e)
  end.

(** [throw e]. *)
Definition throw {A : Type} (e : Exn) : M A := λ trace, (trace, Throw e).

(** [try { body } catch (error) { handler(error) }]. *)
Definition try_catch {A : Type} (body : M A) (handler : Exn → M A) : M A :=
  λ trace,
    match body trace with
    | (trace', Ok a) => (trace', Ok a)
    | (trace', Throw e) => handler e trace'
    end.

(** [await] of a service call that reports nothing. *)
Definition await {A : Type} (r : Result A) : M A := λ trace, (trace, r).

(** A run from scratch: the reports delivered and the outcome. *)
Definition run {A : Type} (m : M A) : list GenerationProgress * Result A := m [].

Section Pipeline.

Context {num : Type} `{Numeric num}.

(** [JSON.parse] and its values: [None] is a [SyntaxError]; [json_is_null]
    tells the value [null], the one parsed value on which a property read
    throws. [Date] is the type of dates, [addHours d h] the date after
    [d.setHours(d.getHours() + h)]. *)
Context {Json Date : Type}.
Variable JSON_parse : string → option Json.
Variable json_is_null : Json → bool.
Variable addHours : Date → Z → Date.

(** The message of the [TypeError] of a property read on [null], and
    [API_CONFIG.CLOUDINARY_CLOUD_NAME]. *)
Variable null_read_message : string.
Variable CLOUDINARY_CLOUD_NAME : string.

Record ProductInfo : Type := mkProductInfo {
  pi_name : string;
  pi_description : string;
  pi_price : num;
  pi_originalPrice : option num;
  pi_images : list string;
  pi_category : string;
  pi_brand : option string;
  pi_features : list string;
  pi_specifications : list (string * string);
  pi_rating : option num;
  pi_reviews : option num
}.

Record Testimonial : Type := mkTestimonial {
  t_name : string;
  t_rating : num;
  t_text : string;
  t_verified : bool
}.

Record GeneratedContent : Type := mkGeneratedContent {
  headline : string;
  subheadline : string;
  gc_description : string;
  benefits : list string;
  upsellCopy : string;
  urgencyText : string;
  ctaText : string;
  testimonials : list Testimonial;
  faq : list FAQ
}.

Record CountdownTimer : Type := mkCountdownTimer {
  endTime : Date;
  title : string;
  ct_urgencyLevel : UrgencyLevel
}.

(** What [return JSON.parse(response)] or the [catch] branch next to it
    hands back: the parsed value as it is (typed [any]), or the fallback
    record. *)
Inductive Reply (A : Type) : Type :=
  | Parsed (j : Json)
  | Fallback (a : A).
Arguments Parsed {A} j.
Arguments Fallback {A} a.

Record LandingPageData : Type := mkLandingPageData {
  productInfo : ProductInfo;
  classification : Reply ProductClassification;
  theme : Reply DesignTheme;
  content : Reply GeneratedContent;
  images : list ProcessedImage;
  countdown : CountdownTimer;
  codForm : CODFormConfig
}.

(** What one run reads from the remote services, call site by call site
    (each is executed at most once in a run):
    - [browse]: the [try] block of [browseAiService.scrapeProductPage]
      (task creation, polling, [parseProductData]);
    - [serp_in_scraper], [serp_in_generator]: the [try] block of
      [serpApiService.extractProductInfo], called from the [catch] of
      [scrapeProductPage] and from the [catch] of
      [LandingPageGenerator.extractProductInfo];
    - [chat_classify], [chat_theme], [chat_content]: [chatCompletion] in
      the three methods of [groqService];
    - [remove_bg i]: the blob URL of the [i]-th image, [None] when the
      request fails; [upload i]: fetching that URL and uploading the blob;
    - [now]: [new Date()] in [createCountdownTimer]. *)
Record Services : Type := mkServices {
  browse : Result ProductInfo;
  serp_in_scraper : Result ProductInfo;
  serp_in_generator : Result ProductInfo;
  chat_classify : Result string;
  chat_theme : Result string;
  chat_content : Result string;
  remove_bg : nat → option string;
  upload : nat → Result CloudinaryUploadResponse;
  now : Date
}.

(** *** [serpApiService] and [browseAiService] *)

(** [serpApiService.extractProductInfo]: whatever the [try] block
    throws is replaced by one fixed error. *)
Definition serp_extractProductInfo (tryBlock : Result ProductInfo)
    : Result ProductInfo :=
  match tryBlock with
  | Ok info => Ok info
  | Throw _ => Throw (ErrorObj "Failed to extract product information")
  end.

(** [browseAiService.scrapeProductPage]: the [catch] returns the promise
    of [serpApiService.extractProductInfo(url)]. *)
Definition scrapeProductPage (sv : Services) : Result ProductInfo :=
  match browse sv with
  | Ok info => Ok info
  | Throw _ => serp_extractProductInfo (serp_in_scraper sv)
  end.

(** *** [groqService] *)

(** The template literals of the prompts read the properties of the
    classification: a [TypeError] when it is [null]. *)
Definition readClassification (classification : Reply ProductClassification)
    : Result unit :=
  match classification with
  | Parsed j =>
      if json_is_null j then Throw (ErrorObj null_read_message) else Ok tt
  | Fallback _ => Ok tt
  end.

Definition classifyProduct (chat : Result string) (productInfo : ProductInfo)
    : Result (Reply ProductClassification) :=
  match chat with
  | Throw e => Throw e
  | Ok response =>
      match JSON_parse response with
      | Some j => Ok (Parsed j)
      | None =>
          Ok (Fallback {|
            pc_category := other;
            pc_subcategory := "general";
            pc_targetAudience := general;
            pc_priceRange :=
              if num_ltb (pi_price productInfo) (num_of_Z 50) then budget
              else if num_ltb (pi_price productInfo) (num_of_Z 200) then mid_range
              else premium
          |})
      end
  end.

Definition generateDesignTheme (chat : Result string)
    (classification : Reply ProductClassification) : Result (Reply DesignTheme) :=
  match readClassification classification with
  | Throw e => Throw e
  | Ok _ =>
      match chat with
      | Throw e => Throw e
      | Ok response =>
          match JSON_parse response with
          | Some j => Ok (Parsed j)
          | None =>
              Ok (Fallback {|
                th_name := "Default Theme";
                th_colorPalette := {|
                  primary := "#3B82F6";
                  secondary := "#1E40AF";
                  accent := "#F59E0B";
                  background := "#FFFFFF";
                  text := "#1F2937";
                  textLight := "#6B7280"
                |};
                th_fonts := {|
                  f_heading := "Inter"; f_body := "Inter"; f_accent := "Inter"
                |};
                th_style := "modern"
              |})
          end
      end
  end.

Definition generateContent (chat : Result string) (productInfo : ProductInfo)
    (classification : Reply ProductClassification)
    : Result (Reply GeneratedContent) :=
  match readClassification classification with
  | Throw e => Throw e
  | Ok _ =>
      match chat with
      | Throw e => Throw e
      | Ok response =>
          match JSON_parse response with
          | Some j => Ok (Parsed j)
          | None =>
              Ok (Fallback {|
                headline := "Amazing " +:+ pi_name productInfo;
                subheadline := "Get yours today with fast delivery!";
                gc_description := pi_description productInfo;
                benefits :=
                  ["High Quality"; "Fast Shipping"; "Great Value";
                   "Customer Support"];
                upsellCopy := "Limited time offer - get yours now!";
                urgencyText := "Only few left in stock!";
                ctaText := "Order Now";
                testimonials :=
                  [mkTestimonial "John D." (num_of_Z 5) "Great product!" true;
                   mkTestimonial "Sarah M." (num_of_Z 5) "Highly recommend!" true;
                   mkTestimonial "Mike R." (num_of_Z 4) "Good value for money." true];
                faq :=
                  [mkFAQ "How long is shipping?" "3-5 business days.";
                   mkFAQ "What is your return policy?"
                     "30-day money back guarantee."]
              |})
          end
      end
  end.

(** *** [cloudinaryService] and [imageProcessingService] *)

Definition generateOptimizedUrl (publicId transformations : string) : string :=
  "https://res.cloudinary.com/" +:+ CLOUDINARY_CLOUD_NAME +:+ "/image/upload/"
    +:+ transformations +:+ "/" +:+ publicId.

Definition generateThumbnailUrl (publicId : string) : string :=
  generateOptimizedUrl publicId "c_thumb,w_200,h_200,q_auto,f_auto".

(** The body of the [for] loop, for the image of index [i]. *)
Definition processImage (sv : Services) (i : nat) (imageUrl : string)
    : ProcessedImage :=
  let backgroundRemovedUrl := default imageUrl (remove_bg sv i) in
  match upload sv i with
  | Ok uploadResult => {|
      original := imageUrl;
      backgroundRemoved := backgroundRemovedUrl;
      cloudinaryUrl := secure_url uploadResult;
      optimizedUrl :=
        generateOptimizedUrl (public_id uploadResult)
          "c_fill,w_800,h_600,q_auto,f_auto";
      thumbnailUrl := generateThumbnailUrl (public_id uploadResult)
    |}
  | Throw _ => {|
      original := imageUrl;
      backgroundRemoved := imageUrl;
      cloudinaryUrl := imageUrl;
      optimizedUrl := imageUrl;
      thumbnailUrl := imageUrl
    |}
  end.

Definition processProductImages (sv : Services) (images : list string)
    : list ProcessedImage :=
  imap (processImage sv) images.

(** *** [LandingPageGenerator] *)

(** Whether a progress callback was given to the constructor. *)
Variable progressCallback : bool.

Definition updateProgress (step : string) (progress : Z) (message : string)
    (error : option string) : M unit :=
  λ trace,
    if progressCallback
    then (trace ++ [mkGenerationProgress step progress message
                      (progress =? 100) error], Ok tt)
    else (trace, Ok tt).

Definition extractProductInfo (sv : Services) : M ProductInfo :=
  try_catch (await (scrapeProductPage sv))
    (λ _, await (serp_extractProductInfo (serp_in_generator sv))).

Definition createCountdownTimer (sv : Services)
    (customizations : option Customizations) : CountdownTimer :=
  let hours := JS.or_default (customizations ≫= countdownHours) 24 in
  let endTime := addHours (now sv) hours in
  let urgencyLevel := default medium (customizations ≫= urgencyLevel) in
  let titles (level : UrgencyLevel) : string :=
    match level with
    | low => "Special Offer Ends Soon"
    | medium => "Limited Time Offer"
    | high => "FLASH SALE - Ends Today!"
    end in
  {| endTime := endTime; title := titles urgencyLevel;
     ct_urgencyLevel := urgencyLevel |}.

Definition createCODForm : CODFormConfig := {|
  enabled := true;
  fields := ["name"; "phone"; "email"; "address"; "city"; "state"; "pincode";
             "quantity"];
  validationRules :=
    [("name", mkValidationRule true (Some 2) None None None);
     ("phone", mkValidationRule true None (Some "^[0-9]{10}$") None None);
     ("email", mkValidationRule false None
                 (Some "^[^\s@]+@[^\s@]+\.[^\s@]+$") None None);
     ("address", mkValidationRule true (Some 10) None None None);
     ("city", mkValidationRule true (Some 2) None None None);
     ("state", mkValidationRule true (Some 2) None None None);
     ("pincode", mkValidationRule true None (Some "^[0-9]{6}$") None None);
     ("quantity", mkValidationRule true None None (Some 1) (Some 10))]
|}.

Definition generateLandingPage (sv : Services)
    (request : GenerateLandingPageRequest) : M LandingPageData :=
  try_catch
    (updateProgress "starting" 0 "Starting landing page generation..." None;;
     updateProgress "extracting" 10
       "Extracting product information from URL..." None;;
     productInfo ← extractProductInfo sv;
     updateProgress "classifying" 25
       "Classifying product type and target audience..." None;;
     classification ← await (classifyProduct (chat_classify sv) productInfo);
     updateProgress "designing" 40
       "Generating design theme and color palette..." None;;
     theme ← await (generateDesignTheme (chat_theme sv) classification);
     updateProgress "content" 55
       "Generating persuasive content and copy..." None;;
     content ← await (generateContent (chat_content sv) productInfo classification);
     updateProgress "images" 70 "Processing product images..." None;;
     processedImages ← mret (processProductImages sv (pi_images productInfo));
     updateProgress "countdown" 85 "Setting up countdown timer..." None;;
     countdown ← mret (createCountdownTimer sv (customizations request));
     updateProgress "form" 95 "Configuring COD form..." None;;
     codForm ← mret createCODForm;
     updateProgress "completed" 100 "Landing page generated successfully!" None;;
     mret {|
       productInfo := productInfo;
       classification := classification;
       theme := theme;
       content := content;
       images := processedImages;
       countdown := countdown;
       codForm := codForm
     |})
    (λ error,
       let errorMessage := messageOf error "Unknown error occurred" in
       updateProgress "error" 0 "Generation failed" (Some errorMessage);;
       throw error).

(** *** What the specification says of a run, in the words of the model *)

(** The classification, design and content stages of a run that found
    [info] do not throw. *)
Definition laterStagesSucceed (sv : Services) (info : ProductInfo) : Prop :=
  ∃ classification theme content,
    classifyProduct (chat_classify sv) info = Ok classification
    ∧ generateDesignTheme (chat_theme sv) classification = Ok theme
    ∧ generateContent (chat_content sv) info classification = Ok content.

(** The report of a failure. *)
Definition errorReport (e : Exn) : GenerationProgress :=
  mkGenerationProgress "error" 0 "Generation failed" false
    (Some (messageOf e "Unknown error occurred")).

(** The report of completion. *)
Definition completedReport : GenerationProgress :=
  mkGenerationProgress "completed" 100 "Landing page generated successfully!"
    true None.

(** A report is well formed: its progress value lies between 0 and 100
    and it is flagged completed exactly at 100. *)
Definition wellFormed (report : GenerationProgress) : Prop :=
  0 ≤ progress report ≤ 100
  ∧ (completed report = true ↔ progress report = 100).

(** The progress values of a list of reports. *)
Definition progressValues (trace : list GenerationProgress) : list Z :=
  progress <$> trace.

(** The reports of a run without failure, in the order of the stages. *)
Definition schedule : list GenerationProgress := [
  mkGenerationProgress "starting" 0 "Starting landing page generation..."
    false None;
  mkGenerationProgress "extracting" 10
    "Extracting product information from URL..." false None;
  mkGenerationProgress "classifying" 25
    "Classifying product type and target audience..." false None;
  mkGenerationProgress "designing" 40
    "Generating design theme and color palette..." false None;
  mkGenerationProgress "content" 55
    "Generating persuasive content and copy..." false None;
  mkGenerationProgress "images" 70 "Processing product images..." false None;
  mkGenerationProgress "countdown" 85 "Setting up countdown timer..." false None;
  mkGenerationProgress "form" 95 "Configuring COD form..." false None;
  completedReport
].

(** What reaches the callback, if there is one. *)
Definition delivered (reports : list GenerationProgress)
    : list GenerationProgress :=
  if progressCallback then reports else [].

End Pipeline.

Arguments Parsed {Json A} j.
Arguments Fallback {Json A} a.

(** *** A host and remote services to run the generator on

    Numbers are whole, a parsed JSON value is its text, a date is its
    time in milliseconds. *)

Definition sampleParse (response : string) : option string :=
  if decide (response = "null") then Some response
  else if String.prefix "{" response then Some response
  else None.

Definition sampleIsNull (j : string) : bool := bool_decide (j = "null").

Definition sampleAddHours (d h : Z) : Z := d + h * 3600000.

Definition sampleInfo : ProductInfo (num := Z) :=
  mkProductInfo "Desk Lamp" "A lamp for the desk" 120 None
    ["https://shop.example/lamp.png"] "other" None [] [] None None.

Definition sampleRequest : GenerateLandingPageRequest :=
  mkGenerateLandingPageRequest "https://www.amazon.in/dp/XYZ" None.

(** Browse AI fails, the search inside the scraper fails, the search of
    the generator succeeds; the replies of the LLM are not JSON; the
    upload of the image fails. *)
Definition fallbackServices : Services (num := Z) (Date := Z) := {|
  browse := Throw (ErrorObj "Browse AI task timeout");
  serp_in_scraper := Throw (ErrorObj "SerpAPI error: Too Many Requests");
  serp_in_generator := Ok sampleInfo;
  chat_classify := Ok "Sure! Here is the classification you asked for.";
  chat_theme := Ok "";
  chat_content := Ok "I cannot help with that.";
  remove_bg := λ _, None;
  upload := λ _, Throw (ErrorObj "Cloudinary upload error: Unauthorized");
  now := 1700000000000
|}.

(** The extractors as in [fallbackServices], with the LLM service down. *)
Definition groqDownServices : Services (num := Z) (Date := Z) := {|
  browse := Throw (ErrorObj "Browse AI task timeout");
  serp_in_scraper := Throw (ErrorObj "SerpAPI error: Too Many Requests");
  serp_in_generator := Ok sampleInfo;
  chat_classify := Throw (ErrorObj "Groq API error: Service Unavailable");
  chat_theme := Throw (ErrorObj "Groq API error: Service Unavailable");
  chat_content := Throw (ErrorObj "Groq API error: Service Unavailable");
  remove_bg := λ _, None;
  upload := λ _, Throw (ErrorObj "Cloudinary upload error: Unauthorized");
  now := 1700000000000
|}.

(** The same, with the search of the generator failing too. *)
Definition failingServices : Services (num := Z) (Date := Z) := {|
  browse := Throw (ErrorObj "Browse AI task timeout");
  serp_in_scraper := Throw (ErrorObj "SerpAPI error: Too Many Requests");
  serp_in_generator := Throw (ErrorObj "SerpAPI error: Too Many Requests");
  chat_classify := Ok "";
  chat_theme := Ok "";
  chat_content := Ok "";
  remove_bg := λ _, None;
  upload := λ _, Throw (ErrorObj "Cloudinary upload error: Unauthorized");
  now := 1700000000000
|}.

(** A run of the generator, with a progress callback, on the host above. *)
Definition sampleRun (sv : Services (num := Z) (Date := Z))
    : list GenerationProgress * Result (LandingPageData (Json := string)) :=
  run (generateLandingPage sampleParse sampleIsNull sampleAddHours
         "Cannot read properties of null (reading 'category')" "demo" true
         sv sampleRequest).

End Generator.

(** ** The cash-on-delivery order service ([codOrderService]) *)

Module COD.

Import JSString.

(** [quantity] is what [parseInt] made of the selected value: an integer,
    or [NaN] ([None]). *)
Record CODFormData : Type := mkCODFormData {
  name : list Z;
  phone : list Z;
  email : option (list Z);
  address : list Z;
  city : list Z;
  state : list Z;
  pincode : list Z;
  quantity : option Z;
  variant : option (list Z)
}.

(** [productInfo] of the request, without its [price] (a number that the
    service only logs). *)
Record OrderedProduct : Type := mkOrderedProduct {
  op_name : string;
  op_variant : option string
}.

Record CODOrderRequest : Type := mkCODOrderRequest {
  landingPageId : string;
  formData : CODFormData;
  productInfo : OrderedProduct
}.

Record SubmitResult : Type := mkSubmitResult {
  orderId : string;
  success : bool;
  message : string
}.

(** What [submitOrder] reads from its environment: [Date.now()] and the
    string [Math.random().toString(36)]. *)
Record Clock : Type := mkClock {
  Date_now : Z;
  random_toString36 : string
}.

(** [/^[0-9]{10}$/], [/^[0-9]{6}$/] and [/^[^\s@]+@[^\s@]+\.[^\s@]+$/]. *)
Definition phone_pattern : regex := Repeat 10 (Class is_digit).

Definition pincode_pattern : regex := Repeat 6 (Class is_digit).

Definition not_space_at (c : Z) : bool :=
  negb (is_space c || is_char "@" c).

Definition email_pattern : regex :=
  Seq (Plus (Class not_space_at))
    (Seq (Class (is_char "@"))
       (Seq (Plus (Class not_space_at))
          (Seq (Class (is_char "."))
             (Plus (Class not_space_at))))).

(** [if (cond) errors.push(msg)]. *)
Definition push_if (cond : bool) (msg : string) (errors : list string)
    : list string :=
  if cond then errors ++ [msg] else errors.

(** [!formData.quantity || formData.quantity < 1 || formData.quantity > 10]. *)
Definition quantity_rejected (q : option Z) : bool :=
  match q with
  | None => true
  | Some n => (n =? 0) || (n <? 1) || (10 <? n)
  end.

(** [formData.email && !pattern.test(formData.email)]. *)
Definition email_rejected (e : option (list Z)) : bool :=
  match e with
  | None => false
  | Some s => negb (falsy s) && negb (test email_pattern s)
  end.

(** The [errors] array when the last [push] is done. *)
Definition collectErrors (formData : CODFormData) : list string :=
  let errors := [] in
  let errors :=
    push_if (falsy (name formData) || (strlen (name formData) <? 2))
      "Name must be at least 2 characters long" errors in
  let errors :=
    push_if (falsy (phone formData) || negb (test phone_pattern (phone formData)))
      "Phone number must be 10 digits" errors in
  let errors :=
    push_if (email_rejected (email formData)) "Invalid email format" errors in
  let errors :=
    push_if (falsy (address formData) || (strlen (address formData) <? 10))
      "Address must be at least 10 characters long" errors in
  let errors :=
    push_if (falsy (city formData) || (strlen (city formData) <? 2))
      "City is required" errors in
  let errors :=
    push_if (falsy (state formData) || (strlen (state formData) <? 2))
      "State is required" errors in
  let errors :=
    push_if (falsy (pincode formData)
             || negb (test pincode_pattern (pincode formData)))
      "Pincode must be 6 digits" errors in
  let errors :=
    push_if (quantity_rejected (quantity formData))
      "Quantity must be between 1 and 10" errors in
  errors.

Definition validateCODForm (formData : CODFormData) : Result unit :=
  let errors := collectErrors formData in
  if (0 <? length errors)%nat
  then Throw (ErrorObj (join ", " errors))
  else Ok tt.

Definition generateOrderId (clock : Clock) : string :=
  let timestamp := toString36 (Date_now clock) in
  let random := substr 2 5 (random_toString36 clock) in
  toUpperCase ("COD-" +:+ timestamp +:+ "-" +:+ random).

(** [processOrder] waits and logs; it throws nothing. *)
Definition processOrder (orderId : string) (request : CODOrderRequest)
    : Result unit := Ok tt.

Definition submitOrder (clock : Clock) (request : CODOrderRequest)
    : SubmitResult :=
  let attempt : Result SubmitResult :=
    match validateCODForm (formData request) with
    | Throw e => Throw e
    | Ok _ =>
        let orderId := generateOrderId clock in
        match processOrder orderId request with
        | Throw e => Throw e
        | Ok _ =>
            Ok (mkSubmitResult orderId true
                  "Order placed successfully! You will receive a confirmation call within 2 hours.")
        end
    end in
  match attempt with
  | Ok result => result
  | Throw error =>
      mkSubmitResult "" false (messageOf error "Failed to process order")
  end.

(** *** The rule set of the order form, field by field

    The table of the specification: which fields are required, their
    minimal lengths, patterns and bounds, and the message of each.  It is
    stated apart from [collectErrors], to compare the two. *)

Inductive Field : Type :=
  | FName | FPhone | FEmail | FAddress | FCity | FState | FPincode | FQuantity.

Definition all_fields : list Field :=
  [FName; FPhone; FEmail; FAddress; FCity; FState; FPincode; FQuantity].

Definition field_message (f : Field) : string :=
  match f with
  | FName => "Name must be at least 2 characters long"
  | FPhone => "Phone number must be 10 digits"
  | FEmail => "Invalid email format"
  | FAddress => "Address must be at least 10 characters long"
  | FCity => "City is required"
  | FState => "State is required"
  | FPincode => "Pincode must be 6 digits"
  | FQuantity => "Quantity must be between 1 and 10"
  end.

(** A required text of minimal length [n]. *)
Definition too_short (n : Z) (s : list Z) : bool := strlen s <? n.

(** A text that is present and made of exactly [n] digits. *)
Definition is_digits (n : nat) (s : list Z) : bool :=
  bool_decide (length s = n) && forallb is_digit s.

Definition violates (formData : CODFormData) (f : Field) : bool :=
  match f with
  | FName => too_short 2 (name formData)
  | FPhone => negb (is_digits 10 (phone formData))
  | FEmail =>
      match email formData with
      | None | Some [] => false
      | Some s => negb (test email_pattern s)
      end
  | FAddress => too_short 10 (address formData)
  | FCity => too_short 2 (city formData)
  | FState => too_short 2 (state formData)
  | FPincode => negb (is_digits 6 (pincode formData))
  | FQuantity =>
      match quantity formData with
      | None => true
      | Some n => negb ((1 <=? n) && (n <=? 10))
      end
  end.

(** The violated fields, in the order of the table. *)
Definition violatedFields (formData : CODFormData) : list Field :=
  List.filter (violates formData) all_fields.

(** The form with another phone number, and with another quantity. *)
Definition withPhone (p : list Z) (formData : CODFormData) : CODFormData :=
  mkCODFormData (name formData) p (email formData) (address formData)
    (city formData) (state formData) (pincode formData) (quantity formData)
    (variant formData).

Definition withQuantity (q : option Z) (formData : CODFormData) : CODFormData :=
  mkCODFormData (name formData) (phone formData) (email formData)
    (address formData) (city formData) (state formData) (pincode formData) q
    (variant formData).

(** The valid submission of the specification. *)
Definition validForm : CODFormData :=
  mkCODFormData (units "Al Amin") (units "9876543210") None
    (units "123 Long Enough Address") (units "Pune") (units "MH")
    (units "411001") (Some 3) None.

Definition validRequest : CODOrderRequest :=
  mkCODOrderRequest "lp_1700000000000_k3x9a1b2c" validForm
    (mkOrderedProduct "Desk Lamp" None).

(** A clock whose [Math.random()] is 0.5, in base 36 ["0.i"], and one
    whose [Math.random()] has eleven digits in base 36. *)
Definition halfClock : Clock := mkClock 1700000000000 "0.i".

Definition usualClock : Clock := mkClock 1700000000000 "0.4fzyo82mvyr".

(** The order-id format [COD-[0-9A-Z]+-[0-9A-Z]{5}]. *)
Definition is_base36_upper (c : Z) : bool := is_digit c || is_upper c.

Definition order_id_pattern : regex :=
  Seq (Lit "COD-")
    (Seq (Plus (Class is_base36_upper))
       (Seq (Class (is_char "-"))
          (Repeat 5 (Class is_base36_upper)))).

End COD.

(** ** The rest of the mock API

    The reads by id, the deletions, the update of an order and the list
    of products, over the store of [Api]. *)

Module ApiMore.

Import Api.

(** [UpdateOrderRequest]: an absent key is [None]. *)
Record UpdateOrderRequest : Type := mkUpdateOrderRequest {
  uo_status : option OrderStatus;
  uo_shippingAddress : option Address
}.

Section Store.

Context {num : Type} `{Numeric num}.

Local Abbreviation Store := (Api.Store num).
Local Abbreviation Product := (Api.Product num).
Local Abbreviation Order := (Api.Order num).

(** *** Users *)

Definition getUserById (env : Env) (id : string) (s : Store)
    : Result (ApiResponse User) :=
  if shouldSimulateError env then createErrorResponse "Failed to fetch user"
  else
    match findUser (mockUsers s) id with
    | None => createErrorResponse "User not found"
    | Some found => Ok (mkApiResponse found "User fetched successfully" true)
    end.

(** [mockUsers.splice(userIndex, 1)] removes the slot [userIndex]; the
    response carries [null]. *)
Definition deleteUser (env : Env) (id : string) (s : Store)
    : Store * Result (ApiResponse unit) :=
  if shouldSimulateError env then (s, createErrorResponse "Failed to delete user")
  else
    match list_find (λ u, u_id u = id) (mockUsers s) with
    | None => (s, createErrorResponse "User not found")
    | Some (userIndex, _) =>
        (mkStore (delete userIndex (mockUsers s)) (mockProducts s) (mockOrders s),
         Ok (mkApiResponse tt "User deleted successfully" true))
    end.

(** *** Products *)

Definition getProductById (env : Env) (id : string) (s : Store)
    : Result (ApiResponse Product) :=
  if shouldSimulateError env then createErrorResponse "Failed to fetch product"
  else
    match findProduct (mockProducts s) id with
    | None => createErrorResponse "Product not found"
    | Some found => Ok (mkApiResponse found "Product fetched successfully" true)
    end.

Definition deleteProduct (env : Env) (id : string) (s : Store)
    : Store * Result (ApiResponse unit) :=
  if shouldSimulateError env then (s, createErrorResponse "Failed to delete product")
  else
    match list_find (λ p, p_id p = id) (mockProducts s) with
    | None => (s, createErrorResponse "Product not found")
    | Some (productIndex, _) =>
        (mkStore (mockUsers s) (delete productIndex (mockProducts s)) (mockOrders s),
         Ok (mkApiResponse tt "Product deleted successfully" true))
    end.

(** The values of the fields of a product: strings, numbers, or
    [undefined] for an absent [imageUrl] and for a key that names no
    field. *)
Inductive ProductValue : Type :=
  | PUndefined
  | PString (s : string)
  | PNumber (n : num).


(** [a > b] on two values read under one key: two strings by their code
    units, two numbers as numbers, and nothing is greater or smaller
    than [undefined].  A string is never compared with a number there,
    and the model answers [false]. *)
Definition product_gt (a b : ProductValue) : bool :=
  match a, b with
  | PString s, PString t => JSString.string_gt s t
  | PNumber x, PNumber y => num_ltb y x
  | _, _ => false
  end.

(** [String.prototype.toLowerCase] of the engine. *)
Variable toLowerCase : string → string.




(** *** Orders *)



Definition status_string (st : OrderStatus) : string :=
  match st with
  | pending => "pending"
  | processing => "processing"
  | shipped => "shipped"
  | delivered => "delivered"
  | cancelled => "cancelled"
  end.

(** [(o as any)[key]], as [>] sees it: the user and the address are
    objects and the items an array of objects, which [>] compares by the
    strings that [toString] makes of them. *)
Definition orderField (o : Order) (key : string) : ProductValue :=
  if decide (key = "id") then PString (o_id o)
  else if decide (key = "userId") then PString (o_userId o)
  else if decide (key = "user")
       then from_option (λ _, PString "[object Object]") PUndefined (o_user o)
  else if decide (key = "items")
       then PString (JSString.join "," ((λ _, "[object Object]") <$> o_items o))
  else if decide (key = "total") then PNumber (o_total o)
  else if decide (key = "status") then PString (status_string (o_status o))
  else if decide (key = "shippingAddress") then PString "[object Object]"
  else if decide (key = "createdAt") then PString (o_createdAt o)
  else if decide (key = "updatedAt") then PString (o_updatedAt o)
  else PUndefined.

(** The message of the [TypeError] of a method call on [undefined]. *)
Variable undefined_read_message : string.

(** The search predicate of [getOrders]; [order.user?.name...] is
    [undefined], which is falsy, for an order without a user, and on an
    order with a user it reads the name and the email as [getUsers]
    does. *)
Definition orderMatches (order : Order) (search : string) : Result bool :=
  if JSString.includes (toLowerCase (o_id order)) (toLowerCase search)
  then Ok true
  else
    match o_user order with
    | None => Ok false
    | Some u => userMatches toLowerCase undefined_read_message u search
    end.

(** "Apply status filter". *)
Definition applyStatus (orders : list Order) (params : QueryEngine.QueryParams)
    : list Order :=
  match JS.truthy_string (QueryEngine.status params) with
  | Some wanted =>
      List.filter (λ o, bool_decide (status_string (o_status o) = wanted)) orders
  | None => orders
  end.

(** [getOrders(params)], on an engine whose [sort] is [array_sort]. *)
Definition getOrders
    (array_sort : (Order → Order → Z) → list Order → list Order)
    (env : Env) (params : QueryEngine.QueryParams) (s : Store)
    : Result (PaginatedResponse Order) :=
  if shouldSimulateError env then createErrorResponse "Failed to fetch orders"
  else
    let filteredOrders := applyStatus (mockOrders s) params in
    match
      QueryEngine.filterAndPaginateThrowing orderField product_gt array_sort
        filteredOrders params (Some orderMatches)
    with
    | Throw e => Throw e
    | Ok result =>
        Ok (mkPaginatedResponse (QueryEngine.data result)
              (QueryEngine.pagination result) "Orders fetched successfully" true)
    end.

Definition updateOrder (env : Env) (id : string) (orderData : UpdateOrderRequest)
    (s : Store) : Store * Result (ApiResponse Order) :=
  if shouldSimulateError env then (s, createErrorResponse "Failed to update order")
  else
    match list_find (λ o, o_id o = id) (mockOrders s) with
    | None => (s, createErrorResponse "Order not found")
    | Some (orderIndex, found) =>
        let updatedOrder := {|
          o_id := o_id found;
          o_userId := o_userId found;
          o_user := o_user found;
          o_items := o_items found;
          o_total := o_total found;
          o_status := spread (o_status found) (uo_status orderData);
          o_shippingAddress :=
            spread (o_shippingAddress found) (uo_shippingAddress orderData);
          o_createdAt := o_createdAt found;
          o_updatedAt := getCurrentTimestamp env 0
        |} in
        (mkStore (mockUsers s) (mockProducts s)
           (<[orderIndex := updatedOrder]> (mockOrders s)),
         Ok (mkApiResponse updatedOrder "Order updated successfully" true))
    end.

Definition deleteOrder (env : Env) (id : string) (s : Store)
    : Store * Result (ApiResponse unit) :=
  if shouldSimulateError env then (s, createErrorResponse "Failed to delete order")
  else
    match list_find (λ o, o_id o = id) (mockOrders s) with
    | None => (s, createErrorResponse "Order not found")
    | Some (orderIndex, _) =>
        (mkStore (mockUsers s) (mockProducts s) (delete orderIndex (mockOrders s)),
         Ok (mkApiResponse tt "Order deleted successfully" true))
    end.

(** *** The mutations as requests

    One call of a method that writes to the store: the method with its
    arguments.  [perform] is the store after the call, whether the call
    returns or throws. *)
Inductive Mutation : Type :=
  | CreateUser (userData : CreateUserRequest)
  | UpdateUser (id : string) (userData : UpdateUserRequest)
  | DeleteUser (id : string)
  | CreateProduct (productData : CreateProductRequest num)
  | UpdateProduct (id : string) (productData : UpdateProductRequest num)
  | DeleteProduct (id : string)
  | CreateOrder (orderData : CreateOrderRequest num)
  | UpdateOrder (id : string) (orderData : UpdateOrderRequest)
  | DeleteOrder (id : string).

Definition perform (call : Env * Mutation) (s : Store) : Store :=
  match call.2 with
  | CreateUser userData => (createUser call.1 userData s).1
  | UpdateUser id userData => (updateUser call.1 id userData s).1
  | DeleteUser id => (deleteUser call.1 id s).1
  | CreateProduct productData => (createProduct call.1 productData s).1
  | UpdateProduct id productData => (updateProduct call.1 id productData s).1
  | DeleteProduct id => (deleteProduct call.1 id s).1
  | CreateOrder orderData => (createOrder call.1 orderData s).1
  | UpdateOrder id orderData => (updateOrder call.1 id orderData s).1
  | DeleteOrder id => (deleteOrder call.1 id s).1
  end.

(** The calls of a list, one after the other. *)
Definition performAll (calls : list (Env * Mutation)) (s : Store) : Store :=
  fold_left (λ s call, perform call s) calls s.

Definition deletesOrder (m : Mutation) : bool :=
  match m with
  | DeleteOrder _ => true
  | _ => false
  end.

(** What an order holds of the purchase: its id, its items with their
    prices and quantities, and its total. *)
Definition ledger (s : Store) : list (string * list (OrderItem num) * num) :=
  (λ o, (o_id o, o_items o, o_total o)) <$> mockOrders s.

End Store.

Arguments ProductValue : clear implicits.
Arguments Mutation : clear implicits.

(** The parameters that ask for the page [p]. *)
Definition withPage (p : Z) (params : QueryEngine.QueryParams)
    : QueryEngine.QueryParams :=
  QueryEngine.mkQueryParams (Some p) (QueryEngine.limit params)
    (QueryEngine.sortBy params) (QueryEngine.sortOrder params)
    (QueryEngine.search params) (QueryEngine.category params)
    (QueryEngine.status params).

(** The page numbers [1 .. n]. *)
Definition pageNumbers (n : Z) : list Z :=
  (λ k, Z.of_nat k + 1) <$> seq 0 (Z.to_nat n).

(** The sample store after the sample order. *)
Definition orderedStore : Store Z :=
  (createOrder sampleEnv sampleOrder sampleStore).1.

(** The sample store in which the name of the user 2 is erased, by an
    update with [{ name: undefined }], before the sample order. *)
Definition erasedStore : Store Z :=
  (createOrder sampleEnv sampleOrder
     (updateUser laterEnv "2" (mkUpdateUserRequest (Present None) Absent Absent)
        sampleStore).1).1.

(** Calls on the sample store: the sample order, a change of a price, a
    change of the status of the order, a deletion of its user, and an
    update that the simulated fault hits. *)
Definition sampleCalls : list (Env * Mutation Z) := [
  (sampleEnv, CreateOrder sampleOrder);
  (laterEnv,
   UpdateProduct "1"
     (mkUpdateProductRequest None None (Some 999) None None None));
  (laterEnv,
   UpdateOrder (generateId sampleEnv 2) (mkUpdateOrderRequest (Some shipped) None));
  (laterEnv, DeleteUser "2");
  (faultyEnv, UpdateUser "1" emptyUserUpdate)
].

End ApiMore.

(** ** Remote services for more runs of the generator *)

Module GeneratorSamples.

Import Generator.

(** The services of [fallbackServices], with an LLM that answers the
    classification request with [null]. *)
Definition nullServices : Services (num := Z) (Date := Z) := {|
  browse := Throw (ErrorObj "Browse AI task timeout");
  serp_in_scraper := Throw (ErrorObj "SerpAPI error: Too Many Requests");
  serp_in_generator := Ok sampleInfo;
  chat_classify := Ok "null";
  chat_theme := Ok "";
  chat_content := Ok "";
  remove_bg := λ _, None;
  upload := λ _, Throw (ErrorObj "Cloudinary upload error: Unauthorized");
  now := 1700000000000
|}.

End GeneratorSamples.

(** ** Polling the scraper ([browseAiService.pollTaskCompletion]) *)

Module BrowseAi.

Section Poll.

(** The task as the service returns it ([data.result]) and its
    [status]. *)
Context {Task : Type}.
Variable status : Task → string.

(** What a call of [pollTaskCompletion] did: its outcome, the number of
    requests it made and the time it spent waiting between them, in
    milliseconds. *)
Record Polled : Type := mkPolled {
  outcome : Result Task;
  requests : nat;
  waited : Z
}.

Definition maxAttempts : nat := 30.

(** The [while (attempts < maxAttempts)] loop, with [remaining] rounds to
    go, [maxAttempts - attempts] of them.  [fetch k] is what the request
    of the round [k] gives: the task, or what [fetch], [response.json()]
    or the read of [data.result.status] throws. *)
Fixpoint pollLoop (fetch : nat → Result Task) (remaining attempts : nat)
    : Polled :=
  match remaining with
  | O =>
      mkPolled (Throw (ErrorObj "Browse AI task timeout")) attempts
        (2000 * Z.of_nat attempts)
  | S remaining' =>
      match fetch attempts with
      | Throw e => mkPolled (Throw e) (S attempts) (2000 * Z.of_nat attempts)
      | Ok task =>
          if decide (status task = "successful")
          then mkPolled (Ok task) (S attempts) (2000 * Z.of_nat attempts)
          else if decide (status task = "failed")
          then mkPolled (Throw (ErrorObj "Browse AI task failed")) (S attempts)
                 (2000 * Z.of_nat attempts)
          else pollLoop fetch remaining' (S attempts)
      end
  end.

Definition pollTaskCompletion (fetch : nat → Result Task) : Polled :=
  pollLoop fetch maxAttempts 0.

(** A reply that ends the polling: anything but a task that is neither
    successful nor failed. *)
Definition decisive (reply : Result Task) : bool :=
  match reply with
  | Ok task =>
      bool_decide (status task = "successful")
      || bool_decide (status task = "failed")
  | Throw _ => true
  end.

End Poll.

Arguments Polled : clear implicits.

(** A task that is its status, and a service that answers "in-progress"
    three times and then "successful". *)
Definition slowService (k : nat) : Result string :=
  if (k <? 3)%nat then Ok "in-progress" else Ok "successful".

End BrowseAi.

(** ** The dashboard ([dashboardApi.getStats]) *)

Module Dashboard.

Import Api.

Section Stats.

Context {num : Type} `{Numeric num}.

Local Abbreviation Store := (Api.Store num).
Local Abbreviation Product := (Api.Product num).
Local Abbreviation Order := (Api.Order num).
Local Abbreviation OrderItem := (Api.OrderItem num).

(** [new Date(s).getTime()]: the time in milliseconds, [None] for [NaN]
    (a text that is no date). *)
Variable Date_getTime : string → option Z.

(** On numbers: whether [x] is falsy ([0] or [NaN]), and the answer
    [x - y] of a comparator as [sort] reads it: its sign, [0] for
    [NaN]. *)
Variable num_falsy : num → bool.
Variable num_sub_sign : num → num → Z.

(** [Array.prototype.sort] of the engine, on the orders and on the
    products with their counts. *)
Variable sort_orders : (Order → Order → Z) → list Order → list Order.
Variable sort_counted :
  (Product * num → Product * num → Z) → list (Product * num)
  → list (Product * num).

(** A product with its [orderCount]. *)
Record DashboardStats : Type := mkDashboardStats {
  totalUsers : Z;
  totalProducts : Z;
  totalOrders : Z;
  totalRevenue : num;
  recentOrders : list Order;
  topProducts : list (Product * num)
}.

(** [(a, b) => new Date(b.createdAt).getTime() - new Date(a.createdAt).getTime()]. *)
Definition byCreatedAtDesc (a b : Order) : Z :=
  match Date_getTime (o_createdAt b), Date_getTime (o_createdAt a) with
  | Some tb, Some ta => tb - ta
  | _, _ => 0
  end.

(** [(a, b) => b.orderCount - a.orderCount]. *)
Definition byOrderCountDesc (a b : Product * num) : Z := num_sub_sign b.2 a.2.

(** [x || 0] on a count that may be absent. *)
Definition or_zero (x : option num) : num :=
  match x with
  | Some n => if num_falsy n then num_of_Z 0 else n
  | None => num_of_Z 0
  end.

(** [productOrderCount[item.productId] =
      (productOrderCount[item.productId] || 0) + item.quantity]. *)
Definition countItem (productOrderCount : string → option num) (item : OrderItem)
    : string → option num :=
  λ id,
    if decide (id = oi_productId item)
    then Some (num_add (or_zero (productOrderCount (oi_productId item)))
                 (oi_quantity item))
    else productOrderCount id.

Definition countOrders (orders : list Order) : string → option num :=
  fold_left (λ counts order, fold_left countItem (o_items order) counts)
    orders (λ _, None).

(** [getStats()]: [mockOrders.sort(...)] sorts the array of the store
    itself, in place. *)
Definition getStats (env : Env) (s : Store)
    : Store * Result (ApiResponse DashboardStats) :=
  if shouldSimulateError env
  then (s, createErrorResponse "Failed to fetch dashboard stats")
  else
    let totalRevenue :=
      fold_left (λ sum order, num_add sum (o_total order)) (mockOrders s)
        (num_of_Z 0) in
    let mockOrders' := sort_orders byCreatedAtDesc (mockOrders s) in
    let recentOrders := JS.slice mockOrders' 0 5 in
    let productOrderCount := countOrders mockOrders' in
    let topProducts :=
      JS.slice
        (sort_counted byOrderCountDesc
           ((λ product, (product, or_zero (productOrderCount (p_id product))))
              <$> mockProducts s))
        0 5 in
    (mkStore (mockUsers s) (mockProducts s) mockOrders',
     Ok (mkApiResponse
           {| totalUsers := Z.of_nat (length (mockUsers s));
              totalProducts := Z.of_nat (length (mockProducts s));
              totalOrders := Z.of_nat (length mockOrders');
              totalRevenue := totalRevenue;
              recentOrders := recentOrders;
              topProducts := topProducts |}
           "Dashboard stats fetched successfully" true)).

End Stats.

Arguments DashboardStats : clear implicits.

(** The times of the two orders of [twoOrders]. *)
Definition sampleGetTime (s : string) : option Z :=
  if decide (s = "2024-02-01T00:00:00.000Z") then Some 1706745600000
  else if decide (s = "2024-03-01T00:00:00.000Z") then Some 1709251200000
  else None.

(** The sample store after two orders, the second a month after the
    first. *)
Definition twoOrders : Api.Store Z :=
  (createOrder laterEnv sampleOrder
     (createOrder sampleEnv sampleOrder sampleStore).1).1.

End Dashboard.

(** ** The hooks of the landing page
    ([src/hooks/useLandingPageGenerator.ts]) and the utilities they call
    ([landingPageUtils]) *)

Module Hooks.

Import JSString.

(** *** [formatCountdownTime] and [useCountdownTimer] *)




(** *** [validateProductUrl] and the mutation of [useGenerateLandingPage] *)

Definition supportedDomains : list string := [
  "amazon.com"; "amazon.in"; "flipkart.com"; "myntra.com"; "ajio.com";
  "nykaa.com"; "shopify.com"; "woocommerce.com"
].

Section Url.

(** [new URL(url).hostname]; [None] when the constructor throws. *)
Variable URL_hostname : string → option string.

Definition validateProductUrl (url : string) : bool :=
  match URL_hostname url with
  | Some hostname =>
      existsb (λ domain, includes hostname domain) supportedDomains
  | None => false
  end.

Context {num : Type} `{Numeric num} {Json Date : Type}.
Variable JSON_parse : string → option Json.
Variable json_is_null : Json → bool.
Variable addHours : Date → Z → Date.
Variable null_read_message : string.
Variable CLOUDINARY_CLOUD_NAME : string.

(** [mutationFn]: the generator is made with a progress callback, which
    hands each report to [setProgress]; the reports of the run are those
    calls.  The call [setLandingPageData(result)] that ends it is
    written down in [generate]. *)
Definition mutationFn (sv : Generator.Services (num := num) (Date := Date))
    (request : Generator.GenerateLandingPageRequest)
    : Generator.M (Generator.LandingPageData (Json := Json)) :=
  if negb (validateProductUrl (Generator.productUrl request))
  then
    Generator.throw
      (ErrorObj "Unsupported product URL. Please use URLs from Amazon, Flipkart, Myntra, or other supported platforms.")
  else
    Generator.generateLandingPage JSON_parse json_is_null addHours
      null_read_message CLOUDINARY_CLOUD_NAME true sv request.

(** *** [generate], the mutation with its [onSuccess] and [onError] *)

(** A value of the state [progress]: a report of the generator, whose
    [message] is a string, or the object that [onError] makes, whose
    [message] and [error] are [error.message]. *)
Record Progress : Type := mkProgress {
  hp_step : string;
  hp_progress : Z;
  hp_message : option string;
  hp_completed : bool;
  hp_error : option string
}.

Definition ofReport (report : Generator.GenerationProgress) : Progress :=
  mkProgress (Generator.step report) (Generator.progress report)
    (Some (Generator.message report)) (Generator.completed report)
    (Generator.error report).

(** [error.message] as [onError] reads it.  A thrown value that is no
    [Error] object is taken to have no [message]: [undefined]. *)
Definition error_message (e : Exn) : option string :=
  match e with
  | ErrorObj m => Some m
  | OtherThrown => None
  end.

Inductive Toast : Type :=
  | toast_success (text : string)
  | toast_error (text : string).

(** What one call of [generate] does: the values handed to
    [setProgress], in their order ([None] is [null]), the values handed
    to [setLandingPageData], the toasts, and what the mutation settles
    with. *)
Record Generation : Type := mkGeneration {
  setProgress : list (option Progress);
  setLandingPageData :
    list (Generator.LandingPageData (num := num) (Json := Json) (Date := Date));
  toasts : list Toast;
  settled :
    Result (Generator.LandingPageData (num := num) (Json := Json) (Date := Date))
}.

(** The object that [onError] hands to [setProgress]. *)
Definition failure (e : Exn) : Progress :=
  mkProgress "error" 0 (error_message e) false (error_message e).

(** [generate(request)]: [useMutation] runs [mutationFn] and then calls
    [onSuccess] with what it returned or [onError] with what it threw. *)
Definition generate (sv : Generator.Services (num := num) (Date := Date))
    (request : Generator.GenerateLandingPageRequest) : Generation :=
  let '(reports, result) := Generator.run (mutationFn sv request) in
  match result with
  | Ok data =>
      mkGeneration ((Some ∘ ofReport <$> reports) ++ [None]) [data]
        [toast_success "Landing page generated successfully!"] (Ok data)
  | Throw e =>
      mkGeneration ((Some ∘ ofReport <$> reports) ++ [Some (failure e)]) []
        [toast_error
           ("Generation failed: " +:+ default "undefined" (error_message e))]
        (Throw e)
  end.

End Url.

(** A parser for two URLs: one of a supported shop, one of a host that
    only starts like one. *)
Definition sampleHostname (url : string) : option string :=
  if decide (url = "https://www.amazon.in/dp/XYZ") then Some "www.amazon.in"
  else if decide (url = "https://amazon.com.shop.example/item")
       then Some "amazon.com.shop.example"
  else None.

(** *** [useFormValidation] *)

(** [Number.prototype.toString()] on integers. *)
Definition digit10 (d : Z) : ascii := ascii_of_N (Z.to_N (48 + d)).

Fixpoint digits10 (fuel : nat) (n : Z) (acc : string) : string :=
  match fuel with
  | O => acc
  | S fuel' =>
      if n <=? 0 then acc
      else digits10 fuel' (n / 10) (String (digit10 (n mod 10)) acc)
  end.

Definition Number_toString (n : Z) : string :=
  if n =? 0 then "0"
  else if n <? 0
       then String "-" (digits10 (S (Z.to_nat (Z.log2 (- n)))) (- n) EmptyString)
       else digits10 (S (Z.to_nat (Z.log2 n))) n EmptyString.

(** The value of a field of the form: a text, a number ([None] is [NaN])
    or [undefined]. *)
Inductive FormValue : Type :=
  | VUndefined
  | VText (s : list Z)
  | VNumber (n : option Z).

(** The rules of a field; a key that is absent is [None] ([false] for
    [required]). *)
Record Rule : Type := mkRule {
  required : bool;
  minLength : option Z;
  maxLength : option Z;
  pattern : option regex;
  min : option Z;
  max : option Z
}.

(** Truthiness of a value, and of a number of the rules. *)
Definition truthy (value : FormValue) : bool :=
  match value with
  | VUndefined => false
  | VText s => negb (falsy s)
  | VNumber (Some n) => negb (n =? 0)
  | VNumber None => false
  end.

Definition truthy_number (o : option Z) : option Z :=
  match o with
  | Some n => if n =? 0 then None else Some n
  | None => None
  end.

(** [s.trim()]: the white space and the line terminators at both ends
    removed. *)
Fixpoint trimStart (s : list Z) : list Z :=
  match s with
  | [] => []
  | c :: s' => if is_space c then trimStart s' else s
  end.

Definition trim (s : list Z) : list Z :=
  reverse (trimStart (reverse (trimStart s))).

(** [typeof value === 'string' && value.trim() === '']. *)
Definition blank (value : FormValue) : bool :=
  match value with
  | VText s => bool_decide (trim s = [])
  | _ => false
  end.

(** [value.length], [undefined] on a number. *)
Definition length_of (value : FormValue) : option Z :=
  match value with
  | VText s => Some (strlen s)
  | _ => None
  end.

(** The string that [pattern.test(value)] matches against. *)
Definition text_of (value : FormValue) : list Z :=
  match value with
  | VText s => s
  | VNumber (Some n) => units (Number_toString n)
  | VNumber None => units "NaN"
  | VUndefined => units "undefined"
  end.

Section Validation.

(** [s < m] and [s > m] for a string [s] and a number [m]: the string is
    converted to a number first. *)
Variable text_lt : list Z → Z → bool.
Variable text_gt : list Z → Z → bool.

Definition value_lt (value : FormValue) (m : Z) : bool :=
  match value with
  | VText s => text_lt s m
  | VNumber (Some n) => n <? m
  | _ => false
  end.

Definition value_gt (value : FormValue) (m : Z) : bool :=
  match value with
  | VText s => text_gt s m
  | VNumber (Some n) => m <? n
  | _ => false
  end.

Definition validateField (name : string) (value : FormValue) (rules : Rule)
    : list string :=
  let fieldErrors := [] in
  let fieldErrors :=
    COD.push_if (required rules && (negb (truthy value) || blank value))
      (name +:+ " is required") fieldErrors in
  let fieldErrors :=
    match truthy_number (minLength rules) with
    | Some n =>
        COD.push_if
          (truthy value && from_option (λ len, len <? n) false (length_of value))
          (name +:+ " must be at least " +:+ Number_toString n +:+ " characters")
          fieldErrors
    | None => fieldErrors
    end in
  let fieldErrors :=
    match truthy_number (maxLength rules) with
    | Some n =>
        COD.push_if
          (truthy value && from_option (λ len, n <? len) false (length_of value))
          (name +:+ " must be less than " +:+ Number_toString n +:+ " characters")
          fieldErrors
    | None => fieldErrors
    end in
  let fieldErrors :=
    match pattern rules with
    | Some r =>
        COD.push_if (truthy value && negb (test r (text_of value)))
          (name +:+ " format is invalid") fieldErrors
    | None => fieldErrors
    end in
  let fieldErrors :=
    match truthy_number (min rules) with
    | Some m =>
        COD.push_if (truthy value && value_lt value m)
          (name +:+ " must be at least " +:+ Number_toString m) fieldErrors
    | None => fieldErrors
    end in
  let fieldErrors :=
    match truthy_number (max rules) with
    | Some m =>
        COD.push_if (truthy value && value_gt value m)
          (name +:+ " must be no more than " +:+ Number_toString m) fieldErrors
    | None => fieldErrors
    end in
  fieldErrors.

(** [validateForm]: the new [errors], one entry for each field with an
    error, in the order of the keys of the rules, and whether there is
    none.  The form is the function that reads its keys. *)
Definition validateForm (formData : string → FormValue)
    (validationRules : list (string * Rule)) : list (string * string) * bool :=
  let newErrors :=
    omap
      (λ '(fieldName, rules),
         let fieldValue := formData fieldName in
         let fieldErrors := validateField fieldName fieldValue rules in
         match fieldErrors with
         | first :: _ => Some (fieldName, first)
         | [] => None
         end)
      validationRules in
  (newErrors, bool_decide (length newErrors = 0%nat)).

End Validation.

(** [formData[fieldName]] on the data of the order form. *)
Definition fieldValue (formData : COD.CODFormData) (fieldName : string)
    : FormValue :=
  if decide (fieldName = "name") then VText (COD.name formData)
  else if decide (fieldName = "phone") then VText (COD.phone formData)
  else if decide (fieldName = "email")
       then from_option VText VUndefined (COD.email formData)
  else if decide (fieldName = "address") then VText (COD.address formData)
  else if decide (fieldName = "city") then VText (COD.city formData)
  else if decide (fieldName = "state") then VText (COD.state formData)
  else if decide (fieldName = "pincode") then VText (COD.pincode formData)
  else if decide (fieldName = "quantity") then VNumber (COD.quantity formData)
  else if decide (fieldName = "variant")
       then from_option VText VUndefined (COD.variant formData)
  else VUndefined.

(** The regular expressions of [createCODForm], by their source texts. *)
Definition regexOf (source : string) : option regex :=
  if decide (source = "^[0-9]{10}$") then Some COD.phone_pattern
  else if decide (source = "^[0-9]{6}$") then Some COD.pincode_pattern
  else if decide (source = "^[^\s@]+@[^\s@]+\.[^\s@]+$")
       then Some COD.email_pattern
  else None.

Definition ruleOf (rule : Generator.ValidationRule) : Rule := {|
  required := Generator.required rule;
  minLength := Generator.minLength rule;
  maxLength := None;
  pattern := Generator.pattern rule ≫= regexOf;
  min := Generator.min rule;
  max := Generator.max rule
|}.

(** [codForm.validationRules] of a page that the generator made. *)
Definition formRules : list (string * Rule) :=
  prod_map id ruleOf <$> Generator.validationRules Generator.createCODForm.

(** A form that the service accepts and the page does not: its name is two
    spaces. *)
Definition blankNameForm : COD.CODFormData :=
  COD.mkCODFormData [32; 32] (COD.phone COD.validForm) None
    (COD.address COD.validForm) (COD.city COD.validForm)
    (COD.state COD.validForm) (COD.pincode COD.validForm) (Some 3) None.

End Hooks.

(** * Properties *)

(** ** Arrays *)

Module JSFacts.

Import JS.

(** [Math.ceil(a / b)] is the least integer whose product with [b]
    reaches [a]. *)
Lemma ceil_div_bounds (a b : Z) :
  0 < b → (ceil_div a b - 1) * b < a ≤ ceil_div a b * b.
Proof.
  intros Hb. unfold ceil_div.
  pose proof (Z.div_mod (- a) b ltac:(lia)) as Hdm.
  pose proof (Z.mod_pos_bound (- a) b Hb) as Hm.
  nia.
Qed.

Lemma relative_index_nonneg (len i : Z) :
  0 ≤ i → relative_index len i = Z.min i len.
Proof.
  intros Hi. unfold relative_index.
  destruct (Z.ltb_spec i 0); [lia | reflexivity].
Qed.

(** With indices that are not negative, [slice] is the half-open window
    [[from, to)]: its [i]-th element is the element [from + i] of the
    array as long as [from + i < to]. *)
Lemma slice_lookup {A : Type} (l : list A) (from to : Z) (i : nat) :
  0 ≤ from ≤ to →
  slice l from to !! i =
    if decide (Z.of_nat i < to - from)
    then l !! (Z.to_nat from + i)%nat
    else None.
Proof.
  intros [Hfrom Hto]. unfold slice.
  rewrite !relative_index_nonneg by lia.
  set (len := Z.of_nat (length l)).
  destruct (decide (Z.of_nat i < to - from)) as [Hi|Hi].
  - destruct (decide (Z.of_nat i < Z.min to len - Z.min from len)) as [Hin|Hout].
    + rewrite lookup_take_lt by lia.
      rewrite lookup_drop. f_equal. lia.
    + rewrite lookup_take_ge by lia.
      symmetry. apply lookup_ge_None. subst len. lia.
  - apply lookup_take_ge. lia.
Qed.

(** The same window as a whole: the first [to - from] of the elements
    that follow the first [from]. *)
Lemma slice_take_drop {A : Type} (l : list A) (from to : Z) :
  0 ≤ from ≤ to →
  slice l from to = take (Z.to_nat (to - from)) (drop (Z.to_nat from) l).
Proof.
  intros Hft. apply list_eq. intros i.
  rewrite slice_lookup by done.
  destruct (decide (Z.of_nat i < to - from)) as [Hi|Hi].
  - rewrite lookup_take_lt by lia. by rewrite lookup_drop.
  - symmetry. apply lookup_take_ge. lia.
Qed.

(** [x || d] is [x] for a number that is not [0], and [d] for [0] and
    for [undefined]. *)
Lemma or_default_request (o : option Z) (d x : Z) :
  (o = Some x ∧ x ≠ 0) ∨ ((o = None ∨ o = Some 0) ∧ x = d) →
  or_default o d = x.
Proof.
  unfold or_default.
  intros [[-> Hx]|[[->| ->] ->]]; [|done..].
  destruct (Z.eqb_spec x 0); [lia | done].
Qed.

(** A window that starts at or after the end of the array is empty. *)
Lemma slice_beyond {A : Type} (l : list A) (from to : Z) :
  Z.of_nat (length l) ≤ from → 0 ≤ from → slice l from to = [].
Proof.
  intros Hlen Hfrom. unfold slice.
  rewrite (relative_index_nonneg _ from) by lia.
  rewrite (drop_ge l) by lia.
  apply take_nil.
Qed.

End JSFacts.

(** ** The host engine permutes *)

Module V8Facts.

Import V8.

Section Sort.

Context {T : Type}.
Variable comparefn : T → T → Z.

Lemma insert_pivot_Permutation (sorted : list T) (pivot : T) :
  Permutation (insert_pivot comparefn sorted pivot) (sorted ++ [pivot]).
Proof.
  unfold insert_pivot.
  set (left := binary_search _ _ _ _ _ _).
  rewrite <- (take_drop left sorted) at 3.
  rewrite <- app_assoc.
  apply Permutation_app_head.
  apply Permutation_cons_append.
Qed.

Lemma BinaryInsertionSort_Permutation (rest sorted : list T) :
  Permutation (BinaryInsertionSort comparefn sorted rest) (sorted ++ rest).
Proof.
  unfold BinaryInsertionSort.
  revert sorted.
  induction rest as [|pivot rest IH]; intros sorted; simpl.
  - by rewrite app_nil_r.
  - rewrite IH, insert_pivot_Permutation.
    by rewrite <- app_assoc.
Qed.

Lemma CountAndMakeRun_Permutation (workArray : list T) :
  Permutation (CountAndMakeRun comparefn workArray).1 workArray.
Proof.
  destruct workArray as [|x [|y rest]]; try done.
  unfold CountAndMakeRun.
  set (w := x :: y :: rest). set (n := (2 + _)%nat).
  destruct (_ <? 0); cbn [fst]; [|done].
  rewrite <- Permutation_rev. by rewrite take_drop.
Qed.

Lemma ArrayTimSort_Permutation (array : list T) :
  Permutation (ArrayTimSort comparefn array) array.
Proof.
  destruct array as [|x [|y rest]]; try done.
  unfold ArrayTimSort.
  pose proof (CountAndMakeRun_Permutation (x :: y :: rest)) as Hrun.
  destruct (CountAndMakeRun comparefn (x :: y :: rest)) as [workArray runLength].
  simpl in Hrun.
  rewrite BinaryInsertionSort_Permutation, take_drop.
  exact Hrun.
Qed.

End Sort.

Lemma sort_Permutation {T : Type} (comparefn : T → T → Z) (array : list T) :
  Permutation (sort comparefn array) array.
Proof. apply ArrayTimSort_Permutation. Qed.

End V8Facts.

(** ** The query engine *)

Module QueryEngineFacts.

Import JS JSFacts QueryEngine.

Section Engine.

Context {T V : Type}.
Variable field : T → string → V.
Variable js_gt : V → V → bool.

(** The engine's [sort] permutes the array, as that of every engine
    does. *)
Variable array_sort : (T → T → Z) → list T → list T.
Hypothesis array_sort_Permutation :
  ∀ cmp l, Permutation (array_sort cmp l) l.

Lemma applySort_length (filteredData : list T) (params : QueryParams) :
  length (applySort field js_gt array_sort filteredData params)
  = length filteredData.
Proof.
  unfold applySort.
  destruct (truthy_string (sortBy params)); [|done].
  apply Permutation_length, array_sort_Permutation.
Qed.

(** C1. [filterAndPaginate] for a request of the page [p] of [l]
    records each, that is for [page = p] with [p >= 1], or [p = 1] for a
    page that is absent or [0], and for [limit = l] with [l >= 1], or
    [l = 10] for a limit that is absent or [0].  The metadata repeat [p]
    and [l]; [total] is the number of records that pass the search
    filter; [totalPages] is [total / l] rounded up; the page is the
    window [[(p - 1) * l, p * l)] of the filtered and sorted records:
    the first [l] of those that follow the first [(p - 1) * l]; and a
    page beyond [totalPages] is empty.  The function is total: it
    throws for no input. *)
Theorem filterAndPaginate_window (records : list T) (params : QueryParams)
    (filterFn : option (T → string → bool)) (p l : Z) :
  (page params = Some p ∧ 1 ≤ p)
  ∨ ((page params = None ∨ page params = Some 0) ∧ p = 1) →
  (limit params = Some l ∧ 1 ≤ l)
  ∨ ((limit params = None ∨ limit params = Some 0) ∧ l = 10) →
  let filtered := applySearch records params filterFn in
  let sorted := applySort field js_gt array_sort filtered params in
  let result := filterAndPaginate field js_gt array_sort records params filterFn in
  let pg := pagination result in
  pg_page pg = p
  ∧ pg_limit pg = l
  ∧ pg_total pg = Z.of_nat (length filtered)
  ∧ (pg_totalPages pg - 1) * l < pg_total pg ≤ pg_totalPages pg * l
  ∧ data result = take (Z.to_nat l) (drop (Z.to_nat ((p - 1) * l)) sorted)
  ∧ (∀ i : nat,
        data result !! i =
          if decide (Z.of_nat i < l)
          then sorted !! (Z.to_nat ((p - 1) * l) + i)%nat
          else None)
  ∧ (pg_totalPages pg < p → data result = []).
Proof.
  intros Hpage Hlimit filtered sorted result pg.
  assert (Hp : or_default (page params) 1 = p ∧ 1 ≤ p).
  { split; [apply or_default_request|]; intuition lia. }
  assert (Hl : or_default (limit params) 10 = l ∧ 1 ≤ l).
  { split; [apply or_default_request|]; intuition lia. }
  destruct Hp as [Hp Hp1], Hl as [Hl Hl1].
  assert (Hlen : length sorted = length filtered) by apply applySort_length.
  subst result pg. unfold filterAndPaginate. simpl.
  fold filtered. fold sorted.
  rewrite Hp, Hl, Hlen.
  pose proof (ceil_div_bounds (Z.of_nat (length filtered)) l ltac:(lia)) as Hceil.
  do 3 (split; [reflexivity|]).
  split; [exact Hceil|].
  split; [|split].
  - rewrite slice_take_drop by nia. do 2 f_equal. lia.
  - intros i. rewrite slice_lookup by nia.
    replace ((p - 1) * l + l - (p - 1) * l) with l by lia.
    done.
  - intros Hbeyond. apply slice_beyond; nia.
Qed.

(** [filter] with a predicate that throws: the first record on which it
    throws, if there is one, ends the loop. *)
Lemma filterThrowing_cases (f : T → Result bool) (throws keeps : T → bool)
    (e : Exn) (records : list T) :
  Forall (λ item, f item = if throws item then Throw e else Ok (keeps item))
    records →
  filterThrowing f records
  = if existsb throws records then Throw e else Ok (List.filter keeps records).
Proof.
  induction 1 as [|item rest Hitem _ IH]; [done|].
  cbn [filterThrowing existsb List.filter]. rewrite Hitem.
  destruct (throws item); [done|]. cbn [orb]. rewrite IH.
  by destruct (existsb throws rest).
Qed.

Lemma filterThrowing_Ok (f : T → Result bool) (keeps : T → bool)
    (records : list T) :
  Forall (λ item, f item = Ok (keeps item)) records →
  filterThrowing f records = Ok (List.filter keeps records).
Proof.
  induction 1 as [|item rest Hitem _ IH]; [done|].
  cbn [filterThrowing List.filter]. by rewrite Hitem, IH.
Qed.

(** With a predicate that throws on no record, the function is
    [filterAndPaginate] with the predicate's answers. *)
Lemma filterAndPaginateThrowing_Ok (records : list T) (params : QueryParams)
    (f : T → string → Result bool) (keeps : T → string → bool) :
  (∀ text, truthy_string (search params) = Some text →
           Forall (λ item, f item text = Ok (keeps item text)) records) →
  filterAndPaginateThrowing field js_gt array_sort records params (Some f)
  = Ok (filterAndPaginate field js_gt array_sort records params (Some keeps)).
Proof.
  intros Hf. unfold filterAndPaginateThrowing, filterAndPaginate.
  unfold applySearchThrowing, applySearch.
  destruct (truthy_string (search params)) as [text|]; [|done].
  by rewrite (filterThrowing_Ok _ (λ item, keeps item text)) by by apply Hf.
Qed.

(** With a predicate that throws on a record, the function throws what
    the predicate throws. *)
Lemma filterAndPaginateThrowing_Throw (records : list T) (params : QueryParams)
    (f : T → string → Result bool) (throws keeps : T → bool) (e : Exn)
    (text : string) :
  truthy_string (search params) = Some text →
  Forall (λ item, f item text = if throws item then Throw e else Ok (keeps item))
    records →
  existsb throws records = true →
  filterAndPaginateThrowing field js_gt array_sort records params (Some f)
  = Throw e.
Proof.
  intros Htext Hf Hthrows. unfold filterAndPaginateThrowing, applySearchThrowing.
  rewrite Htext.
  by rewrite (filterThrowing_cases _ throws keeps e), Hthrows.
Qed.

(** The comparator handed to [sort] never answers [0] ... *)
Lemma compareBy_nonzero (key : string) (order : option SortOrder) (a b : T) :
  compareBy field js_gt key order a b ≠ 0.
Proof.
  unfold compareBy.
  destruct order as [[]|]; destruct (js_gt _ _); lia.
Qed.

(** ... and on two records of which neither key is greater than the
    other, equal keys among them, it answers "first argument first" in
    both directions: it tells the engine nothing about their order in the
    input. *)
Lemma compareBy_tie (key : string) (order : option SortOrder) (a b : T) :
  js_gt (field a key) (field b key) = false →
  js_gt (field b key) (field a key) = false →
  compareBy field js_gt key order a b = -1
  ∧ compareBy field js_gt key order b a = -1.
Proof.
  intros Hab Hba. unfold compareBy.
  destruct order as [[]|]; rewrite Hab, Hba; done.
Qed.

End Engine.

(** On V8, two records of which neither key is greater than the other
    come out of the sort in the reverse of their input order. *)
Lemma applySort_V8_swaps_tie {T V : Type} (field : T → string → V)
    (js_gt : V → V → bool) (params : QueryParams) (key : string) (a b : T) :
  truthy_string (sortBy params) = Some key →
  js_gt (field a key) (field b key) = false →
  js_gt (field b key) (field a key) = false →
  applySort field js_gt V8.sort [a; b] params = [b; a].
Proof.
  intros Hkey Hab Hba. unfold applySort. rewrite Hkey.
  destruct (compareBy_tie field js_gt key (sortOrder params) a b Hab Hba)
    as [_ Hcmp].
  unfold V8.sort, V8.ArrayTimSort, V8.CountAndMakeRun.
  rewrite Hcmp. reflexivity.
Qed.

Import Api.

(** [getUsers] is [filterAndPaginate] on [mockUsers] whenever the
    simulated fault does not fire and the users have their names and
    their emails; the predicate is then that of the source. *)
Lemma getUsers_filterAndPaginate {num : Type} (toLowerCase : string → string)
    (undefined_read_message : string)
    (array_sort : (User → User → Z) → list User → list User) (env : Env)
    (params : QueryParams) (s : Store num) :
  shouldSimulateError env = false →
  Forall (λ u, is_Some (u_name u) ∧ is_Some (u_email u)) (mockUsers s) →
  ∃ filterFn,
    (∀ u text name email,
        u_name u = Some name → u_email u = Some email →
        filterFn u text
        = JSString.includes (toLowerCase name) (toLowerCase text)
          || JSString.includes (toLowerCase email) (toLowerCase text))
    ∧ getUsers toLowerCase undefined_read_message array_sort env params s
      = Ok (mkPaginatedResponse
              (QueryEngine.data
                 (filterAndPaginate userField js_gt array_sort (mockUsers s)
                    params (Some filterFn)))
              (pagination
                 (filterAndPaginate userField js_gt array_sort (mockUsers s)
                    params (Some filterFn)))
              "Users fetched successfully" true).
Proof.
  intros Hfault Hset.
  set (filterFn := λ u text,
         match userMatches toLowerCase undefined_read_message u text with
         | Ok keep => keep
         | Throw _ => false
         end).
  exists filterFn. subst filterFn. split.
  - intros u text name email Hname Hemail.
    unfold userMatches, lowerIncludes. rewrite Hname, Hemail.
    by destruct (JSString.includes _ _).
  - unfold getUsers. rewrite Hfault.
    erewrite filterAndPaginateThrowing_Ok; [done|].
    intros text _. eapply Forall_impl; [exact Hset|].
    intros u [[name Hname] [email Hemail]].
    unfold userMatches, lowerIncludes. rewrite Hname, Hemail.
    by destruct (JSString.includes _ _).
Qed.

(** C1 at work: the second page of three of the four users sorted by
    name holds the fourth of them alone. *)
Lemma filterAndPaginate_window_witness :
  let params :=
    mkQueryParams (Some 2) (Some 3) (Some "name") (Some asc) None None None in
  let result :=
    filterAndPaginate userField js_gt V8.sort mockUsers_initial params None in
  pagination result = mkPagination 2 3 4 2
  ∧ u_name <$> QueryEngine.data result = [Some "Sarah Wilson"].
Proof.
  intros params result.
  destruct (filterAndPaginate_window userField js_gt V8.sort
              (@V8Facts.sort_Permutation User) mockUsers_initial params None 2 3)
    as (Hpage & Hlimit & Htotal & Hpages & Hdata & _).
  - left. split; [reflexivity | lia].
  - left. split; [reflexivity | lia].
  - fold result in Hpage, Hlimit, Htotal, Hpages, Hdata.
    split.
    + destruct (pagination result) as [pg l total pages].
      cbn [pg_page pg_limit pg_total pg_totalPages] in *.
      change (Z.of_nat _) with 4 in Htotal.
      f_equal; [exact Hpage | exact Hlimit | exact Htotal | lia].
    + rewrite Hdata. reflexivity.
Defined.

(** C2 fails on V8.  Sorted by [role], the users Jane Smith and Sarah
    Wilson have the same key ["user"]; Jane comes first in [mockUsers],
    yet [getUsers({ sortBy: 'role' })] returns Sarah before Jane: the
    comparator answers [-1] where it should answer [0], and V8 moves the
    later record in front of the earlier one. *)
Theorem getUsers_sort_by_role_not_stable (toLowerCase : string → string)
    (undefined_read_message : string) :
  let params := mkQueryParams None None (Some "role") None None None None in
  let store : Store Z := mkStore mockUsers_initial [] [] in
  ∃ jane sarah response,
    getUsers toLowerCase undefined_read_message V8.sort
      (mkEnv false (λ _, "") (λ _, "")) params store
    = Ok response
    ∧ mockUsers_initial !! 1%nat = Some jane
    ∧ mockUsers_initial !! 3%nat = Some sarah
    ∧ userField jane "role" = userField sarah "role"
    ∧ pr_data response !! 2%nat = Some sarah
    ∧ pr_data response !! 3%nat = Some jane
    ∧ u_name <$> pr_data response
      = [Some "John Doe"; Some "Mike Johnson"; Some "Sarah Wilson";
         Some "Jane Smith"].
Proof.
  intros params store.
  eexists _, _, _.
  split; [vm_compute; reflexivity|].
  repeat split.
Qed.

End QueryEngineFacts.

(** ** The store and its mutations *)

Module ApiFacts.

Import Api.

Section Store.

Context {num : Type} `{Numeric num}.

Local Abbreviation Store := (Api.Store num).
Local Abbreviation Product := (Api.Product num).
Local Abbreviation Order := (Api.Order num).

(** *** Lookups by id *)

(** The id of a user appended to the array finds that user, when no user
    of the array has it. *)
Lemma list_find_fresh_user (users : list User) (newUser : User) :
  u_id newUser ∉ u_id <$> users →
  list_find (λ u, u_id u = u_id newUser) (users ++ [newUser])
  = Some (length users, newUser).
Proof.
  intros Hfresh. apply list_find_Some. split_and!.
  - by apply list_lookup_middle.
  - reflexivity.
  - intros j other Hj Hlt Hid.
    apply Hfresh. rewrite <- Hid.
    apply list_elem_of_fmap. exists other. split; [done|].
    apply list_elem_of_lookup. exists j.
    by rewrite lookup_app_l in Hj.
Qed.

(** *** [updateUser] *)

(** An update of a user that is found merges the partial object over the
    stored record and stores the result in its slot. *)
Lemma updateUser_found (env : Env) (id : string) (userData : UpdateUserRequest)
    (s : Store) (userIndex : nat) (found : User) :
  shouldSimulateError env = false →
  list_find (λ u, u_id u = id) (mockUsers s) = Some (userIndex, found) →
  let updatedUser :=
    mkUser (u_id found) (spread_key (u_name found) (uu_name userData))
      (spread_key (u_email found) (uu_email userData)) (u_avatar found)
      (spread_key (u_role found) (uu_role userData)) (u_createdAt found)
      (getCurrentTimestamp env 0) in
  updateUser env id userData s
  = (mkStore (<[userIndex := updatedUser]> (mockUsers s))
       (mockProducts s) (mockOrders s),
     Ok (mkApiResponse updatedUser "User updated successfully" true)).
Proof.
  intros Hfault Hfind. unfold updateUser. by rewrite Hfault, Hfind.
Qed.

(** The record that an update makes is the stored record with the
    partial object merged over it. *)
Lemma spread_key_merged (found : User) (partial : UpdateUserRequest)
    (updatedAt : string) :
  merged found partial updatedAt
    (mkUser (u_id found) (spread_key (u_name found) (uu_name partial))
       (spread_key (u_email found) (uu_email partial)) (u_avatar found)
       (spread_key (u_role found) (uu_role partial)) (u_createdAt found)
       updatedAt).
Proof.
  unfold merged, spread_key, touched, emptyUserUpdate.
  destruct partial as [[|name] [|email] [|role]]; simpl; split_and!; done.
Qed.

(** Among users with distinct ids, every user is the first with its
    id. *)
Lemma NoDup_first_with_id (users : list User) (i : nat) (stored : User) :
  NoDup (u_id <$> users) →
  users !! i = Some stored →
  ∀ j other, users !! j = Some other → (j < i)%nat → u_id other ≠ u_id stored.
Proof.
  intros Hnodup Hi j other Hj Hlt Hid.
  assert (j = i); [|lia].
  eapply NoDup_lookup; [exact Hnodup | |];
    rewrite list_lookup_fmap; [by rewrite Hj | by rewrite Hi, Hid].
Qed.

(** *** [createOrder] *)

(** What [items.map] returns when it returns: one order item for each
    requested item, each with the price its product has in [products],
    and the running total increased by the prices times the quantities. *)
Lemma mapItems_Ok (env : Env) (products : list Product)
    (items : list (OrderItemRequest num)) :
  ∀ (k : nat) (total : num) (orderItems : list (OrderItem num)) (total' : num),
    mapItems env products k total items = Ok (orderItems, total') →
    Forall2 (snapshotOf products) items orderItems
    ∧ total' =
        fold_left (λ acc oi, num_add acc (num_mul (oi_price oi) (oi_quantity oi)))
          orderItems total.
Proof.
  induction items as [|item rest IH]; intros k total orderItems total' Hmap.
  - simpl in Hmap. injection Hmap as <- <-. split; [constructor | reflexivity].
  - simpl in Hmap.
    destruct (findProduct products (ir_productId item)) as [product|] eqn:Hfind;
      [|discriminate].
    destruct (mapItems env products (S k) _ rest) as [[ois t]|e] eqn:Hrest;
      [|discriminate].
    injection Hmap as <- <-.
    apply IH in Hrest as [Hall Htotal].
    split.
    + constructor; [|exact Hall].
      exists product. by rewrite Hfind.
    + exact Htotal.
Qed.

(** [items.map] throws at the first item whose product is missing ... *)
Lemma mapItems_missing (env : Env) (products : list Product)
    (items : list (OrderItemRequest num)) (missing : OrderItemRequest num) :
  ∀ (k : nat) (total : num),
    firstMissing products items = Some missing →
    mapItems env products k total items
    = createErrorResponse
        ("Product with ID " +:+ ir_productId missing +:+ " not found").
Proof.
  induction items as [|item rest IH]; intros k total Hfirst; [done|].
  unfold firstMissing in Hfirst. simpl in Hfirst. simpl.
  destruct (findProduct products (ir_productId item)) as [product|] eqn:Hfind.
  - rewrite bool_decide_eq_false_2 in Hfirst by done.
    by rewrite (IH _ _ Hfirst).
  - rewrite bool_decide_eq_true_2 in Hfirst by done.
    by injection Hfirst as <-.
Qed.

(** ... and returns when there is none. *)
Lemma mapItems_complete (env : Env) (products : list Product)
    (items : list (OrderItemRequest num)) :
  ∀ (k : nat) (total : num),
    firstMissing products items = None →
    ∃ result, mapItems env products k total items = Ok result.
Proof.
  induction items as [|item rest IH]; intros k total Hfirst; [by eexists|].
  unfold firstMissing in Hfirst. simpl in Hfirst. simpl.
  destruct (findProduct products (ir_productId item)) as [product|] eqn:Hfind.
  - rewrite bool_decide_eq_false_2 in Hfirst by done.
    destruct (IH (S k) (num_add total (num_mul (p_price product) (ir_quantity item)))
                Hfirst) as [[ois t] ->].
    by eexists.
  - by rewrite bool_decide_eq_true_2 in Hfirst.
Qed.

Lemma firstMissing_None (products : list Product)
    (items : list (OrderItemRequest num)) (item : OrderItemRequest num) :
  firstMissing products items = None →
  item ∈ items →
  findProduct products (ir_productId item) ≠ None.
Proof.
  intros Hnone Hin Hmissing.
  apply list_elem_of_In in Hin.
  pose proof (find_none _ _ Hnone item Hin) as Hdec.
  simpl in Hdec. by apply bool_decide_eq_false in Hdec.
Qed.

(** [updateProduct] never touches the orders. *)
Lemma updateProduct_orders (env : Env) (id : string)
    (productData : UpdateProductRequest num) (s : Store) :
  mockOrders (updateProduct env id productData s).1 = mockOrders s.
Proof.
  unfold updateProduct.
  destruct (shouldSimulateError env); [done|].
  by destruct (list_find _ _) as [[? ?]|].
Qed.

(** C3. An order that [createOrder] creates has one item for each
    requested item, each storing the price that the product it refers to
    has in the store at that moment; its total is the sum of these prices
    times the quantities; it is appended to the orders; and whatever a
    later [updateProduct] changes, the orders, with their totals and the
    prices of their items, stay as they are. *)
Theorem createOrder_total_snapshot (env : Env)
    (orderData : CreateOrderRequest num) (s s' : Store)
    (response : ApiResponse Order) :
  createOrder env orderData s = (s', Ok response) →
  let order := data response in
  Forall2 (snapshotOf (mockProducts s)) (co_items orderData) (o_items order)
  ∧ o_total order = sumOfItems (o_items order)
  ∧ mockOrders s' = mockOrders s ++ [order]
  ∧ ∀ (env' : Env) (id : string) (productData : UpdateProductRequest num),
      mockOrders (updateProduct env' id productData s').1
      = mockOrders s ++ [order].
Proof.
  unfold createOrder. intros Hcreate.
  destruct (shouldSimulateError env); [discriminate|].
  destruct (mapItems env (mockProducts s) 0 (num_of_Z 0) (co_items orderData))
    as [[items total]|e] eqn:Hmap; [|discriminate].
  destruct (findUser (mockUsers s) (co_userId orderData)) as [found|];
    [|discriminate].
  injection Hcreate as <- <-. simpl.
  apply mapItems_Ok in Hmap as [Hall Htotal].
  split_and!; try done.
  intros env' id productData. by rewrite updateProduct_orders.
Qed.

(** C9.  When the product of some requested item or the user of the
    order is not in the store, [createOrder] throws and leaves the
    store, its orders among the rest, as it was: no order is pushed.
    The error is the not-found error of the first item whose product is
    missing, or else of the user.  (The simulated fault is set apart
    from the behaviour of the method; a call in which it fires throws
    its own error before anything is looked up, and leaves the store as
    it was all the same.) *)
Theorem createOrder_missing_reference (env : Env)
    (orderData : CreateOrderRequest num) (s : Store) :
  (∃ item, item ∈ co_items orderData
           ∧ findProduct (mockProducts s) (ir_productId item) = None)
  ∨ findUser (mockUsers s) (co_userId orderData) = None →
  ∃ msg,
    createOrder env orderData s = (s, Throw (ErrorObj msg))
    ∧ (shouldSimulateError env = true → msg = "Failed to create order")
    ∧ (shouldSimulateError env = false →
       msg = match firstMissing (mockProducts s) (co_items orderData) with
             | Some item =>
                 "Product with ID " +:+ ir_productId item +:+ " not found"
             | None => "User not found"
             end).
Proof.
  intros Hmissing. unfold createOrder.
  destruct (shouldSimulateError env).
  { eexists. split_and!; done. }
  destruct (firstMissing (mockProducts s) (co_items orderData))
    as [missing|] eqn:Hfirst.
  - rewrite (mapItems_missing _ _ _ _ _ _ Hfirst).
    eexists. split_and!; done.
  - destruct (mapItems_complete env _ _ 0%nat (num_of_Z 0) Hfirst) as [[items total] ->].
    destruct Hmissing as [(item & Hin & Hnone)|Huser].
    + by destruct (firstMissing_None _ _ _ Hfirst Hin).
    + rewrite Huser. eexists. split_and!; done.
Qed.

(** C8.  The simulated fault set apart ([shouldSimulateError] answers
    [false] in the update and in the create), and with ids that are
    unique.  For every user of the store that is the first with its id,
    and so for every user of a store whose ids are distinct, the update
    by that id returns the stored record with the partial object merged
    in (a key that the object has not keeps its value, [id], [avatar]
    and [createdAt] always do, [updatedAt] is the time of the update)
    and puts it in the slot of the stored record; with the empty object
    the result is the stored record in every field except [updatedAt].
    And the round trip: for a user created under an id that no user of
    the store had, the update by the id of the created record returns
    the created record so merged, with the empty object the created
    record in every field except [updatedAt]. *)
Theorem updateUser_partial (env : Env) (partial : UpdateUserRequest) :
  shouldSimulateError env = false →
  (∀ (s : Store) (i : nat) (stored : User),
     mockUsers s !! i = Some stored →
     (∀ j other, mockUsers s !! j = Some other → (j < i)%nat →
                 u_id other ≠ u_id stored) →
     ∃ updated,
       updateUser env (u_id stored) partial s
       = (mkStore (<[i := updated]> (mockUsers s)) (mockProducts s)
            (mockOrders s),
          Ok (mkApiResponse updated "User updated successfully" true))
       ∧ merged stored partial (getCurrentTimestamp env 0) updated)
  ∧ (∀ (s : Store) (i : nat) (stored : User),
       NoDup (u_id <$> mockUsers s) →
       mockUsers s !! i = Some stored →
       ∃ updated,
         updateUser env (u_id stored) partial s
         = (mkStore (<[i := updated]> (mockUsers s)) (mockProducts s)
              (mockOrders s),
            Ok (mkApiResponse updated "User updated successfully" true))
         ∧ merged stored partial (getCurrentTimestamp env 0) updated
         ∧ (partial = emptyUserUpdate →
            updated = touched stored (getCurrentTimestamp env 0)))
  ∧ (∀ (s : Store) (env0 : Env) (userData : CreateUserRequest),
       shouldSimulateError env0 = false →
       generateId env0 0 ∉ u_id <$> mockUsers s →
       ∃ (created updated : User) (s1 s2 : Store),
         createUser env0 userData s
         = (s1, Ok (mkApiResponse created "User created successfully" true))
         ∧ updateUser env (u_id created) partial s1
           = (s2, Ok (mkApiResponse updated "User updated successfully" true))
         ∧ merged created partial (getCurrentTimestamp env 0) updated
         ∧ (partial = emptyUserUpdate →
            updated = touched created (getCurrentTimestamp env 0))
         ∧ mockUsers s1 = mockUsers s ++ [created]
         ∧ mockUsers s2 = mockUsers s ++ [updated]
         ∧ mockProducts s2 = mockProducts s
         ∧ mockOrders s2 = mockOrders s).
Proof.
  intros Hfault.
  assert (Hfirst : ∀ (s : Store) (i : nat) (stored : User),
     mockUsers s !! i = Some stored →
     (∀ j other, mockUsers s !! j = Some other → (j < i)%nat →
                 u_id other ≠ u_id stored) →
     ∃ updated,
       updateUser env (u_id stored) partial s
       = (mkStore (<[i := updated]> (mockUsers s)) (mockProducts s)
            (mockOrders s),
          Ok (mkApiResponse updated "User updated successfully" true))
       ∧ merged stored partial (getCurrentTimestamp env 0) updated).
  { intros s i stored Hlookup Hfirst.
    assert (Hfind : list_find (λ u, u_id u = u_id stored) (mockUsers s)
                    = Some (i, stored)).
    { apply list_find_Some. split_and!; [done | done |].
      intros j other Hj Hlt. by apply (Hfirst j other). }
    rewrite (updateUser_found env _ partial s _ _ Hfault Hfind).
    eexists. split; [reflexivity|]. apply spread_key_merged. }
  split; [exact Hfirst|]. split.
  - intros s i stored Hnodup Hlookup.
    destruct (Hfirst s i stored Hlookup
                (NoDup_first_with_id _ _ _ Hnodup Hlookup))
      as (updated & Hupdate & Hmerged).
    exists updated. split_and!; [done | done |].
    by destruct Hmerged as (_ & _ & _ & _ & _ & _ & _ & Hempty).
  - intros s env0 userData Hfault0 Hfresh.
    unfold createUser. rewrite Hfault0.
    set (created := mkUser (generateId env0 0) _ _ _ _ _ _).
    set (s1 := mkStore (mockUsers s ++ [created]) _ _).
    pose proof (list_find_fresh_user (mockUsers s) created Hfresh) as Hfind.
    pose proof (updateUser_found env (u_id created) partial s1 _ _ Hfault Hfind)
      as Hupdate.
    simpl in Hupdate.
    eexists created, _, s1, _.
    split; [reflexivity|].
    split; [exact Hupdate|].
    pose proof (spread_key_merged created partial (getCurrentTimestamp env 0))
      as Hmerged.
    split; [exact Hmerged|].
    split.
    { by destruct Hmerged as (_ & _ & _ & _ & _ & _ & _ & Hempty). }
    simpl. split_and!; try done.
    rewrite insert_app_r_alt by done.
    by rewrite Nat.sub_diag.
Qed.

End Store.

(** C3 at work: the order of two headphones and a chair. *)
Lemma createOrder_total_snapshot_witness :
  ∃ s' response,
    createOrder sampleEnv sampleOrder sampleStore = (s', Ok response)
    ∧ Forall2 (snapshotOf (mockProducts sampleStore)) (co_items sampleOrder)
        (o_items (data response))
    ∧ o_total (data response) = sumOfItems (o_items (data response))
    ∧ o_total (data response) = 650
    ∧ mockOrders s' = mockOrders sampleStore ++ [data response]
    ∧ ∀ env' id productData,
        mockOrders (updateProduct env' id productData s').1
        = mockOrders sampleStore ++ [data response].
Proof.
  eexists _, _.
  split; [vm_compute; reflexivity|].
  pose proof (createOrder_total_snapshot sampleEnv sampleOrder sampleStore _ _
                eq_refl) as (Hitems & Htotal & Horders & Hlater).
  split; [exact Hitems|].
  split; [exact Htotal|].
  split; [reflexivity|].
  split; [exact Horders | exact Hlater].
Defined.

(** The simulated fault, when it fires, throws its own error before
    [createOrder] looks anything up. *)
Example createOrder_simulated_fault :
  findProduct (mockProducts sampleStore) "99" = None
  ∧ createOrder faultyEnv orderOfMissingProduct sampleStore
    = (sampleStore, Throw (ErrorObj "Failed to create order")).
Proof. split; reflexivity. Qed.

(** C9 at work: an order of a product that does not exist. *)
Lemma createOrder_missing_reference_witness :
  ∃ msg,
    createOrder sampleEnv orderOfMissingProduct sampleStore
    = (sampleStore, Throw (ErrorObj msg))
    ∧ (shouldSimulateError sampleEnv = true → msg = "Failed to create order")
    ∧ (shouldSimulateError sampleEnv = false →
       msg = match firstMissing (mockProducts sampleStore)
                     (co_items orderOfMissingProduct) with
             | Some item =>
                 "Product with ID " +:+ ir_productId item +:+ " not found"
             | None => "User not found"
             end).
Proof.
  apply (createOrder_missing_reference sampleEnv orderOfMissingProduct sampleStore).
  left. exists (mkOrderItemRequest "99" 1).
  split; [|reflexivity].
  simpl. apply list_elem_of_In. simpl. right. left. reflexivity.
Defined.

(** The simulated fault, when it fires, throws before [updateUser]
    looks the user up. *)
Example updateUser_simulated_fault :
  ∃ created s1,
    createUser sampleEnv sampleUser sampleStore
    = (s1, Ok (mkApiResponse created "User created successfully" true))
    ∧ updateUser faultyEnv (u_id created) emptyUserUpdate s1
      = (s1, Throw (ErrorObj "Failed to update user")).
Proof. eexists _, _. split; reflexivity. Qed.

(** C8 at work: a user created in the sample store and updated with the
    empty object, which changes [updatedAt] alone, and with
    [{ name: undefined, role: 'admin' }], which writes both keys and
    leaves the email. *)
Lemma updateUser_partial_witness :
  (∃ created updated s1 s2,
     createUser sampleEnv sampleUser sampleStore
     = (s1, Ok (mkApiResponse created "User created successfully" true))
     ∧ updateUser laterEnv (u_id created) emptyUserUpdate s1
       = (s2, Ok (mkApiResponse updated "User updated successfully" true))
     ∧ updated = touched created "2024-03-01T00:00:00.000Z"
     ∧ u_name updated = Some "Test User")
  ∧ (∃ created updated s1 s2,
       createUser sampleEnv sampleUser sampleStore
       = (s1, Ok (mkApiResponse created "User created successfully" true))
       ∧ updateUser laterEnv (u_id created)
           (mkUpdateUserRequest (Present None) Absent (Present (Some admin))) s1
         = (s2, Ok (mkApiResponse updated "User updated successfully" true))
       ∧ u_name updated = None
       ∧ u_email updated = u_email created
       ∧ u_role updated = Some admin).
Proof.
  assert (Hfresh : generateId sampleEnv 0 ∉ u_id <$> mockUsers sampleStore).
  { vm_compute. intros Hin.
    repeat (apply elem_of_cons in Hin as [Hin|Hin]; [discriminate|]).
    by apply elem_of_nil in Hin. }
  split.
  - destruct (updateUser_partial (num := Z) laterEnv emptyUserUpdate eq_refl)
      as (_ & _ & Hroundtrip).
    destruct (Hroundtrip sampleStore sampleEnv sampleUser eq_refl Hfresh)
      as (created & updated & s1 & s2 & Hcreate & Hupdate & _ & Hempty & _).
    exists created, updated, s1, s2.
    split; [exact Hcreate|].
    split; [exact Hupdate|].
    split; [exact (Hempty eq_refl)|].
    rewrite (Hempty eq_refl).
    injection Hcreate as _ <-. reflexivity.
  - destruct (updateUser_partial (num := Z) laterEnv
                (mkUpdateUserRequest (Present None) Absent (Present (Some admin)))
                eq_refl)
      as (_ & _ & Hroundtrip).
    destruct (Hroundtrip sampleStore sampleEnv sampleUser eq_refl Hfresh)
      as (created & updated & s1 & s2 & Hcreate & Hupdate & Hmerged & _).
    exists created, updated, s1, s2.
    split; [exact Hcreate|].
    split; [exact Hupdate|].
    destruct Hmerged as (_ & _ & _ & Hname & Hemail & Hrole & _).
    split_and!; [exact Hname | exact Hemail | exact Hrole].
Defined.

End ApiFacts.

(** ** The landing page generator *)

Module GeneratorFacts.

Import Generator.

Section Pipeline.

Context {num : Type} `{Numeric num} {Json Date : Type}.
Variable JSON_parse : string → option Json.
Variable json_is_null : Json → bool.
Variable addHours : Date → Z → Date.
Variable null_read_message : string.
Variable CLOUDINARY_CLOUD_NAME : string.
Variable progressCallback : bool.

Local Abbreviation Services := (Generator.Services (num := num) (Date := Date)).
Local Abbreviation ProductInfo := (Generator.ProductInfo (num := num)).
Local Abbreviation classify := (classifyProduct JSON_parse).
Local Abbreviation design :=
  (generateDesignTheme JSON_parse json_is_null null_read_message).
Local Abbreviation write :=
  (generateContent JSON_parse json_is_null null_read_message).
Local Abbreviation generate :=
  (generateLandingPage JSON_parse json_is_null addHours null_read_message
     CLOUDINARY_CLOUD_NAME progressCallback).
Local Abbreviation delivered := (Generator.delivered progressCallback).

(** *** The extraction stage *)

(** The outcome of the extraction stage: the scraper's, or else that of
    the search-based extractor. *)
Lemma extractProductInfo_run (sv : Services) (trace : list GenerationProgress) :
  extractProductInfo sv trace
  = (trace,
     match scrapeProductPage sv with
     | Ok info => Ok info
     | Throw _ => serp_extractProductInfo (serp_in_generator sv)
     end).
Proof.
  unfold extractProductInfo, try_catch, await.
  by destruct (scrapeProductPage sv).
Qed.

(** The search-based extractor throws one error only. *)
Lemma serp_extractProductInfo_Throw (tryBlock : Result ProductInfo) (e : Exn) :
  serp_extractProductInfo tryBlock = Throw e →
  e = ErrorObj "Failed to extract product information".
Proof.
  unfold serp_extractProductInfo. destruct tryBlock; [done|].
  by intros [= <-].
Qed.

(** *** The run, stage by stage *)

Ltac run_stages :=
  unfold run, generateLandingPage, try_catch, mbind, M_bind, mret, M_ret,
    await, throw, updateProgress, Generator.delivered, errorReport, schedule,
    completedReport;
  destruct progressCallback; cbn beta iota;
  rewrite extractProductInfo_run.

Lemma generateLandingPage_extraction_fails (sv : Services)
    (request : GenerateLandingPageRequest) (e : Exn) :
  (run (extractProductInfo sv)).2 = Throw e →
  run (generate sv request)
  = (delivered (take 2 schedule ++ [errorReport e]), Throw e).
Proof.
  unfold run at 1. rewrite extractProductInfo_run. simpl. intros He.
  run_stages; by rewrite He.
Qed.

Lemma generateLandingPage_classification_fails (sv : Services)
    (request : GenerateLandingPageRequest) (info : ProductInfo) (e : Exn) :
  (run (extractProductInfo sv)).2 = Ok info →
  classify (chat_classify sv) info = Throw e →
  run (generate sv request)
  = (delivered (take 3 schedule ++ [errorReport e]), Throw e).
Proof.
  unfold run at 1. rewrite extractProductInfo_run. simpl. intros Hi Hc.
  run_stages; rewrite Hi; simpl; by rewrite Hc.
Qed.

Lemma generateLandingPage_design_fails (sv : Services)
    (request : GenerateLandingPageRequest) (info : ProductInfo)
    (classification : Reply ProductClassification) (e : Exn) :
  (run (extractProductInfo sv)).2 = Ok info →
  classify (chat_classify sv) info = Ok classification →
  design (chat_theme sv) classification = Throw e →
  run (generate sv request)
  = (delivered (take 4 schedule ++ [errorReport e]), Throw e).
Proof.
  unfold run at 1. rewrite extractProductInfo_run. simpl. intros Hi Hc Ht.
  run_stages; rewrite Hi; simpl; by rewrite Hc, Ht.
Qed.

Lemma generateLandingPage_content_fails (sv : Services)
    (request : GenerateLandingPageRequest) (info : ProductInfo)
    (classification : Reply ProductClassification) (theme : Reply DesignTheme)
    (e : Exn) :
  (run (extractProductInfo sv)).2 = Ok info →
  classify (chat_classify sv) info = Ok classification →
  design (chat_theme sv) classification = Ok theme →
  write (chat_content sv) info classification = Throw e →
  run (generate sv request)
  = (delivered (take 5 schedule ++ [errorReport e]), Throw e).
Proof.
  unfold run at 1. rewrite extractProductInfo_run. simpl. intros Hi Hc Ht Hg.
  run_stages; rewrite Hi; simpl; by rewrite Hc, Ht, Hg.
Qed.

Lemma generateLandingPage_completes (sv : Services)
    (request : GenerateLandingPageRequest) (info : ProductInfo)
    (classification : Reply ProductClassification) (theme : Reply DesignTheme)
    (content : Reply GeneratedContent) :
  (run (extractProductInfo sv)).2 = Ok info →
  classify (chat_classify sv) info = Ok classification →
  design (chat_theme sv) classification = Ok theme →
  write (chat_content sv) info classification = Ok content →
  run (generate sv request)
  = (delivered schedule,
     Ok {|
       productInfo := info;
       classification := classification;
       theme := theme;
       content := content;
       images := processProductImages CLOUDINARY_CLOUD_NAME sv (pi_images info);
       countdown := createCountdownTimer addHours sv (customizations request);
       codForm := createCODForm
     |}).
Proof.
  unfold run at 1. rewrite extractProductInfo_run. simpl. intros Hi Hc Ht Hg.
  run_stages; rewrite Hi; simpl; by rewrite Hc, Ht, Hg.
Qed.

(** The reports of the schedule are well formed, and so is the report of
    an error. *)
Lemma schedule_wellFormed : Forall wellFormed schedule.
Proof. repeat constructor; simpl; try lia; intros; done. Qed.

Lemma errorReport_wellFormed (e : Exn) : wellFormed (errorReport e).
Proof. repeat split; simpl; try lia; intros; done. Qed.

Lemma delivered_wellFormed (reports : list GenerationProgress) :
  Forall wellFormed reports → Forall wellFormed (delivered reports).
Proof. unfold Generator.delivered. by destruct progressCallback. Qed.

Lemma failure_wellFormed (n : nat) (e : Exn) :
  Forall wellFormed (delivered (take n schedule ++ [errorReport e])).
Proof.
  apply delivered_wellFormed, Forall_app. split.
  - apply Forall_take, schedule_wellFormed.
  - repeat constructor; apply errorReport_wellFormed.
Qed.

(** The progress values of the schedule increase strictly, and so do
    those of its prefixes. *)
Lemma schedule_increasing : StronglySorted Z.lt (progressValues schedule).
Proof. repeat constructor; simpl; lia. Qed.

Lemma schedule_prefix_increasing (n : nat) :
  StronglySorted Z.lt (progressValues (take n schedule)).
Proof.
  do 10 (destruct n as [|n]; [repeat constructor; simpl; lia|]).
  repeat constructor; simpl; lia.
Qed.

(** The five ways a run can go: it throws in the extraction, the
    classification, the design or the content stage, after two to five
    reports, or it returns. *)
Lemma generateLandingPage_cases (sv : Services)
    (request : GenerateLandingPageRequest) :
  (∃ n e, (2 ≤ n ≤ 5)%nat
          ∧ run (generate sv request)
            = (delivered (take n schedule ++ [errorReport e]), Throw e))
  ∨ (∃ page, run (generate sv request) = (delivered schedule, Ok page)).
Proof.
  destruct ((run (extractProductInfo sv)).2) as [info|e] eqn:Hi.
  2: { left. exists 2%nat, e. split; [lia|].
       by apply generateLandingPage_extraction_fails. }
  destruct (classify (chat_classify sv) info) as [c|e] eqn:Hc.
  2: { left. exists 3%nat, e. split; [lia|].
       by eapply generateLandingPage_classification_fails. }
  destruct (design (chat_theme sv) c) as [t|e] eqn:Ht.
  2: { left. exists 4%nat, e. split; [lia|].
       by eapply generateLandingPage_design_fails. }
  destruct (write (chat_content sv) info c) as [g|e] eqn:Hg.
  2: { left. exists 5%nat, e. split; [lia|].
       by eapply generateLandingPage_content_fails. }
  right. eexists. by eapply generateLandingPage_completes.
Qed.

(** C4.  When [scrapeProductPage] throws, the extraction stage is the
    search-based extractor.  If that returns a product, the failure of
    the scraper does not keep the run from completing: with the
    classification, design and content stages not throwing (a stage
    that throws aborts every run, whichever extractor found the
    product), the run delivers the whole schedule, which ends in the
    report of completion at 100, and returns a landing page of that
    product.  If the search-based extractor throws too, the run throws
    its error, the one error the search-based extractor has, after the
    report of that error. *)
Theorem extraction_fallback (sv : Services)
    (request : GenerateLandingPageRequest) (e0 : Exn) :
  scrapeProductPage sv = Throw e0 →
  (run (extractProductInfo sv)).2
  = serp_extractProductInfo (serp_in_generator sv)
  ∧ (∀ info,
       serp_extractProductInfo (serp_in_generator sv) = Ok info →
       laterStagesSucceed JSON_parse json_is_null null_read_message sv info →
       ∃ page,
         run (generate sv request) = (delivered schedule, Ok page)
         ∧ productInfo page = info
         ∧ last schedule = Some completedReport
         ∧ progress completedReport = 100
         ∧ completed completedReport = true)
  ∧ (∀ e,
       serp_extractProductInfo (serp_in_generator sv) = Throw e →
       e = ErrorObj "Failed to extract product information"
       ∧ run (generate sv request)
         = (delivered (take 2 schedule ++ [errorReport e]), Throw e)).
Proof.
  intros Hscrape.
  assert (Hstage : (run (extractProductInfo sv)).2
                   = serp_extractProductInfo (serp_in_generator sv)).
  { unfold run. rewrite extractProductInfo_run. simpl. by rewrite Hscrape. }
  split; [exact Hstage|]. split.
  - intros info Hserp (c & t & g & Hc & Ht & Hg).
    rewrite Hserp in Hstage.
    eexists. split; [by eapply generateLandingPage_completes|].
    done.
  - intros e Hserp. split.
    + by eapply serp_extractProductInfo_Throw.
    + apply generateLandingPage_extraction_fails. by rewrite Hstage.
Qed.

(** C5, as the code has it.  In every run each report has a progress
    value from 0 to 100 and is flagged completed exactly when the value
    is 100.  A run that returns delivers the schedule with the values
    0, 10, 25, 40, 55, 70, 85, 95, 100; a run that throws delivers the
    first two to five reports of the schedule, whose values increase
    strictly, and then the report of the error, whose value is 0. *)
Theorem progress_reports (sv : Services) (request : GenerateLandingPageRequest) :
  let result := run (generate sv request) in
  Forall
    (λ report,
       0 ≤ progress report ≤ 100
       ∧ (completed report = true ↔ progress report = 100))
    result.1
  ∧ match result.2 with
    | Ok _ =>
        progressValues result.1
        = (if progressCallback then [0; 10; 25; 40; 55; 70; 85; 95; 100] else [])
        ∧ StronglySorted Z.lt (progressValues result.1)
    | Throw e =>
        ∃ n,
          (2 ≤ n ≤ 5)%nat
          ∧ result.1
            = (if progressCallback
               then take n schedule ++ [errorReport e]
               else [])
          ∧ StronglySorted Z.lt (progressValues (take n schedule))
          ∧ progress (errorReport e) = 0
    end.
Proof.
  intros result. subst result.
  destruct (generateLandingPage_cases sv request)
    as [(n & e & Hn & ->)|(page & ->)]; simpl.
  - split; [apply failure_wellFormed|].
    exists n. split_and!.
    + lia.
    + lia.
    + done.
    + apply schedule_prefix_increasing.
    + done.
  - split; [apply delivered_wellFormed, schedule_wellFormed|].
    unfold Generator.delivered. destruct progressCallback.
    + split; [done | apply schedule_increasing].
    + split; [done | constructor].
Qed.

(** C7. When the reply of the classification request is not JSON,
    [classifyProduct] returns the fallback classification: category
    [other], subcategory ["general"], audience [general] and the price
    range of the bucket of the price.  It is the same for every such
    reply and every product of that price, and the run goes on: the
    reports of the first four stages, "designing" the last of them, are
    delivered. *)
Theorem classifyProduct_parse_failure (response : string) (info : ProductInfo) :
  JSON_parse response = None →
  ∃ fallback,
    classify (Ok response) info = Ok (Fallback fallback)
    ∧ pc_category fallback = other
    ∧ pc_subcategory fallback = "general"
    ∧ pc_targetAudience fallback = general
    ∧ pc_priceRange fallback
      = (if num_ltb (pi_price info) (num_of_Z 50) then budget
         else if num_ltb (pi_price info) (num_of_Z 200) then mid_range
         else premium)
    ∧ (∀ response' info',
         JSON_parse response' = None →
         pi_price info' = pi_price info →
         classify (Ok response') info' = Ok (Fallback fallback))
    ∧ (∀ sv request,
         (run (extractProductInfo sv)).2 = Ok info →
         chat_classify sv = Ok response →
         ∃ reports,
           (run (generate sv request)).1
           = delivered (take 4 schedule ++ reports)).
Proof.
  intros Hparse. unfold classifyProduct. rewrite Hparse.
  eexists. split; [reflexivity|]. simpl. split_and!; try done.
  - intros response' info' Hparse' Hprice. by rewrite Hparse', Hprice.
  - intros sv request Hi Hchat.
    set (fallback :=
           mkProductClassification other "general" general
             (if num_ltb (pi_price info) (num_of_Z 50) then budget
              else if num_ltb (pi_price info) (num_of_Z 200) then mid_range
              else premium)).
    assert (Hc : classify (chat_classify sv) info = Ok (Fallback fallback)).
    { unfold classifyProduct. by rewrite Hchat, Hparse. }
    destruct (design (chat_theme sv) (Fallback fallback)) as [t|e] eqn:Ht.
    2: { rewrite (generateLandingPage_design_fails _ _ _ _ _ Hi Hc Ht).
         by eexists. }
    destruct (write (chat_content sv) info (Fallback fallback)) as [g|e] eqn:Hg.
    2: { rewrite (generateLandingPage_content_fails _ _ _ _ _ _ Hi Hc Ht Hg).
         exists (drop 4 (take 5 schedule) ++ [errorReport e]). done. }
    rewrite (generateLandingPage_completes _ _ _ _ _ _ Hi Hc Ht Hg).
    exists (drop 4 schedule). done.
Qed.

End Pipeline.

(** A stage after the extraction that throws aborts the run: the scraper
    fails, the search-based extractor finds the lamp, the request to the
    LLM service fails, and the run throws after four reports, the last
    one the report of the error. *)
Example classification_failure_aborts :
  scrapeProductPage groqDownServices
  = Throw (ErrorObj "Failed to extract product information")
  ∧ serp_extractProductInfo (serp_in_generator groqDownServices) = Ok sampleInfo
  ∧ sampleRun groqDownServices
    = (take 3 schedule
         ++ [errorReport (ErrorObj "Groq API error: Service Unavailable")],
       Throw (ErrorObj "Groq API error: Service Unavailable"))
  ∧ progressValues (sampleRun groqDownServices).1 = [0; 10; 25; 0].
Proof. repeat split; reflexivity. Qed.

(** C4 at work: Browse AI and the first search fail, the second search
    finds the lamp, and the page is generated. *)
Lemma extraction_fallback_witness :
  ∃ page,
    sampleRun fallbackServices = (schedule, Ok page)
    ∧ productInfo page = sampleInfo.
Proof.
  destruct (extraction_fallback sampleParse sampleIsNull sampleAddHours
              "Cannot read properties of null (reading 'category')" "demo" true
              fallbackServices sampleRequest
              (ErrorObj "Failed to extract product information") eq_refl)
    as (_ & Hcompletes & _).
  destruct (Hcompletes sampleInfo eq_refl) as (page & Hrun & Hinfo & _).
  - unfold laterStagesSucceed. eexists _, _, _.
    split; [vm_compute; reflexivity|].
    split; vm_compute; reflexivity.
  - exists page. split; [exact Hrun | exact Hinfo].
Defined.

(** C5 as the specification has it does not hold: in the run in which
    both extractors fail the progress values are 0, 10 and 0 again. *)
Lemma progress_not_monotone_on_failure :
  progressValues (sampleRun failingServices).1 = [0; 10; 0]
  ∧ ¬ Sorted Z.le (progressValues (sampleRun failingServices).1).
Proof.
  split; [vm_compute; reflexivity|].
  change (progressValues (sampleRun failingServices).1) with [0; 10; 0].
  intros Hsorted.
  apply Sorted_inv in Hsorted as [Hsorted _].
  apply Sorted_inv in Hsorted as [_ Hhead].
  apply HdRel_inv in Hhead. lia.
Qed.

(** C7 at work: a reply in prose for the lamp, whose price of 120 is in
    the middle bucket. *)
Lemma classifyProduct_parse_failure_witness :
  classifyProduct sampleParse
    (Ok "Sure! Here is the classification you asked for.") sampleInfo
  = Ok (Fallback (mkProductClassification other "general" general mid_range)).
Proof.
  destruct (classifyProduct_parse_failure sampleParse sampleIsNull
              sampleAddHours
              "Cannot read properties of null (reading 'category')" "demo" true
              "Sure! Here is the classification you asked for." sampleInfo
              eq_refl)
    as (fallback & Hclassify & Hcat & Hsub & Haud & Hrange & _).
  rewrite Hclassify. destruct fallback. simpl in *. by subst.
Defined.

End GeneratorFacts.

(** ** Strings and regular expressions *)

Module JSStringFacts.

Import JSString.

(** *** [includes] and [join] *)

Lemma prefix_refl (t : string) : String.prefix t t = true.
Proof.
  induction t as [|c t IH]; simpl; [done|].
  destruct (ascii_dec c c); [exact IH | done].
Qed.

Lemma prefix_app (t s v : string) :
  String.prefix t s = true → String.prefix t (s +:+ v) = true.
Proof.
  revert s. induction t as [|c t IH]; intros s Hp; simpl.
  - by destruct (s +:+ v).
  - destruct s as [|d s]; [done|]. simpl in *.
    destruct (ascii_dec c d); [by apply IH | done].
Qed.

Lemma includes_refl (t : string) : includes t t = true.
Proof. destruct t; cbn [includes]; by rewrite prefix_refl. Qed.

Lemma includes_app_r (s t v : string) :
  includes s t = true → includes (s +:+ v) t = true.
Proof.
  induction s as [|c s IH]; cbn [includes]; intros Hi.
  - rewrite orb_false_r in Hi.
    destruct t; [by destruct v | done].
  - apply orb_true_iff in Hi as [Hp|Hi].
    + change (String c s +:+ v) with (String c (s +:+ v)).
      cbn [includes].
      change (String c (s +:+ v)) with (String c s +:+ v).
      by rewrite (prefix_app _ _ v Hp).
    + change (String c s +:+ v) with (String c (s +:+ v)).
      cbn [includes]. rewrite (IH Hi). apply orb_true_r.
Qed.

Lemma includes_app_l (u s t : string) :
  includes s t = true → includes (u +:+ s) t = true.
Proof.
  intros Hi. induction u as [|c u IH]; [exact Hi|].
  change (String c u +:+ s) with (String c (u +:+ s)).
  cbn [includes]. rewrite IH. apply orb_true_r.
Qed.

(** The joined string includes each of the joined strings. *)
Lemma includes_join (sep : string) (l : list string) (m : string) :
  m ∈ l → includes (join sep l) m = true.
Proof.
  unfold join. induction l as [|x l IH]; intros Hin.
  - by apply elem_of_nil in Hin.
  - apply elem_of_cons in Hin as [->|Hin].
    + destruct l as [|y l]; [apply includes_refl|].
      change (String.concat sep (x :: y :: l))
        with (x +:+ sep +:+ String.concat sep (y :: l)).
      apply includes_app_r, includes_refl.
    + destruct l as [|y l]; [by apply elem_of_nil in Hin|].
      change (String.concat sep (x :: y :: l))
        with (x +:+ sep +:+ String.concat sep (y :: l)).
      by apply includes_app_l, includes_app_l, IH.
Qed.

(** *** The matcher *)

Lemma test_Void (s : list Z) : test Void s = false.
Proof. induction s as [|c s IH]; [done | exact IH]. Qed.

Lemma test_Alt (r1 r2 : regex) (s : list Z) :
  test (Alt r1 r2) s = test r1 s || test r2 s.
Proof.
  revert r1 r2. induction s as [|c s IH]; intros r1 r2; [done|].
  simpl. apply IH.
Qed.

Lemma test_Seq_Void (r : regex) (s : list Z) : test (Seq Void r) s = false.
Proof. induction s as [|c s IH]; [done | exact IH]. Qed.

Lemma test_Seq_Eps (r : regex) (s : list Z) : test (Seq Eps r) s = test r s.
Proof.
  destruct s as [|c s]; [done|].
  simpl. by rewrite test_Alt, test_Seq_Void.
Qed.

(** A class in front consumes one character of the class. *)
Lemma test_Seq_Class (p : Z → bool) (r : regex) (s : list Z) :
  test (Seq (Class p) r) s =
    match s with
    | [] => false
    | c :: s' => p c && test r s'
    end.
Proof.
  destruct s as [|c s]; [done|].
  simpl. destruct (p c); simpl.
  - apply test_Seq_Eps.
  - apply test_Seq_Void.
Qed.

(** [/^[p]{n}$/] matches the strings of [n] characters of the class. *)
Lemma test_Repeat_Class (p : Z → bool) (n : nat) (s : list Z) :
  test (Repeat n (Class p)) s
  = bool_decide (length s = n) && forallb p s.
Proof.
  revert s. induction n as [|n IH]; intros s.
  - destruct s as [|c s]; [done|]. simpl. apply test_Void.
  - cbn [Repeat]. rewrite test_Seq_Class.
    destruct s as [|c s]; [done|].
    rewrite IH. simpl.
    destruct (p c); simpl; [|by rewrite andb_false_r].
    f_equal. apply bool_decide_ext. lia.
Qed.

(** A sequence matches when its parts match. *)
Lemma test_Seq_app (r1 r2 : regex) (s1 s2 : list Z) :
  test r1 s1 = true → test r2 s2 = true → test (Seq r1 r2) (s1 ++ s2) = true.
Proof.
  revert r1. induction s1 as [|c s1 IH]; intros r1 H1 H2; simpl in *.
  - destruct s2 as [|c s2]; simpl in *.
    + by rewrite H1, H2.
    + rewrite H1, test_Alt, H2. apply orb_true_r.
  - destruct (nullable r1).
    + rewrite test_Alt, (IH _ H1 H2). done.
    + by apply IH.
Qed.

Lemma test_Star_Class (p : Z → bool) (s : list Z) :
  forallb p s = true → test (Star (Class p)) s = true.
Proof.
  induction s as [|c s IH]; [done|].
  simpl. intros [Hc Hs]%andb_true_iff.
  rewrite Hc, test_Seq_Eps. by apply IH.
Qed.

Lemma test_Plus_Class (p : Z → bool) (s : list Z) :
  s ≠ [] → forallb p s = true → test (Plus (Class p)) s = true.
Proof.
  intros Hne Hall. destruct s as [|c s]; [done|].
  unfold Plus. rewrite test_Seq_Class.
  simpl in Hall. apply andb_true_iff in Hall as [-> Hs].
  by apply test_Star_Class.
Qed.

Lemma test_Lit (s : string) : test (Lit s) (units s) = true.
Proof.
  induction s as [|c s IH]; [done|].
  cbn [Lit]. rewrite test_Seq_Class.
  change (units (String c s)) with (code c :: units s).
  unfold is_char at 1. by rewrite Z.eqb_refl.
Qed.

Lemma units_app (s t : string) : units (s +:+ t) = units s ++ units t.
Proof.
  induction s as [|c s IH]; [done|].
  change (units (String c s +:+ t)) with (code c :: units (s +:+ t)).
  by rewrite IH.
Qed.

Lemma toUpperCase_app (s t : string) :
  toUpperCase (s +:+ t) = toUpperCase s +:+ toUpperCase t.
Proof. induction s as [|c s IH]; simpl; [done | by rewrite IH]. Qed.

(** *** Code units, upper case and base 36 *)

Lemma code_ascii_of_N (n : N) : (n < 256)%N → code (ascii_of_N n) = Z.of_N n.
Proof. intros Hn. unfold code. by rewrite N_ascii_embedding. Qed.

Lemma code_bound (c : ascii) : 0 ≤ code c < 256.
Proof.
  unfold code. pose proof (N_ascii_bounded c). lia.
Qed.

Lemma units_length (s : string) : length (units s) = String.length s.
Proof.
  unfold units. rewrite length_fmap.
  induction s as [|c s IH]; simpl; [done | by rewrite IH].
Qed.

Lemma toUpperCase_length (s : string) :
  String.length (toUpperCase s) = String.length s.
Proof. induction s as [|c s IH]; simpl; [done | by rewrite IH]. Qed.

Lemma digit36_base36 (d : Z) : 0 ≤ d < 36 → is_base36 (code (digit36 d)) = true.
Proof.
  intros Hd. unfold digit36, is_base36, is_digit, is_lower.
  destruct (Z.ltb_spec d 10).
  - rewrite code_ascii_of_N by lia.
    apply orb_true_iff. left. apply andb_true_iff. split; apply Z.leb_le; lia.
  - rewrite code_ascii_of_N by lia.
    apply orb_true_iff. right. apply andb_true_iff. split; apply Z.leb_le; lia.
Qed.

Lemma digits36_base36 (fuel : nat) (n : Z) (acc : string) :
  forallb is_base36 (units acc) = true →
  forallb is_base36 (units (digits36 fuel n acc)) = true.
Proof.
  revert n acc. induction fuel as [|fuel IH]; intros n acc Hacc; [done|].
  simpl. destruct (Z.leb_spec n 0); [done|].
  apply IH.
  change (units (String (digit36 (n mod 36)) acc))
    with (code (digit36 (n mod 36)) :: units acc).
  simpl. rewrite Hacc, digit36_base36; [done|].
  apply Z.mod_pos_bound. lia.
Qed.

Lemma digits36_length (fuel : nat) (n : Z) (acc : string) :
  (String.length acc ≤ String.length (digits36 fuel n acc))%nat.
Proof.
  revert n acc. induction fuel as [|fuel IH]; intros n acc; [done|].
  simpl. destruct (Z.leb_spec n 0); [done|].
  etransitivity; [|apply IH]. simpl. lia.
Qed.

(** The base-36 text of a positive integer: digits and lower-case
    letters, one at least. *)
Lemma toString36_positive (n : Z) :
  0 < n →
  toString36 n ≠ EmptyString ∧ forallb is_base36 (units (toString36 n)) = true.
Proof.
  intros Hn. unfold toString36.
  destruct (Z.eqb_spec n 0); [lia|].
  destruct (Z.ltb_spec n 0); [lia|].
  split.
  - simpl. destruct (Z.leb_spec n 0); [lia|].
    intros Hempty.
    pose proof (digits36_length (Z.to_nat (Z.log2 n)) (n / 36)
                  (String (digit36 (n mod 36)) EmptyString)) as Hlen.
    rewrite Hempty in Hlen. simpl in Hlen. lia.
  - by apply digits36_base36.
Qed.

Lemma substring_base36 (n : nat) (s : string) :
  forallb is_base36 (units s) = true →
  forallb is_base36 (units (String.substring 0 n s)) = true.
Proof.
  revert s. induction n as [|n IH]; intros s Hs.
  - by destruct s.
  - destruct s as [|c s]; [done|].
    change (units (String c s)) with (code c :: units s) in Hs.
    simpl in Hs. apply andb_true_iff in Hs as [Hc Hs].
    change (units (String.substring 0 (S n) (String c s)))
      with (code c :: units (String.substring 0 n s)).
    simpl. by rewrite Hc, IH.
Qed.

Lemma substring_length (n : nat) (s : string) :
  (n ≤ String.length s)%nat → String.length (String.substring 0 n s) = n.
Proof.
  revert s. induction n as [|n IH]; intros s Hs.
  - by destruct s.
  - destruct s as [|c s]; simpl in *; [lia|].
    rewrite IH; lia.
Qed.

End JSStringFacts.

(** ** The cash-on-delivery order service *)

Module CODFacts.

Import JSString JSStringFacts COD.

(** *** The conditions of [validateCODForm] are the rules of the table *)

Lemma required_min_length (n : Z) (s : list Z) :
  0 < n → falsy s || (strlen s <? n) = too_short n s.
Proof.
  intros Hn. unfold falsy, too_short, strlen.
  destruct s as [|c s]; simpl; [|done].
  symmetry. apply Z.ltb_lt. lia.
Qed.

Lemma required_digits (n : nat) (s : list Z) :
  n ≠ 0%nat →
  falsy s || negb (test (Repeat n (Class is_digit)) s) = negb (is_digits n s).
Proof.
  intros Hn. rewrite test_Repeat_Class. unfold falsy, is_digits.
  destruct s as [|c s]; simpl; [|done].
  by rewrite bool_decide_eq_false_2.
Qed.

Lemma optional_email (formData : CODFormData) :
  email_rejected (email formData) = violates formData FEmail.
Proof.
  unfold email_rejected. simpl.
  by destruct (email formData) as [[|c s]|].
Qed.

Lemma quantity_in_bounds (formData : CODFormData) :
  quantity_rejected (quantity formData) = violates formData FQuantity.
Proof.
  unfold quantity_rejected. simpl.
  destruct (quantity formData) as [n|]; [|done].
  destruct (Z.eqb_spec n 0), (Z.ltb_spec n 1), (Z.ltb_spec 10 n),
    (Z.leb_spec 1 n), (Z.leb_spec n 10); simpl; try done; lia.
Qed.

(** The [errors] array holds the messages of the violated fields, all of
    them, in the order of the table. *)
Lemma collectErrors_violated (formData : CODFormData) :
  collectErrors formData = field_message <$> violatedFields formData.
Proof.
  unfold collectErrors, violatedFields, all_fields, phone_pattern,
    pincode_pattern.
  rewrite !required_min_length by lia.
  rewrite !required_digits by lia.
  rewrite optional_email, quantity_in_bounds.
  cbn [List.filter violates].
  unfold push_if.
  repeat match goal with
         | |- context [if ?b then _ else _] => destruct b
         end; reflexivity.
Qed.

Lemma violatedFields_spec (formData : CODFormData) (f : Field) :
  f ∈ violatedFields formData ↔ violates formData f = true.
Proof.
  unfold violatedFields. rewrite list_elem_of_In, filter_In.
  split; [by intros [_ ?]|].
  intros Hv. split; [|done].
  destruct f; simpl; tauto.
Qed.

(** With no violated field the form passes. *)
Lemma validateCODForm_passes (formData : CODFormData) :
  violatedFields formData = [] → validateCODForm formData = Ok tt.
Proof.
  intros Hnone. unfold validateCODForm.
  by rewrite collectErrors_violated, Hnone.
Qed.

(** With a violated field it throws, once, the joined messages of all the
    violated fields, that of the given field among them. *)
Lemma validateCODForm_throws (formData : CODFormData) (f : Field) :
  violates formData f = true →
  let msg := join ", " (field_message <$> violatedFields formData) in
  validateCODForm formData = Throw (ErrorObj msg)
  ∧ includes msg (field_message f) = true.
Proof.
  intros Hv msg. apply violatedFields_spec in Hv.
  split.
  - unfold validateCODForm. rewrite collectErrors_violated.
    fold msg. destruct (violatedFields formData); [by apply elem_of_nil in Hv|].
    done.
  - apply includes_join, list_elem_of_fmap. by exists f.
Qed.

(** C6. [validateCODForm] checks every field of the table: the fields
    whose message it collects are exactly the violated ones.  It passes
    when there is none and otherwise throws one error, whose message is
    the messages of all the violated fields joined by [", "] and so
    includes each of them.  With the phone number ["12345"] it throws a
    message that includes the one about the phone number, with the
    quantity 11 one that includes the one about the quantity, whatever
    the other fields are. *)
Theorem validateCODForm_collects_all (formData : CODFormData) :
  let violated := violatedFields formData in
  let msg := join ", " (field_message <$> violated) in
  (∀ f, f ∈ violated ↔ violates formData f = true)
  ∧ collectErrors formData = field_message <$> violated
  ∧ validateCODForm formData
    = match violated with
      | [] => Ok tt
      | _ :: _ => Throw (ErrorObj msg)
      end
  ∧ Forall (λ f, includes msg (field_message f) = true) violated
  ∧ (∃ m, validateCODForm (withPhone (units "12345") formData)
          = Throw (ErrorObj m)
          ∧ includes m "Phone number must be 10 digits" = true)
  ∧ (∃ m, validateCODForm (withQuantity (Some 11) formData) = Throw (ErrorObj m)
          ∧ includes m "Quantity must be between 1 and 10" = true).
Proof.
  intros violated msg. split_and!.
  - apply violatedFields_spec.
  - apply collectErrors_violated.
  - unfold validateCODForm. rewrite collectErrors_violated.
    fold violated. by destruct violated.
  - apply Forall_forall. intros f Hf.
    apply includes_join, list_elem_of_fmap. by exists f.
  - eexists.
    apply (validateCODForm_throws (withPhone (units "12345") formData) FPhone).
    reflexivity.
  - eexists.
    apply (validateCODForm_throws (withQuantity (Some 11) formData) FQuantity).
    reflexivity.
Qed.

(** *** The order id *)

Lemma upper_char_base36 (c : ascii) :
  is_base36 (code c) = true → is_base36_upper (code (upper_char c)) = true.
Proof.
  destruct c as [[] [] [] [] [] [] [] []]; vm_compute; intros; done.
Qed.

Lemma toUpperCase_base36 (s : string) :
  forallb is_base36 (units s) = true →
  forallb is_base36_upper (units (toUpperCase s)) = true.
Proof.
  induction s as [|c s IH]; [done|].
  change (units (String c s)) with (code c :: units s).
  change (units (toUpperCase (String c s)))
    with (code (upper_char c) :: units (toUpperCase s)).
  simpl. intros [Hc Hs]%andb_true_iff.
  by rewrite (upper_char_base36 _ Hc), (IH Hs).
Qed.

(** With a positive clock and a random text of five base-36 digits or
    more after ["0."], the order id has the format of the
    specification. *)
Lemma generateOrderId_format (clock : Clock) (digits : string) :
  0 < Date_now clock →
  random_toString36 clock = "0." +:+ digits →
  (5 ≤ String.length digits)%nat →
  forallb is_base36 (units digits) = true →
  test order_id_pattern (units (generateOrderId clock)) = true.
Proof.
  intros Hnow Hrandom Hlen Hdigits.
  destruct (toString36_positive _ Hnow) as [Hne Hts].
  unfold generateOrderId, substr. rewrite Hrandom.
  change (String.substring 2 5 ("0." +:+ digits))
    with (String.substring 0 5 digits).
  rewrite !toUpperCase_app, !units_app.
  unfold order_id_pattern.
  apply test_Seq_app; [apply (test_Lit "COD-")|].
  apply test_Seq_app.
  - apply test_Plus_Class.
    + intros Hnil. apply (f_equal length) in Hnil.
      rewrite units_length, toUpperCase_length in Hnil.
      destruct (toString36 (Date_now clock)); [done | simpl in Hnil; lia].
    + by apply toUpperCase_base36.
  - change (units (toUpperCase "-")) with [code "-"].
    cbn [app]. rewrite test_Seq_Class.
    change (is_char "-" (code "-")) with true. cbn [andb].
    rewrite test_Repeat_Class.
    apply andb_true_iff. split.
    + apply bool_decide_eq_true_2.
      rewrite units_length, toUpperCase_length. by apply substring_length.
    + by apply toUpperCase_base36, substring_base36.
Qed.

(** *** [submitOrder] *)

Lemma submitOrder_valid (clock : Clock) (request : CODOrderRequest) :
  validateCODForm (formData request) = Ok tt →
  submitOrder clock request
  = mkSubmitResult (generateOrderId clock) true
      "Order placed successfully! You will receive a confirmation call within 2 hours.".
Proof. intros Hvalid. unfold submitOrder. by rewrite Hvalid. Qed.

(** The valid submission of the specification passes the validation. *)
Lemma validForm_passes : validateCODForm validForm = Ok tt.
Proof. apply validateCODForm_passes. reflexivity. Qed.

(** C10 fails when [Math.random()] has fewer than five digits in base
    36.  For the valid submission of the specification and
    [Math.random() = 0.5], whose base-36 text is ["0.i"], [submitOrder]
    succeeds with the order id ["COD-LOYW3V28-I"]: one character after
    the second dash, not five. *)
Theorem submitOrder_short_random_part :
  validateCODForm validForm = Ok tt
  ∧ submitOrder halfClock validRequest
    = mkSubmitResult "COD-LOYW3V28-I" true
        "Order placed successfully! You will receive a confirmation call within 2 hours."
  ∧ test order_id_pattern (units (orderId (submitOrder halfClock validRequest)))
    = false.
Proof.
  split; [exact validForm_passes|].
  split; [|reflexivity].
  rewrite (submitOrder_valid halfClock validRequest validForm_passes).
  reflexivity.
Qed.

(** With a random part of five digits and more the id has the format. *)
Example submitOrder_usual_clock :
  orderId (submitOrder usualClock validRequest) = "COD-LOYW3V28-4FZYO"
  ∧ test order_id_pattern (units (orderId (submitOrder usualClock validRequest)))
    = true.
Proof. split; reflexivity. Qed.

End CODFacts.

(** ** More of the query engine *)

Module QueryEngineMoreFacts.

Import JS JSFacts QueryEngine ApiMore.

(** Consecutive chunks of [size] elements make up a prefix. *)
Lemma concat_chunks {A : Type} (xs : list A) (size n : nat) :
  concat ((λ k, take size (drop (k * size) xs)) <$> seq 0 n)
  = take (n * size) xs.
Proof.
  induction n as [|n IH]; [by rewrite take_0|].
  rewrite seq_S, fmap_app, concat_app, IH. simpl.
  rewrite app_nil_r, take_take_drop. f_equal. lia.
Qed.

(** What passes the search filter. *)
Lemma applySearch_elem_of {T : Type} (records : list T) (params : QueryParams)
    (filterFn : option (T → string → bool)) (x : T) :
  x ∈ applySearch records params filterFn ↔
  x ∈ records
  ∧ ∀ s f, truthy_string (search params) = Some s → filterFn = Some f →
           f x s = true.
Proof.
  unfold applySearch.
  destruct (truthy_string (search params)) as [s|] eqn:Hs.
  - destruct filterFn as [f|].
    + rewrite list_elem_of_In, filter_In, <- list_elem_of_In.
      split.
      * intros [Hin Hf]. split; [done|]. by intros ? ? [= <-] [= <-].
      * intros [Hin Hf]. split; [done|]. by apply Hf.
    + split; [|tauto]. intros Hin. split; [done|]. by intros.
  - split; [|tauto]. intros Hin. split; [done|]. by intros.
Qed.

Section Engine.

Context {T V : Type}.
Variable field : T → string → V.
Variable js_gt : V → V → bool.
Variable array_sort : (T → T → Z) → list T → list T.
Hypothesis array_sort_Permutation :
  ∀ cmp l, Permutation (array_sort cmp l) l.

Local Abbreviation paginate := (filterAndPaginate field js_gt array_sort).
Local Abbreviation sortedOf :=
  (λ records params filterFn,
     applySort field js_gt array_sort (applySearch records params filterFn) params).

(** The page [p >= 1] of size [l >= 1]. *)
Lemma page_take_drop (records : list T) (params : QueryParams)
    (filterFn : option (T → string → bool)) (p : Z) :
  1 ≤ p →
  1 ≤ or_default (limit params) 10 →
  data (paginate records (withPage p params) filterFn)
  = take (Z.to_nat (or_default (limit params) 10))
      (drop (Z.to_nat ((p - 1) * or_default (limit params) 10))
         (sortedOf records params filterFn)).
Proof.
  intros Hp Hl. unfold filterAndPaginate. cbn [data].
  change (limit (withPage p params)) with (limit params).
  set (l := or_default (limit params) 10) in *.
  assert (Hpage : or_default (page (withPage p params)) 1 = p).
  { simpl. destruct (Z.eqb_spec p 0); [lia | done]. }
  rewrite Hpage.
  rewrite slice_take_drop by nia.
  f_equal. f_equal. lia.
Qed.

(** A page holds records that passed the search filter. *)
Lemma page_subseteq (records : list T) (params : QueryParams)
    (filterFn : option (T → string → bool)) (x : T) :
  x ∈ data (paginate records params filterFn) →
  x ∈ applySearch records params filterFn.
Proof.
  unfold filterAndPaginate, slice. cbn [data]. intros Hx.
  apply subseteq_take, subseteq_drop in Hx.
  revert Hx. unfold applySort.
  destruct (truthy_string (sortBy params)); [|done].
  by rewrite array_sort_Permutation.
Qed.

(** X1. Paging through the result with a page size of at least one, from
    page [1] to page [totalPages], returns every record of the filtered
    and sorted collection once, in its order: no record is skipped and
    none comes twice. *)
Theorem pages_partition (records : list T) (params : QueryParams)
    (filterFn : option (T → string → bool)) :
  1 ≤ or_default (limit params) 10 →
  let totalPages :=
    pg_totalPages (pagination (paginate records params filterFn)) in
  concat ((λ p, data (paginate records (withPage p params) filterFn))
            <$> pageNumbers totalPages)
  = sortedOf records params filterFn.
Proof.
  intros Hl totalPages. unfold pageNumbers.
  rewrite <- list_fmap_compose.
  set (l := or_default (limit params) 10) in *.
  set (sorted := applySort field js_gt array_sort
                   (applySearch records params filterFn) params).
  assert (Hceil : (totalPages - 1) * l < Z.of_nat (length sorted) ≤ totalPages * l).
  { subst totalPages. unfold filterAndPaginate. cbn [pagination pg_totalPages].
    apply ceil_div_bounds. lia. }
  transitivity
    (concat ((λ k, take (Z.to_nat l) (drop (k * Z.to_nat l) sorted))
               <$> seq 0 (Z.to_nat totalPages))).
  - f_equal. apply list_fmap_ext. intros i k Hk. cbn [compose].
    rewrite page_take_drop by lia. fold l. fold sorted.
    f_equal. f_equal. lia.
  - rewrite concat_chunks. apply take_ge. nia.
Qed.

(** X2. Every record on a page is a record of the collection, it passes
    the search predicate when a search text is given, and no page is
    longer than a page size that is not negative. *)
Theorem page_sound (records : list T) (params : QueryParams)
    (filterFn : option (T → string → bool)) (x : T) :
  x ∈ data (paginate records params filterFn) →
  x ∈ records
  ∧ (∀ s f, truthy_string (search params) = Some s → filterFn = Some f →
            f x s = true)
  ∧ (0 ≤ or_default (limit params) 10 →
     Z.of_nat (length (data (paginate records params filterFn)))
     ≤ or_default (limit params) 10).
Proof.
  intros Hx.
  pose proof (page_subseteq _ _ _ _ Hx) as Hfiltered.
  apply applySearch_elem_of in Hfiltered as [Hin Hf].
  split; [done|]. split; [done|].
  intros Hl. unfold filterAndPaginate, slice. cbn [data].
  rewrite length_take.
  set (n := Z.of_nat (length _)).
  set (l := or_default (limit params) 10) in *.
  set (p := or_default (page params) 1).
  unfold relative_index.
  destruct (Z.ltb_spec ((p - 1) * l) 0), (Z.ltb_spec ((p - 1) * l + l) 0); lia.
Qed.

(** X3. With a page number and a page size of at least one, every page
    before the last is full, the last page holds the one to [limit]
    records that remain, and the pages after it are empty. *)
Theorem page_sizes (records : list T) (params : QueryParams)
    (filterFn : option (T → string → bool)) :
  1 ≤ or_default (page params) 1 →
  1 ≤ or_default (limit params) 10 →
  let result := paginate records params filterFn in
  let pg := pagination result in
  let size := Z.of_nat (length (data result)) in
  (pg_page pg < pg_totalPages pg → size = pg_limit pg)
  ∧ (pg_page pg = pg_totalPages pg →
     size = pg_total pg - (pg_totalPages pg - 1) * pg_limit pg
     ∧ 1 ≤ size ≤ pg_limit pg)
  ∧ (pg_totalPages pg < pg_page pg → size = 0).
Proof.
  intros Hp Hl result pg size.
  subst size pg result. unfold filterAndPaginate.
  cbn [data pagination pg_page pg_limit pg_total pg_totalPages].
  set (sorted := applySort field js_gt array_sort
                   (applySearch records params filterFn) params).
  replace (length (applySearch records params filterFn)) with (length sorted)
    by apply (QueryEngineFacts.applySort_length _ _ _ array_sort_Permutation).
  set (l := or_default (limit params) 10) in *.
  set (p := or_default (page params) 1) in *.
  pose proof (ceil_div_bounds (Z.of_nat (length sorted)) l ltac:(lia)) as Hceil.
  set (tp := ceil_div (Z.of_nat (length sorted)) l) in *.
  rewrite slice_take_drop by nia.
  rewrite length_take, length_drop.
  split_and!; intros Hcase; try split; nia.
Qed.

(** X4. A negative page number is not rejected.  With a page size of at
    least one, page [-k] is cut out of the sorted records counting from
    their end: it is the window that starts [(k + 1) * limit] records and
    stops [k * limit] records before the end (both clamped to the
    start), so it never holds one of the last [limit] records; the
    metadata return the negative page number as it came. *)
Theorem negative_page_counts_from_end (records : list T) (params : QueryParams)
    (filterFn : option (T → string → bool)) (p : Z) :
  page params = Some p →
  p < 0 →
  1 ≤ or_default (limit params) 10 →
  let result := paginate records params filterFn in
  let sorted := sortedOf records params filterFn in
  let n := Z.of_nat (length sorted) in
  let l := or_default (limit params) 10 in
  let first := Z.max 0 (n + (p - 1) * l) in
  let beyond := Z.max 0 (n + p * l) in
  data result = take (Z.to_nat (beyond - first)) (drop (Z.to_nat first) sorted)
  ∧ beyond ≤ Z.max 0 (n - l)
  ∧ pg_page (pagination result) = p.
Proof.
  intros Hpage Hp Hl result sorted n l first beyond.
  subst result first beyond n l sorted. unfold filterAndPaginate.
  cbn [data pagination pg_page]. rewrite Hpage.
  set (sorted := applySort field js_gt array_sort
                   (applySearch records params filterFn) params).
  set (l := or_default (limit params) 10) in *.
  assert (Hor : or_default (Some p) 1 = p).
  { unfold or_default. destruct (Z.eqb_spec p 0); [lia | done]. }
  rewrite Hor. unfold slice, relative_index.
  destruct (Z.ltb_spec ((p - 1) * l) 0); [|nia].
  destruct (Z.ltb_spec ((p - 1) * l + l) 0); [|nia].
  split_and!; [|nia|done].
  do 2 f_equal; f_equal; lia.
Qed.

End Engine.

Import Api.

(** X1 at work: the users sorted by name, three to a page. *)
Lemma pages_partition_witness :
  let params :=
    mkQueryParams None (Some 3) (Some "name") None None None None in
  concat ((λ p, QueryEngine.data
                  (filterAndPaginate userField js_gt V8.sort mockUsers_initial
                     (withPage p params) None))
            <$> pageNumbers 2)
  = applySort userField js_gt V8.sort
      (applySearch mockUsers_initial params None) params.
Proof.
  intros params.
  apply (pages_partition userField js_gt V8.sort mockUsers_initial params None).
  simpl. lia.
Defined.

(** X2 at work: Jane Smith on the page of the users that match "jane". *)
Lemma page_sound_witness :
  let params := mkQueryParams None None None None (Some "jane") None None in
  let filterFn (u : User) (text : string) :=
    from_option
      (λ name, JSString.includes (JSString.asciiToLowerCase name)
                 (JSString.asciiToLowerCase text))
      false (u_name u) in
  ∃ jane,
    mockUsers_initial !! 1%nat = Some jane
    ∧ jane ∈ mockUsers_initial
    ∧ (∀ s f, truthy_string (search params) = Some s → Some filterFn = Some f →
              f jane s = true)
    ∧ (0 ≤ or_default (limit params) 10 →
       Z.of_nat (length (QueryEngine.data
                           (filterAndPaginate userField js_gt V8.sort
                              mockUsers_initial params (Some filterFn))))
       ≤ or_default (limit params) 10).
Proof.
  intros params filterFn. eexists. split; [reflexivity|].
  apply (page_sound userField js_gt V8.sort (@V8Facts.sort_Permutation User)
           mockUsers_initial params (Some filterFn)).
  vm_compute. apply list_elem_of_here.
Defined.

(** X3 at work: the second and last page of the users, three to a page. *)
Lemma page_sizes_witness :
  let params := mkQueryParams (Some 2) (Some 3) None None None None None in
  let result :=
    filterAndPaginate userField js_gt V8.sort mockUsers_initial params None in
  let pg := pagination result in
  let size := Z.of_nat (length (QueryEngine.data result)) in
  (pg_page pg < pg_totalPages pg → size = pg_limit pg)
  ∧ (pg_page pg = pg_totalPages pg →
     size = pg_total pg - (pg_totalPages pg - 1) * pg_limit pg
     ∧ 1 ≤ size ≤ pg_limit pg)
  ∧ (pg_totalPages pg < pg_page pg → size = 0).
Proof.
  apply (page_sizes userField js_gt V8.sort (@V8Facts.sort_Permutation User)
           mockUsers_initial); simpl; lia.
Defined.

(** X4 at work: page [-1] of the users, three to a page, holds the
    first user only. *)
Lemma negative_page_counts_from_end_witness :
  let params := mkQueryParams (Some (-1)) (Some 3) None None None None None in
  let result :=
    filterAndPaginate userField js_gt V8.sort mockUsers_initial params None in
  u_name <$> QueryEngine.data result = [Some "John Doe"]
  ∧ pg_page (pagination result) = -1.
Proof.
  intros params result.
  destruct (negative_page_counts_from_end userField js_gt V8.sort
              mockUsers_initial params None (-1) eq_refl)
    as (Hdata & _ & Hpage); [lia | simpl; lia |].
  split; [|exact Hpage].
  subst result. rewrite Hdata. reflexivity.
Defined.

End QueryEngineMoreFacts.

(** ** Reads, deletions and sequences of calls *)

Module ApiMoreFacts.

Import Api ApiMore ApiFacts.

(** *** [Array.prototype.find] and [findIndex] *)

Section Find.

Context {A : Type}.
Implicit Types (f : A → bool) (l : list A).


Lemma find_snoc f l x :
  List.find f (l ++ [x])
  = match List.find f l with
    | Some y => Some y
    | None => if f x then Some x else None
    end.
Proof.
  induction l as [|y l IH]; [done|]. simpl. by destruct (f y).
Qed.


Lemma find_delete_other f l (i : nat) x :
  l !! i = Some x → f x = false →
  List.find f (delete i l) = List.find f l.
Proof.
  revert i. induction l as [|z l IH]; intros [|i] Hi Hx; try done.
  - simpl in Hi. injection Hi as ->. simpl. by rewrite Hx.
  - simpl. destruct (f z); [done|]. by apply IH.
Qed.


(** Removing the only element that [f] accepts leaves none. *)
Lemma find_delete_only f l (i : nat) :
  (∀ j z, l !! j = Some z → j ≠ i → f z = false) →
  List.find f (delete i l) = None.
Proof.
  intros Honly.
  destruct (List.find f (delete i l)) as [z|] eqn:Hfind; [|done].
  apply find_some in Hfind as [Hz Hfz].
  apply list_elem_of_In, list_elem_of_lookup in Hz as [j Hj].
  rewrite list_lookup_delete in Hj.
  destruct (decide (j < i)%nat).
  - rewrite (Honly j z) in Hfz by (done || lia). done.
  - rewrite (Honly (S j) z) in Hfz by (done || lia). done.
Qed.

End Find.


Section Store.

Context {num : Type} `{Numeric num}.

Local Abbreviation Store := (Api.Store num).
Local Abbreviation Product := (Api.Product num).
Local Abbreviation Order := (Api.Order num).

(** *** Users *)

(** X5. After a [createUser], a read by id (neither call hit by the
    simulated fault) returns what it returned before for every id that
    the store already held, the created record for its own id when no
    user had it, and "User not found" for any other id. *)
Theorem getUserById_after_createUser (env env' : Env)
    (userData : CreateUserRequest) (s : Store) (id : string) :
  shouldSimulateError env = false →
  shouldSimulateError env' = false →
  ∃ created,
    (createUser env userData s).2
    = Ok (mkApiResponse created "User created successfully" true)
    ∧ u_id created = generateId env 0
    ∧ getUserById env' id (createUser env userData s).1
      = match findUser (mockUsers s) id with
        | Some earlier =>
            Ok (mkApiResponse earlier "User fetched successfully" true)
        | None =>
            if decide (id = u_id created)
            then Ok (mkApiResponse created "User fetched successfully" true)
            else createErrorResponse "User not found"
        end.
Proof.
  intros Hfault Hfault'. unfold createUser, getUserById.
  rewrite Hfault, Hfault'. cbn [fst snd mockUsers].
  eexists. split; [reflexivity|]. split; [reflexivity|].
  unfold findUser. rewrite find_snoc.
  destruct (List.find _ (mockUsers s)) as [earlier|]; [done|].
  cbn [u_id].
  destruct (decide (id = generateId env 0)) as [->|Hne].
  - by rewrite bool_decide_eq_true_2.
  - by rewrite bool_decide_eq_false_2.
Qed.

(** The users of a store with distinct ids: the user at the index that
    [findIndex] returns is the only one with that id. *)
Lemma list_find_only (users : list User) (id : string) (i : nat) (found : User) :
  NoDup (u_id <$> users) →
  list_find (λ u, u_id u = id) users = Some (i, found) →
  ∀ j other, users !! j = Some other → j ≠ i →
             bool_decide (u_id other = id) = false.
Proof.
  intros Hnodup Hfind j other Hj Hne.
  apply list_find_Some in Hfind as (Hi & Hid & _).
  apply bool_decide_eq_false. intros Hother. apply Hne.
  apply (NoDup_lookup _ j i id Hnodup); rewrite list_lookup_fmap.
  - by rewrite Hj, <- Hother.
  - by rewrite Hi, <- Hid.
Qed.

(** X6. [deleteUser] on a store whose users have distinct ids, neither it
    nor the later read hit by the simulated fault: for an id that no
    user has it throws "User not found" and leaves the store as it is;
    for the id of a user it removes that one record, after which a read
    by that id throws "User not found" and a read by any other id
    returns what it returned before.  The products and the orders are
    not touched, the orders of the deleted user included. *)
Theorem deleteUser_then_get (env env' : Env) (id : string) (s : Store) :
  shouldSimulateError env = false →
  shouldSimulateError env' = false →
  NoDup (u_id <$> mockUsers s) →
  (id ∉ u_id <$> mockUsers s →
   deleteUser env id s = (s, createErrorResponse "User not found"))
  ∧ (id ∈ u_id <$> mockUsers s →
     let s' := (deleteUser env id s).1 in
     (deleteUser env id s).2
     = Ok (mkApiResponse tt "User deleted successfully" true)
     ∧ getUserById env' id s' = createErrorResponse "User not found"
     ∧ (∀ other, other ≠ id →
                 getUserById env' other s' = getUserById env' other s)
     ∧ S (length (mockUsers s')) = length (mockUsers s)
     ∧ mockProducts s' = mockProducts s
     ∧ mockOrders s' = mockOrders s).
Proof.
  intros Hfault Hfault' Hnodup. unfold deleteUser. rewrite Hfault.
  destruct (list_find (λ u, u_id u = id) (mockUsers s)) as [[i found]|] eqn:Hfind.
  - split.
    + intros Hnot. exfalso. apply Hnot.
      apply list_find_Some in Hfind as (Hi & Hid & _).
      apply list_elem_of_fmap. exists found. split; [done|].
      by apply list_elem_of_lookup_2 in Hi.
    + intros _. cbn [fst snd mockUsers mockProducts mockOrders].
      pose proof (list_find_only _ _ _ _ Hnodup Hfind) as Honly.
      apply list_find_Some in Hfind as (Hi & Hid & _).
      split; [done|]. unfold getUserById. rewrite Hfault'.
      cbn [mockUsers]. unfold findUser.
      split; [by rewrite (find_delete_only _ _ i) by done|].
      split.
      { intros other Hother.
        rewrite (find_delete_other _ _ i found); [done | done |].
        apply bool_decide_eq_false. congruence. }
      split; [|done].
      rewrite length_delete by (by eexists). 
      apply lookup_lt_Some in Hi. lia.
  - split; [done|].
    intros Hin. exfalso.
    apply list_elem_of_fmap in Hin as (u & -> & Hu).
    apply list_find_None in Hfind.
    by apply (proj1 (Forall_forall _ _) Hfind u).
Qed.


(** *** Orders *)

(** X7. A [createOrder] that the simulated fault does not hit returns an
    order exactly when every requested product and the user exist; the
    order is then pending, carries the user found and is the last of the
    orders.  An order without items is accepted, with a total of [0].
    Whatever the outcome, the users and the products stay as they are:
    no stock is checked or taken. *)
Theorem createOrder_succeeds_iff (env : Env)
    (orderData : CreateOrderRequest num) (s : Store) :
  shouldSimulateError env = false →
  let outcome := createOrder env orderData s in
  ((∃ response, outcome.2 = Ok response) ↔
   (∀ item, item ∈ co_items orderData →
            findProduct (mockProducts s) (ir_productId item) ≠ None)
   ∧ findUser (mockUsers s) (co_userId orderData) ≠ None)
  ∧ (∀ response, outcome.2 = Ok response →
       o_status (data response) = pending
       ∧ o_user (data response) = findUser (mockUsers s) (co_userId orderData)
       ∧ length (o_items (data response)) = length (co_items orderData)
       ∧ (co_items orderData = [] → o_total (data response) = num_of_Z 0)
       ∧ mockOrders outcome.1 = mockOrders s ++ [data response])
  ∧ mockUsers outcome.1 = mockUsers s
  ∧ mockProducts outcome.1 = mockProducts s.
Proof.
  intros Hfault outcome. subst outcome. unfold createOrder. rewrite Hfault.
  destruct (firstMissing (mockProducts s) (co_items orderData))
    as [missing|] eqn:Hfirst.
  - rewrite (mapItems_missing _ _ _ _ _ _ Hfirst). cbn [fst snd].
    split_and!; try done.
    split; [by intros [? ?]|].
    intros [Hall _]. exfalso.
    apply find_some in Hfirst as [Hin Hnone].
    apply bool_decide_eq_true in Hnone.
    by apply (Hall missing); [apply list_elem_of_In|].
  - destruct (mapItems env (mockProducts s) 0 (num_of_Z 0) (co_items orderData))
      as [[items total]|e] eqn:Hmap.
    2: { destruct (mapItems_complete env _ _ 0%nat (num_of_Z 0) Hfirst) as [? Hok].
         congruence. }
    pose proof (mapItems_Ok _ _ _ _ _ _ _ Hmap) as [Hall Htotal].
    destruct (findUser (mockUsers s) (co_userId orderData)) as [found|] eqn:Huser;
      cbn [fst snd].
    + split_and!; try done.
      * split; [|by eexists].
        intros _. split; [|done].
        intros item Hin. by apply (firstMissing_None _ _ _ Hfirst).
      * intros response [= <-]. cbn [data o_status o_user o_items o_total].
        split_and!; try done.
        -- symmetry. by apply Forall2_length in Hall.
        -- intros Hempty. rewrite Hempty in Hall.
           apply Forall2_nil_inv_l in Hall. by rewrite Htotal, Hall.
    + split_and!; try done.
      split; [by intros [? ?]|]. by intros [_ ?].
Qed.



(** *** Sequences of calls *)

(** A call that is not a [deleteOrder] leaves the ledger as it is or adds
    one order at its end. *)
Lemma perform_ledger (env : Env) (m : Mutation num) (s : Store) :
  deletesOrder m = false →
  ledger s `prefix_of` ledger (perform (env, m) s).
Proof.
  intros Hm. unfold perform, ledger. cbn [fst snd].
  destruct m as [userData|id userData|id|productData|id productData|id
                |orderData|id orderData|id]; try done.
  - unfold createUser. by destruct (shouldSimulateError env).
  - unfold updateUser. destruct (shouldSimulateError env); [done|].
    by destruct (list_find _ _) as [[? ?]|].
  - unfold deleteUser. destruct (shouldSimulateError env); [done|].
    by destruct (list_find _ _) as [[? ?]|].
  - unfold createProduct. by destruct (shouldSimulateError env).
  - by rewrite updateProduct_orders.
  - unfold deleteProduct. destruct (shouldSimulateError env); [done|].
    by destruct (list_find _ _) as [[? ?]|].
  - unfold createOrder. destruct (shouldSimulateError env); [done|].
    destruct (mapItems _ _ _ _ _) as [[items total]|e]; [|done].
    destruct (findUser _ _); [|done].
    cbn [fst mockOrders]. rewrite fmap_app. by apply prefix_app_r.
  - unfold updateOrder. destruct (shouldSimulateError env); [done|].
    destruct (list_find _ _) as [[i found]|] eqn:Hfind; [|done].
    cbn [fst mockOrders].
    apply list_find_Some in Hfind as (Hi & _ & _).
    rewrite list_fmap_insert. cbn [o_id o_items o_total].
    rewrite list_insert_id; [done|].
    by rewrite list_lookup_fmap, Hi.
Qed.

(** X9. Whatever calls of the creating, updating and deleting methods
    of the three APIs are made on the store, with whatever outcomes, as
    long as none is a [deleteOrder]: the orders that were there stay in
    their places with their ids, their items (product, quantity and unit
    price) and their totals, and new orders come after them.  No update
    of a product, a user or an order rewrites what was bought. *)
Theorem ledger_append_only (calls : list (Env * Mutation num)) (s : Store) :
  Forall (λ call, deletesOrder call.2 = false) calls →
  ledger s `prefix_of` ledger (performAll calls s).
Proof.
  unfold performAll. revert s.
  induction calls as [|[env m] calls IH]; intros s Hcalls; [done|].
  apply Forall_cons in Hcalls as [Hm Hcalls]. cbn [fold_left].
  etrans; [by apply (perform_ledger env m)|].
  by apply IH.
Qed.


(** *** Products *)



(** The two filters of [getOrders] as one, for a predicate that does
    not throw. *)
Lemma applySearch_applyStatus (keeps : Order → string → bool)
    (orders : list Order) (params : QueryEngine.QueryParams) :
  QueryEngine.applySearch (applyStatus orders params) params (Some keeps)
  = List.filter
      (λ o, match JS.truthy_string (QueryEngine.status params) with
            | Some wanted => bool_decide (status_string (o_status o) = wanted)
            | None => true
            end
            && match JS.truthy_string (QueryEngine.search params) with
               | Some text => keeps o text
               | None => true
               end)
      orders.
Proof.
  unfold QueryEngine.applySearch, applyStatus.
  destruct (JS.truthy_string (QueryEngine.search params)) as [text|],
    (JS.truthy_string (QueryEngine.status params)) as [wanted|].
  - induction orders as [|o orders IH]; [done|]. simpl.
    destruct (bool_decide _); simpl; [|done].
    destruct (keeps _ _); by rewrite IH.
  - done.
  - apply filter_ext. intros o. by rewrite andb_true_r.
  - induction orders as [|o orders IH]; [done|]. simpl in *. by f_equal.
Qed.

(** The orders that the status filter keeps. *)
Lemma applyStatus_In (orders : list Order) (params : QueryEngine.QueryParams)
    (o : Order) :
  In o (applyStatus orders params)
  ↔ In o orders
    ∧ match JS.truthy_string (QueryEngine.status params) with
      | Some wanted => bool_decide (status_string (o_status o) = wanted)
      | None => true
      end = true.
Proof.
  unfold applyStatus.
  destruct (JS.truthy_string (QueryEngine.status params)) as [wanted|].
  - apply filter_In.
  - intuition.
Qed.

(** What the search predicate of [getOrders] does on an order: it throws
    when it reads a name or an email that is [undefined], and otherwise
    answers by the id, the name and the email. *)
Lemma orderMatches_cases (toLowerCase : string → string)
    (undefined_read_message : string) (o : Order) (text : string) :
  orderMatches toLowerCase undefined_read_message o text
  = if negb (JSString.includes (toLowerCase (o_id o)) (toLowerCase text))
       && match o_user o with
          | Some u =>
              match u_name u with
              | Some name =>
                  negb (JSString.includes (toLowerCase name) (toLowerCase text))
                  && bool_decide (u_email u = None)
              | None => true
              end
          | None => false
          end
    then Throw (ErrorObj undefined_read_message)
    else Ok (JSString.includes (toLowerCase (o_id o)) (toLowerCase text)
             || match o_user o with
                | Some u =>
                    match u_name u with
                    | Some name =>
                        JSString.includes (toLowerCase name) (toLowerCase text)
                    | None => false
                    end
                | None => false
                end
             || match o_user o with
                | Some u =>
                    match u_email u with
                    | Some email =>
                        JSString.includes (toLowerCase email) (toLowerCase text)
                    | None => false
                    end
                | None => false
                end).
Proof.
  unfold orderMatches, userMatches, lowerIncludes.
  destruct (JSString.includes (toLowerCase (o_id o)) _); [done|].
  destruct (o_user o) as [u|]; [|done].
  destruct (u_name u) as [name|]; [|done].
  destruct (JSString.includes (toLowerCase name) _); [done|].
  by destruct (u_email u) as [email|].
Qed.

(** X22. [getOrders], when the simulated fault does not fire, on any
    engine whose [sort] permutes the array.  The search reads, of an
    order whose id does not contain the text, the name of its user if it
    has one, and the email if the name does not contain the text.  When
    no order with the wanted status has a name or an email that is read
    and is [undefined], and so in every store whose users have their
    names and emails: every order that [getOrders] returns is an order
    of the store; with a status given, its status is that very text,
    letter case included; with a search text given, its id, or the name
    or the email of its user if it has one, contains the text up to
    letter case; and [total] is the number of the orders of the store
    of which this holds.  When some order with the wanted status has a
    name or an email that is read and is [undefined], [getOrders]
    throws the [TypeError] of that read. *)
Theorem getOrders_filters (toLowerCase : string → string)
    (undefined_read_message : string)
    (array_sort : (Order → Order → Z) → list Order → list Order)
    (env : Env) (params : QueryEngine.QueryParams) (s : Store) :
  (∀ cmp l, Permutation (array_sort cmp l) l) →
  shouldSimulateError env = false →
  let wanted (o : Order) : bool :=
    match JS.truthy_string (QueryEngine.status params) with
    | Some wanted => bool_decide (status_string (o_status o) = wanted)
    | None => true
    end in
  let selected (o : Order) : bool :=
    wanted o
    && match JS.truthy_string (QueryEngine.search params) with
       | Some text =>
           JSString.includes (toLowerCase (o_id o)) (toLowerCase text)
           || match o_user o with
              | Some u =>
                  match u_name u with
                  | Some name =>
                      JSString.includes (toLowerCase name) (toLowerCase text)
                  | None => false
                  end
              | None => false
              end
           || match o_user o with
              | Some u =>
                  match u_email u with
                  | Some email =>
                      JSString.includes (toLowerCase email) (toLowerCase text)
                  | None => false
                  end
              | None => false
              end
       | None => true
       end in
  let readsUndefined (o : Order) : bool :=
    wanted o
    && match JS.truthy_string (QueryEngine.search params) with
       | Some text =>
           negb (JSString.includes (toLowerCase (o_id o)) (toLowerCase text))
           && match o_user o with
              | Some u =>
                  match u_name u with
                  | Some name =>
                      negb (JSString.includes (toLowerCase name)
                              (toLowerCase text))
                      && bool_decide (u_email u = None)
                  | None => true
                  end
              | None => false
              end
       | None => false
       end in
  (Forall (λ o, readsUndefined o = false) (mockOrders s) →
   ∃ response,
     getOrders toLowerCase undefined_read_message array_sort env params s
     = Ok response
     ∧ (∀ o, o ∈ pr_data response → o ∈ mockOrders s ∧ selected o = true)
     ∧ QueryEngine.pg_total (pr_pagination response)
       = Z.of_nat (length (List.filter selected (mockOrders s))))
  ∧ (Forall (λ o, ∀ u, o_user o = Some u →
                       is_Some (u_name u) ∧ is_Some (u_email u))
       (mockOrders s) →
     Forall (λ o, readsUndefined o = false) (mockOrders s))
  ∧ (Exists (λ o, readsUndefined o = true) (mockOrders s) →
     getOrders toLowerCase undefined_read_message array_sort env params s
     = Throw (ErrorObj undefined_read_message)).
Proof.
  intros Hperm Hfault wanted selected readsUndefined.
  unfold getOrders. rewrite Hfault.
  split; [|split].
  - intros Hdefined.
    set (keeps := λ (o : Order) (text : string),
           JSString.includes (toLowerCase (o_id o)) (toLowerCase text)
           || match o_user o with
              | Some u =>
                  match u_name u with
                  | Some name =>
                      JSString.includes (toLowerCase name) (toLowerCase text)
                  | None => false
                  end
              | None => false
              end
           || match o_user o with
              | Some u =>
                  match u_email u with
                  | Some email =>
                      JSString.includes (toLowerCase email) (toLowerCase text)
                  | None => false
                  end
              | None => false
              end).
    rewrite (QueryEngineFacts.filterAndPaginateThrowing_Ok _ _ _ _ _ _ keeps).
    2:{ intros text Htext. apply Forall_forall. intros o Ho.
        apply list_elem_of_In, applyStatus_In in Ho as [Hin Hwanted].
        rewrite orderMatches_cases.
        rewrite Forall_forall in Hdefined.
        apply list_elem_of_In in Hin. specialize (Hdefined o Hin).
        subst readsUndefined. cbn beta in Hdefined.
        unfold wanted in Hdefined. rewrite Hwanted, Htext in Hdefined.
        cbn [andb] in Hdefined. by rewrite Hdefined. }
    eexists. split; [reflexivity|]. cbn [pr_data pr_pagination].
    split.
    + intros o Ho.
      apply (QueryEngineMoreFacts.page_subseteq _ _ _ Hperm) in Ho.
      rewrite applySearch_applyStatus in Ho.
      apply list_elem_of_In, filter_In in Ho as [Hin Hsel].
      split; [by apply list_elem_of_In | exact Hsel].
    + unfold QueryEngine.filterAndPaginate.
      cbn [QueryEngine.pagination QueryEngine.pg_total].
      rewrite (QueryEngineFacts.applySort_length _ _ _ Hperm).
      rewrite applySearch_applyStatus. reflexivity.
  - intros Hset. eapply Forall_impl; [exact Hset|].
    intros o Ho. cbn beta in Ho. subst readsUndefined. cbn beta.
    destruct (wanted o); [|done]. cbn [andb].
    destruct (JS.truthy_string (QueryEngine.search params)) as [text|]; [|done].
    destruct (o_user o) as [u|] eqn:Huser; [|by rewrite andb_false_r].
    destruct (Ho u eq_refl) as [[name ->] [email ->]].
    rewrite bool_decide_eq_false_2 by done.
    by rewrite !andb_false_r.
  - intros Hundefined.
    apply Exists_exists in Hundefined as (o & Hin & Hreads).
    apply list_elem_of_In in Hin.
    subst readsUndefined. cbn beta in Hreads.
    apply andb_true_iff in Hreads as [Hwanted Hreads].
    destruct (JS.truthy_string (QueryEngine.search params)) as [text|] eqn:Htext;
      [|discriminate].
    erewrite QueryEngineFacts.filterAndPaginateThrowing_Throw; [done | exact Htext | |].
    + apply Forall_forall. intros o' _. apply orderMatches_cases.
    + apply existsb_exists. exists o. split; [|exact Hreads].
      apply applyStatus_In. by split.
Qed.

End Store.

(** X5 at work: a user created in the sample store and read back. *)
Lemma getUserById_after_createUser_witness :
  ∃ created,
    (createUser sampleEnv sampleUser sampleStore).2
    = Ok (mkApiResponse created "User created successfully" true)
    ∧ getUserById laterEnv (u_id created)
        (createUser sampleEnv sampleUser sampleStore).1
      = Ok (mkApiResponse created "User fetched successfully" true).
Proof.
  destruct (getUserById_after_createUser (num := Z) sampleEnv laterEnv sampleUser
              sampleStore (generateId sampleEnv 0) eq_refl eq_refl)
    as (created & Hcreate & Hid & Hget).
  exists created. split; [exact Hcreate|].
  rewrite Hid, Hget.
  replace (findUser (mockUsers sampleStore) (generateId sampleEnv 0))
    with (@None User) by (vm_compute; reflexivity).
  rewrite Hid. by rewrite decide_True.
Defined.

(** X6 at work: Jane Smith deleted from the sample store. *)
Lemma deleteUser_then_get_witness :
  let s' := (deleteUser sampleEnv "2" sampleStore).1 in
  getUserById laterEnv "2" sampleStore
  = Ok (mkApiResponse
          (mkUser "2" (Some "Jane Smith") (Some "jane.smith@example.com")
             (Some "https://images.unsplash.com/photo-1494790108755-2616b612b786?w=150&h=150&fit=crop&crop=face")
             (Some user) "2024-01-16T14:30:00Z" "2024-01-16T14:30:00Z")
          "User fetched successfully" true)
  ∧ getUserById laterEnv "2" s' = createErrorResponse "User not found"
  ∧ (∀ other, other ≠ "2" →
              getUserById laterEnv other s' = getUserById laterEnv other sampleStore)
  ∧ deleteUser sampleEnv "5" sampleStore
    = (sampleStore, createErrorResponse "User not found").
Proof.
  intros s'.
  destruct (deleteUser_then_get (num := Z) sampleEnv laterEnv "2" sampleStore
              eq_refl eq_refl) as [_ Hfound].
  { by apply (bool_decide_unpack _). }
  destruct Hfound as (_ & Hget & Hother & _).
  { by apply (bool_decide_unpack _). }
  destruct (deleteUser_then_get (num := Z) sampleEnv laterEnv "5" sampleStore
              eq_refl eq_refl) as [Hmissing _].
  { by apply (bool_decide_unpack _). }
  split; [reflexivity|].
  split; [exact Hget|].
  split; [exact Hother|].
  apply Hmissing. by apply (bool_decide_unpack _).
Defined.

(** X7 at work: the sample order is accepted, pending. *)
Lemma createOrder_succeeds_iff_witness :
  ∃ response,
    (createOrder sampleEnv sampleOrder sampleStore).2 = Ok response
    ∧ o_status (data response) = pending
    ∧ mockProducts (createOrder sampleEnv sampleOrder sampleStore).1
      = mockProducts sampleStore.
Proof.
  destruct (createOrder_succeeds_iff sampleEnv sampleOrder sampleStore eq_refl)
    as (Hiff & Hok & _ & Hproducts).
  destruct (proj2 Hiff) as [response Hresponse].
  { split; [|done].
    intros item Hin.
    repeat (apply elem_of_cons in Hin as [->|Hin]; [done|]).
    by apply elem_of_nil in Hin. }
  exists response. split; [exact Hresponse|].
  split; [|exact Hproducts].
  by destruct (Hok response Hresponse) as [Hpending _].
Defined.


(** X9 at work: the ledger of the sample store through the sample
    calls. *)
Lemma ledger_append_only_witness :
  ledger sampleStore `prefix_of` ledger (performAll sampleCalls sampleStore)
  ∧ (ledger (performAll sampleCalls sampleStore)).*2 = [650].
Proof.
  split; [|reflexivity].
  apply ledger_append_only. unfold sampleCalls.
  repeat (apply Forall_cons; split; [reflexivity|]).
  apply Forall_nil_2.
Defined.


(** X22 at work: the pending orders of the sample store after the sample
    order; asked for with a capital letter, the status matches none; and
    in the store in which the name of Jane Smith was erased before her
    order, a search that the id of the order does not answer throws. *)
Lemma getOrders_filters_witness :
  let pendingOnes :=
    QueryEngine.mkQueryParams None None None None None None (Some "pending") in
  let capital :=
    QueryEngine.mkQueryParams None None None None None None (Some "Pending") in
  let smith :=
    QueryEngine.mkQueryParams None None None None (Some "smith") None None in
  let message := "Cannot read properties of undefined (reading 'toLowerCase')" in
  (∃ response,
     getOrders JSString.asciiToLowerCase message V8.sort sampleEnv pendingOnes
       orderedStore
     = Ok response
     ∧ o_total <$> pr_data response = [650]
     ∧ QueryEngine.pg_total (pr_pagination response) = 1)
  ∧ (∃ none,
       getOrders JSString.asciiToLowerCase message V8.sort sampleEnv capital
         orderedStore
       = Ok none
       ∧ QueryEngine.pg_total (pr_pagination none) = 0)
  ∧ (∃ found,
       getOrders JSString.asciiToLowerCase message V8.sort sampleEnv smith
         orderedStore
       = Ok found
       ∧ o_userId <$> pr_data found = ["2"])
  ∧ getOrders JSString.asciiToLowerCase message V8.sort sampleEnv smith
      erasedStore
    = Throw (ErrorObj message).
Proof.
  intros pendingOnes capital smith message.
  split_and!.
  - destruct (getOrders_filters JSString.asciiToLowerCase message V8.sort
                sampleEnv pendingOnes orderedStore
                (@V8Facts.sort_Permutation _) eq_refl)
      as (Hdefined & _ & _).
    destruct Hdefined as (response & Hget & _ & Htotal).
    { by repeat constructor. }
    exists response. split; [exact Hget|].
    split; [vm_compute in Hget; by injection Hget as <-|].
    exact Htotal.
  - destruct (getOrders_filters JSString.asciiToLowerCase message V8.sort
                sampleEnv capital orderedStore
                (@V8Facts.sort_Permutation _) eq_refl)
      as (Hdefined & _ & _).
    destruct Hdefined as (none & Hnone & _ & Hzero).
    { by repeat constructor. }
    exists none. split; [exact Hnone | exact Hzero].
  - destruct (getOrders_filters JSString.asciiToLowerCase message V8.sort
                sampleEnv smith orderedStore
                (@V8Facts.sort_Permutation _) eq_refl)
      as (Hdefined & _ & _).
    destruct Hdefined as (found & Hfound & _ & _).
    { by repeat constructor. }
    exists found. split; [exact Hfound|].
    vm_compute in Hfound. by injection Hfound as <-.
  - destruct (getOrders_filters JSString.asciiToLowerCase message V8.sort
                sampleEnv smith erasedStore
                (@V8Facts.sort_Permutation _) eq_refl)
      as (_ & _ & Hthrows).
    apply Hthrows. by repeat constructor.
Defined.

End ApiMoreFacts.

(** ** The order that V8's sort produces *)

Module V8MoreFacts.

Import V8.

Section Order.

Context {T : Type}.
Implicit Types (R : T → T → Prop) (l : list T).

Lemma StronglySorted_append R l1 l2 :
  StronglySorted R l1 → StronglySorted R l2 →
  (∀ x y, x ∈ l1 → y ∈ l2 → R x y) →
  StronglySorted R (l1 ++ l2).
Proof.
  intros H1 H2 Hcross. induction H1 as [|x l1 H1 IH Hx]; [done|].
  simpl. constructor.
  - apply IH. intros y z Hy Hz. apply Hcross; [by right | done].
  - apply Forall_app. split; [done|].
    apply Forall_forall. intros y Hy. apply Hcross; [by left | done].
Qed.

Lemma StronglySorted_rev R l :
  StronglySorted (flip R) l → StronglySorted R (rev l).
Proof.
  induction 1 as [|x l Hl IH Hx]; [constructor|].
  simpl. apply StronglySorted_append; [done | repeat constructor |].
  intros y z Hy Hz. apply list_elem_of_singleton in Hz as ->.
  apply list_elem_of_In, in_rev, list_elem_of_In in Hy.
  by apply (proj1 (Forall_forall _ _) Hx).
Qed.

Lemma StronglySorted_lookup R l (i j : nat) x y :
  StronglySorted R l → (i < j)%nat → l !! i = Some x → l !! j = Some y → R x y.
Proof.
  intros Hl. revert i j. induction Hl as [|z l Hl IH Hz]; intros i j Hij Hi Hj.
  - done.
  - destruct j as [|j]; [lia|]. destruct i as [|i].
    + injection Hi as <-. simpl in Hj.
      apply (proj1 (Forall_forall _ _) Hz). by eapply list_elem_of_lookup_2.
    + simpl in Hi, Hj. apply (IH i j); [lia | done | done].
Qed.

Lemma StronglySorted_take R l (n : nat) :
  StronglySorted R l → StronglySorted R (take n l).
Proof.
  intros Hl. revert n. induction Hl as [|x l Hl IH Hx]; intros [|n];
    simpl; try constructor.
  - apply IH.
  - by apply Forall_take.
Qed.

Lemma StronglySorted_drop R l (n : nat) :
  StronglySorted R l → StronglySorted R (drop n l).
Proof.
  intros Hl. revert n. induction Hl as [|x l Hl IH Hx]; intros [|n]; simpl.
  - constructor.
  - constructor.
  - by constructor.
  - apply IH.
Qed.

Lemma StronglySorted_impl R1 R2 l :
  (∀ x y, R1 x y → R2 x y) → StronglySorted R1 l → StronglySorted R2 l.
Proof.
  intros Himpl. induction 1 as [|x l Hl IH Hx]; constructor; [done|].
  eapply Forall_impl; [exact Hx|]. apply Himpl.
Qed.

End Order.

Section Sort.

Context {T : Type}.
Variable comparefn : T → T → Z.

(** The records that are sorted, and what makes the answers of the
    comparator an order on them: of two records it puts one before the
    other, and it does so transitively.  It need not answer [0] on a
    tie. *)
Variable dom : T → Prop.
Hypothesis comparefn_total :
  ∀ a b, dom a → dom b → comparefn a b < 0 ∨ comparefn b a < 0.
Hypothesis comparefn_trans :
  ∀ a b c, dom a → dom b → dom c →
           comparefn a b < 0 → comparefn b c < 0 → comparefn a c < 0.

(** [a] may come before [b]. *)
Local Abbreviation before := (λ a b : T, dom a ∧ dom b ∧ comparefn a b < 0).

Lemma before_trans (a b c : T) : before a b → before b c → before a c.
Proof.
  intros (Ha & Hb & Hab) (_ & Hc & Hbc).
  split_and!; [done | done |]. by apply (comparefn_trans a b c).
Qed.

(** The binary search returns a slot in the sorted prefix such that the
    pivot may come after everything before the slot and before
    everything from the slot on. *)
Lemma binary_search_slot (fuel : nat) (sorted : list T) (pivot : T) :
  StronglySorted before sorted → Forall dom sorted → dom pivot →
  ∀ left right : nat,
    (left ≤ right ≤ length sorted)%nat →
    (right - left ≤ fuel)%nat →
    (∀ i e, (i < left)%nat → sorted !! i = Some e → before e pivot) →
    (∀ i e, (right ≤ i)%nat → sorted !! i = Some e → before pivot e) →
    let slot := binary_search comparefn fuel sorted pivot left right in
    (slot ≤ length sorted)%nat
    ∧ (∀ i e, (i < slot)%nat → sorted !! i = Some e → before e pivot)
    ∧ (∀ i e, (slot ≤ i)%nat → sorted !! i = Some e → before pivot e).
Proof.
  intros Hsorted Hdom Hpivot.
  induction fuel as [|fuel IH]; intros left right Hrange Hfuel Hleft Hright.
  - simpl. assert (left = right) as -> by lia. split_and!; [lia | done | done].
  - cbn [binary_search].
    destruct (Nat.ltb_spec left right) as [Hlt|Hge].
    2: { assert (left = right) as -> by lia. split_and!; [lia | done | done]. }
    pose proof (Nat.div_lt (right - left) 2 ltac:(lia) ltac:(lia)) as Hhalf.
    set (mid := (left + (right - left) / 2)%nat) in *.
    assert (Hmid : (left ≤ mid < right)%nat) by (subst mid; lia).
    destruct (sorted !! mid) as [element|] eqn:Helement.
    2: { apply lookup_ge_None in Helement. lia. }
    assert (Hdome : dom element).
    { by apply (Forall_lookup_1 _ _ _ _ Hdom Helement). }
    destruct (Z.ltb_spec (comparefn pivot element) 0) as [Hcmp|Hcmp].
    + apply IH; [lia | lia | done |].
      intros i e Hi He.
      destruct (decide (i = mid)) as [->|Hne].
      * assert (e = element) as -> by congruence. by split_and!.
      * apply (before_trans pivot element e); [by split_and!|].
        apply (StronglySorted_lookup before sorted mid i); [done | lia | done | done].
    + apply IH; [lia | lia | | done].
      intros i e Hi He.
      assert (Hdomi : dom e).
      { by apply (Forall_lookup_1 _ _ _ _ Hdom He). }
      destruct (decide (i = mid)) as [->|Hne].
      * assert (e = element) as -> by congruence.
        destruct (comparefn_total element pivot Hdome Hpivot); [|lia].
        by split_and!.
      * destruct (comparefn_total e pivot Hdomi Hpivot) as [Hep|Hpe];
          [by split_and!|].
        assert (before pivot element) as (_ & _ & Hpelement); [|lia].
        apply (before_trans pivot e element); [by split_and!|].
        apply (StronglySorted_lookup before sorted i mid); [done | lia | done | done].
Qed.

Lemma insert_pivot_sorted (sorted : list T) (pivot : T) :
  StronglySorted before sorted → Forall dom sorted → dom pivot →
  StronglySorted before (insert_pivot comparefn sorted pivot)
  ∧ Forall dom (insert_pivot comparefn sorted pivot).
Proof.
  intros Hsorted Hdom Hpivot. unfold insert_pivot.
  destruct (binary_search_slot (length sorted) sorted pivot Hsorted Hdom Hpivot
              0%nat (length sorted))
    as (Hslot & Hbefore & Hafter); [lia | lia | intros; lia | |].
  { intros i e Hi He. apply lookup_lt_Some in He. lia. }
  set (slot := binary_search comparefn (length sorted) sorted pivot 0 (length sorted))
    in *.
  split.
  - apply StronglySorted_append.
    + by apply StronglySorted_take.
    + constructor; [by apply StronglySorted_drop|].
      apply Forall_lookup. intros i e Hi.
      rewrite lookup_drop in Hi. apply (Hafter (slot + i)%nat); [lia | done].
    + intros x y Hx Hy.
      apply list_elem_of_lookup in Hx as [i Hi].
      apply lookup_take_Some in Hi as [Hi Hlt].
      apply elem_of_cons in Hy as [->|Hy]; [by apply (Hbefore i)|].
      apply (before_trans x pivot y); [by apply (Hbefore i)|].
      apply list_elem_of_lookup in Hy as [j Hj].
      rewrite lookup_drop in Hj. apply (Hafter (slot + j)%nat); [lia | done].
  - apply Forall_app. split; [by apply Forall_take|].
    constructor; [done | by apply Forall_drop].
Qed.

Lemma BinaryInsertionSort_sorted (rest sorted : list T) :
  StronglySorted before sorted → Forall dom sorted → Forall dom rest →
  StronglySorted before (BinaryInsertionSort comparefn sorted rest).
Proof.
  unfold BinaryInsertionSort. revert sorted.
  induction rest as [|pivot rest IH]; intros sorted Hsorted Hdom Hrest; [done|].
  apply Forall_cons in Hrest as [Hpivot Hrest]. cbn [fold_left].
  destruct (insert_pivot_sorted sorted pivot Hsorted Hdom Hpivot) as [Hs Hd].
  by apply IH.
Qed.

(** The initial run: ascending as it stands, or descending, ties
    included, and then reversed. *)
Lemma run_extent_ascending (previousElement : T) (rest : list T) :
  dom previousElement → Forall dom rest →
  Sorted before
    (previousElement :: take (run_extent comparefn false previousElement rest) rest).
Proof.
  revert previousElement.
  induction rest as [|currentElement rest IH]; intros prev Hprev Hrest.
  - repeat constructor.
  - apply Forall_cons in Hrest as [Hcur Hrest]. cbn [run_extent].
    destruct (Z.ltb_spec (comparefn currentElement prev) 0) as [Hcmp|Hcmp].
    + repeat constructor.
    + cbn [take]. constructor; [by apply IH|].
      constructor. split_and!; [done | done |].
      destruct (comparefn_total prev currentElement Hprev Hcur); [done | lia].
Qed.

Lemma run_extent_descending (previousElement : T) (rest : list T) :
  dom previousElement → Forall dom rest →
  Sorted (flip before)
    (previousElement :: take (run_extent comparefn true previousElement rest) rest).
Proof.
  revert previousElement.
  induction rest as [|currentElement rest IH]; intros prev Hprev Hrest.
  - repeat constructor.
  - apply Forall_cons in Hrest as [Hcur Hrest]. cbn [run_extent].
    destruct (Z.leb_spec 0 (comparefn currentElement prev)) as [Hcmp|Hcmp].
    + repeat constructor.
    + cbn [take]. constructor; [by apply IH|].
      constructor. unfold flip. by split_and!.
Qed.

Lemma run_extent_length (isDescending : bool) (previousElement : T)
    (rest : list T) :
  (run_extent comparefn isDescending previousElement rest ≤ length rest)%nat.
Proof.
  revert previousElement. induction rest as [|c rest IH]; intros prev; [done|].
  cbn [run_extent length]. destruct (if isDescending then _ else _); [lia|].
  specialize (IH c). lia.
Qed.

(** V8's sort puts the array in the order of the comparator, also a
    comparator that answers [-1] on a tie instead of [0], as long as its
    answers order the records of the array: of two records it puts one
    before the other, transitively.  In the sorted array every record
    may come before all those after it. *)
Lemma sort_sorted (array : list T) :
  Forall dom array →
  StronglySorted (λ a b, comparefn a b < 0) (sort comparefn array).
Proof.
  intros Hdom.
  assert (Hbefore : StronglySorted before (sort comparefn array)).
  2: { clear -Hbefore. induction Hbefore as [|x l Hl IH Hx]; constructor; [done|].
       eapply Forall_impl; [exact Hx|]. by intros y (_ & _ & ?). }
  unfold sort, ArrayTimSort.
  destruct array as [|elementHigh [|elementLow rest]].
  - constructor.
  - repeat constructor.
  - apply Forall_cons in Hdom as [Hhigh Hdom].
    apply Forall_cons in Hdom as [Hlow Hrest].
    unfold CountAndMakeRun.
    pose proof (run_extent_length (comparefn elementLow elementHigh <? 0)
                  elementLow rest) as Hlen.
    set (n := run_extent comparefn (comparefn elementLow elementHigh <? 0)
                elementLow rest) in *.
    change (2 + n)%nat with (S (S n)).
    destruct (Z.ltb_spec (comparefn elementLow elementHigh) 0) as [Hcmp|Hcmp].
    + (* a descending run, reversed *)
      cbn [take drop].
      set (run := elementHigh :: elementLow :: take n rest).
      assert (Hrun : length (rev run) = S (S n)).
      { rewrite length_rev. subst run. cbn [length]. rewrite length_take. lia. }
      rewrite take_app_length' by done. rewrite drop_app_length' by done.
      apply BinaryInsertionSort_sorted.
      * apply StronglySorted_rev, Sorted_StronglySorted.
        { intros a b c Hab Hbc. unfold flip in *. by apply (before_trans c b a). }
        subst run. constructor; [by apply run_extent_descending|].
        constructor. unfold flip. by split_and!.
      * apply Forall_rev. subst run.
        repeat (constructor; [done|]). by apply Forall_take.
      * by apply Forall_drop.
    + (* an ascending run *)
      cbn [take drop].
      apply BinaryInsertionSort_sorted.
      * apply Sorted_StronglySorted.
        { intros a b c. apply before_trans. }
        constructor; [by apply run_extent_ascending|].
        constructor. split_and!; [done | done |].
        destruct (comparefn_total elementHigh elementLow Hhigh Hlow); [done | lia].
      * repeat (constructor; [done|]). by apply Forall_take.
      * by apply Forall_drop.
Qed.

End Sort.

(** Numbers under a comparator that never answers [0]. *)
Example sort_sorted_numbers :
  let comparefn (a b : Z) := if b <? a then 1 else -1 in
  sort comparefn [3; 1; 2; 1] = [1; 1; 2; 3]
  ∧ StronglySorted (λ a b, comparefn a b < 0) (sort comparefn [3; 1; 2; 1]).
Proof.
  intros comparefn. split; [reflexivity|].
  apply (sort_sorted comparefn (λ _, True)).
  - intros a b _ _. unfold comparefn.
    destruct (Z.ltb_spec b a), (Z.ltb_spec a b); lia.
  - intros a b c _ _ _. unfold comparefn.
    destruct (Z.ltb_spec b a), (Z.ltb_spec c b), (Z.ltb_spec c a); lia.
  - repeat constructor.
Qed.

End V8MoreFacts.

Module SortedPagesFacts.

Import JS QueryEngine.

Section Engine.

Context {T V : Type}.
Variable field : T → string → V.
Variable js_gt : V → V → bool.

Lemma compareBy_negative (key : string) (order : option SortOrder) (a b : T) :
  compareBy field js_gt key order a b < 0 ↔
  match order with
  | Some desc => js_gt (field b key) (field a key) = false
  | _ => js_gt (field a key) (field b key) = false
  end.
Proof.
  unfold compareBy.
  destruct order as [[]|]; destruct (js_gt _ _); split; (done || lia).
Qed.

(** X11. On V8, as [V8.sort] has it (the path of an array of fewer than
    64 records), every page is in the order asked for, ties or not, when
    [>] orders the keys of the records: of the keys of two records one is
    not greater than the other, transitively (as for keys that are all
    strings, or all numbers and none [NaN]).  Ascending, no record of a
    page has a key greater than that of a record after it; descending,
    none has a key smaller. *)
Theorem page_sorted_on_V8 (records : list T) (params : QueryParams)
    (filterFn : option (T → string → bool)) (key : string) :
  truthy_string (sortBy params) = Some key →
  (∀ a b, a ∈ records → b ∈ records →
          js_gt (field a key) (field b key) = false
          ∨ js_gt (field b key) (field a key) = false) →
  (∀ a b c, a ∈ records → b ∈ records → c ∈ records →
            js_gt (field a key) (field b key) = false →
            js_gt (field b key) (field c key) = false →
            js_gt (field a key) (field c key) = false) →
  StronglySorted
    (λ a b, match sortOrder params with
            | Some desc => js_gt (field b key) (field a key) = false
            | _ => js_gt (field a key) (field b key) = false
            end)
    (data (filterAndPaginate field js_gt V8.sort records params filterFn)).
Proof.
  intros Hkey Htotal Htrans.
  unfold filterAndPaginate, slice, applySort. cbn [data]. rewrite Hkey.
  apply V8MoreFacts.StronglySorted_take, V8MoreFacts.StronglySorted_drop.
  set (filtered := applySearch records params filterFn).
  assert (Hfiltered : Forall (λ x, x ∈ records) filtered).
  { apply Forall_lookup. intros i x Hx.
    apply list_elem_of_lookup_2 in Hx.
    by apply QueryEngineMoreFacts.applySearch_elem_of in Hx as [? _]. }
  pose proof (V8MoreFacts.sort_sorted
                (compareBy field js_gt key (sortOrder params))
                (λ x, x ∈ records)) as Hsorted.
  eapply (V8MoreFacts.StronglySorted_impl _ _ _ _ (Hsorted _ _ filtered Hfiltered)).
  Unshelve.
  - intros a b. by rewrite compareBy_negative.
  - intros a b Ha Hb. rewrite !compareBy_negative.
    destruct (sortOrder params) as [[]|]; by apply Htotal.
  - intros a b c Ha Hb Hc. rewrite !compareBy_negative.
    destruct (sortOrder params) as [[]|]; try by apply Htrans.
    intros Hba Hcb. by apply (Htrans c b a).
Qed.

End Engine.

Import Api.

(** X11 at work: the users sorted by role, two of them with the same
    role. *)
Lemma page_sorted_on_V8_witness :
  let params := mkQueryParams None None (Some "role") None None None None in
  let result :=
    filterAndPaginate userField js_gt V8.sort mockUsers_initial params None in
  fmap role_string ∘ u_role <$> QueryEngine.data result
  = [Some "admin"; Some "moderator"; Some "user"; Some "user"]
  ∧ StronglySorted
      (λ a b, js_gt (userField a "role") (userField b "role") = false)
      (QueryEngine.data result).
Proof.
  intros params result. split; [reflexivity|].
  apply (page_sorted_on_V8 userField js_gt mockUsers_initial params None "role");
    [reflexivity | |].
  - intros a b Ha Hb.
    repeat (apply elem_of_cons in Ha as [->|Ha]);
      try (by apply elem_of_nil in Ha);
      repeat (apply elem_of_cons in Hb as [->|Hb]);
      try (by apply elem_of_nil in Hb);
      vm_compute; auto.
  - intros a b c Ha Hb Hc.
    repeat (apply elem_of_cons in Ha as [->|Ha]);
      try (by apply elem_of_nil in Ha);
      repeat (apply elem_of_cons in Hb as [->|Hb]);
      try (by apply elem_of_nil in Hb);
      repeat (apply elem_of_cons in Hc as [->|Hc]);
      try (by apply elem_of_nil in Hc);
      vm_compute; auto.
Defined.

End SortedPagesFacts.

(** ** The dashboard *)

Module DashboardFacts.

Import Api ApiMore Dashboard.

Section Stats.

Context {num : Type} `{Numeric num}.
Variable Date_getTime : string → option Z.
Variable num_falsy : num → bool.
Variable num_sub_sign : num → num → Z.
Variable sort_orders :
  (Api.Order num → Api.Order num → Z) → list (Api.Order num)
  → list (Api.Order num).
Variable sort_counted :
  (Api.Product num * num → Api.Product num * num → Z)
  → list (Api.Product num * num) → list (Api.Product num * num).
Hypothesis sort_orders_Permutation :
  ∀ cmp l, Permutation (sort_orders cmp l) l.
Hypothesis sort_counted_Permutation :
  ∀ cmp l, Permutation (sort_counted cmp l) l.

Local Abbreviation stats :=
  (getStats Date_getTime num_falsy num_sub_sign sort_orders sort_counted).

(** X12. [getStats] is not a pure read.  When the simulated fault fires
    it throws and leaves the store as it is.  Otherwise it returns the
    statistics and leaves the orders of the store sorted by its
    comparator: the same orders, in another order in general, with the
    users and the products untouched.  The recent orders are the first
    five orders of the store after the call, the top products are five
    products of the store at most, each with its count, and the counts
    of users, products and orders are those of the store. *)
Theorem getStats_sorts_the_store (env : Env) (s : Api.Store num) :
  (shouldSimulateError env = true →
   stats env s = (s, createErrorResponse "Failed to fetch dashboard stats"))
  ∧ (shouldSimulateError env = false →
     ∃ result,
       (stats env s).2
       = Ok (mkApiResponse result "Dashboard stats fetched successfully" true)
       ∧ mockUsers (stats env s).1 = mockUsers s
       ∧ mockProducts (stats env s).1 = mockProducts s
       ∧ mockOrders (stats env s).1
         = sort_orders (byCreatedAtDesc Date_getTime) (mockOrders s)
       ∧ Permutation (mockOrders (stats env s).1) (mockOrders s)
       ∧ recentOrders result = take 5 (mockOrders (stats env s).1)
       ∧ (length (topProducts result) ≤ 5)%nat
       ∧ (∀ counted, counted ∈ topProducts result → counted.1 ∈ mockProducts s)
       ∧ totalUsers result = Z.of_nat (length (mockUsers s))
       ∧ totalProducts result = Z.of_nat (length (mockProducts s))
       ∧ totalOrders result = Z.of_nat (length (mockOrders s))
       ∧ totalRevenue result
         = fold_left (λ sum order, num_add sum (o_total order)) (mockOrders s)
             (num_of_Z 0)).
Proof.
  unfold getStats. split; intros Hfault; rewrite Hfault; [done|].
  eexists. split; [reflexivity|]. cbn [fst snd mockUsers mockProducts mockOrders
    recentOrders topProducts totalUsers totalProducts totalOrders totalRevenue].
  split_and!; try done.
  - rewrite JSFacts.slice_take_drop by lia. by rewrite drop_0.
  - rewrite JSFacts.slice_take_drop by lia.
    rewrite length_take. lia.
  - intros counted Hin.
    rewrite JSFacts.slice_take_drop in Hin by lia.
    apply subseteq_take in Hin. rewrite drop_0 in Hin.
    rewrite sort_counted_Permutation in Hin.
    apply list_elem_of_fmap in Hin as (product & -> & Hproduct). done.
  - f_equal. apply Permutation_length, sort_orders_Permutation.
Qed.

End Stats.

(** X12 at work: after [getStats] on V8 the later of the two orders of
    the store comes first. *)
Lemma getStats_sorts_the_store_witness :
  let after :=
    (getStats sampleGetTime (λ n, n =? 0) Z.sub V8.sort V8.sort sampleEnv
       twoOrders).1 in
  o_createdAt <$> mockOrders twoOrders
  = ["2024-02-01T00:00:00.000Z"; "2024-03-01T00:00:00.000Z"]
  ∧ o_createdAt <$> mockOrders after
    = ["2024-03-01T00:00:00.000Z"; "2024-02-01T00:00:00.000Z"]
  ∧ Permutation (mockOrders after) (mockOrders twoOrders).
Proof.
  intros after. split; [reflexivity|]. split; [reflexivity|].
  destruct (getStats_sorts_the_store sampleGetTime (λ n, n =? 0) Z.sub V8.sort
              V8.sort (@V8Facts.sort_Permutation _) (@V8Facts.sort_Permutation _)
              sampleEnv twoOrders) as [_ Hstats].
  by destruct (Hstats eq_refl) as (result & _ & _ & _ & _ & Hperm & _).
Defined.

End DashboardFacts.

(** ** Polling the scraper *)

Module BrowseAiFacts.

Import BrowseAi.

Section Poll.

Context {Task : Type}.
Variable status : Task → string.

Lemma pollLoop_find (fetch : nat → Result Task) (remaining attempts : nat) :
  pollLoop status fetch remaining attempts
  = match List.find (λ k, decisive status (fetch k)) (seq attempts remaining) with
    | Some k =>
        mkPolled
          match fetch k with
          | Ok task =>
              if decide (status task = "successful") then Ok task
              else Throw (ErrorObj "Browse AI task failed")
          | Throw e => Throw e
          end
          (S k) (2000 * Z.of_nat k)
    | None =>
        mkPolled (Throw (ErrorObj "Browse AI task timeout"))
          (attempts + remaining) (2000 * Z.of_nat (attempts + remaining))
    end.
Proof.
  revert attempts.
  induction remaining as [|remaining IH]; intros attempts.
  - simpl. by rewrite Nat.add_0_r.
  - cbn [pollLoop seq List.find].
    destruct (fetch attempts) as [task|e] eqn:Hfetch; cbn [decisive].
    2: { by rewrite Hfetch. }
    destruct (decide (status task = "successful")) as [Hs|Hs].
    { rewrite bool_decide_eq_true_2 by done. cbn [orb]. rewrite Hfetch.
      by rewrite decide_True. }
    rewrite (bool_decide_eq_false_2 (status task = "successful")) by done.
    destruct (decide (status task = "failed")) as [Hf|Hf].
    { rewrite bool_decide_eq_true_2 by done. cbn [orb]. rewrite Hfetch.
      by rewrite decide_False. }
    rewrite bool_decide_eq_false_2 by done. cbn [orb].
    rewrite IH. by rewrite Nat.add_succ_r.
Qed.

(** X13. [pollTaskCompletion] asks until a reply ends the polling: a task
    that is successful, which it returns; a task that failed, for which
    it throws "Browse AI task failed"; or a request that throws, whose
    error it passes on.  It asks nothing after that reply and has waited
    two seconds after each reply before it.  When none of the first
    thirty replies ends the polling it throws "Browse AI task timeout",
    after thirty requests and sixty seconds of waiting; it never makes
    more than thirty requests. *)
Theorem pollTaskCompletion_first_decisive (fetch : nat → Result Task) :
  let polled := pollTaskCompletion status fetch in
  match List.find (λ k, decisive status (fetch k)) (seq 0 30) with
  | Some k =>
      outcome polled
      = match fetch k with
        | Ok task =>
            if decide (status task = "successful") then Ok task
            else Throw (ErrorObj "Browse AI task failed")
        | Throw e => Throw e
        end
      ∧ requests polled = S k
      ∧ waited polled = 2000 * Z.of_nat k
  | None =>
      polled = mkPolled (Throw (ErrorObj "Browse AI task timeout")) 30 60000
  end
  ∧ (requests polled ≤ 30)%nat.
Proof.
  intros polled. subst polled. unfold pollTaskCompletion, maxAttempts.
  rewrite pollLoop_find.
  destruct (List.find _ _) as [k|] eqn:Hfind; cbn [outcome requests waited].
  - split; [done|].
    apply find_some in Hfind as [Hin _].
    apply in_seq in Hin. lia.
  - split; [done | lia].
Qed.

End Poll.

(** Three replies "in-progress" and then "successful": four requests and
    six seconds of waiting. *)
Example pollTaskCompletion_slow_service :
  pollTaskCompletion id slowService = mkPolled (Ok "successful") 4 6000.
Proof. reflexivity. Qed.

End BrowseAiFacts.

(** ** More of the generator *)

Module GeneratorMoreFacts.

Import Generator GeneratorSamples GeneratorFacts.

Section Pipeline.

Context {num : Type} `{Numeric num} {Json Date : Type}.
Variable JSON_parse : string → option Json.
Variable json_is_null : Json → bool.
Variable addHours : Date → Z → Date.
Variable null_read_message : string.
Variable CLOUDINARY_CLOUD_NAME : string.
Variable progressCallback : bool.

Local Abbreviation Services := (Generator.Services (num := num) (Date := Date)).
Local Abbreviation ProductInfo := (Generator.ProductInfo (num := num)).
Local Abbreviation classify := (classifyProduct JSON_parse).
Local Abbreviation design :=
  (generateDesignTheme JSON_parse json_is_null null_read_message).
Local Abbreviation write :=
  (generateContent JSON_parse json_is_null null_read_message).
Local Abbreviation generate :=
  (generateLandingPage JSON_parse json_is_null addHours null_read_message
     CLOUDINARY_CLOUD_NAME progressCallback).
Local Abbreviation delivered := (Generator.delivered progressCallback).
Local Abbreviation processImages := (processProductImages CLOUDINARY_CLOUD_NAME).

(** X14. [processProductImages] returns one processed image for each
    image it is given, in the same order and with the given URL as
    [original], whatever the remote services do.  Where the upload
    fails, the four other URLs are the original one; where it succeeds,
    they are the URLs of the upload, and [backgroundRemoved] is the
    original URL again if the background removal failed. *)
Theorem processProductImages_one_each (sv : Services) (images : list string) :
  original <$> processImages sv images = images
  ∧ ∀ (i : nat) (imageUrl : string) (processed : ProcessedImage),
      images !! i = Some imageUrl →
      processImages sv images !! i = Some processed →
      match upload sv i with
      | Throw _ =>
          processed = mkProcessedImage imageUrl imageUrl imageUrl imageUrl imageUrl
      | Ok uploadResult =>
          backgroundRemoved processed = default imageUrl (remove_bg sv i)
          ∧ cloudinaryUrl processed = secure_url uploadResult
          ∧ optimizedUrl processed
            = "https://res.cloudinary.com/" +:+ CLOUDINARY_CLOUD_NAME
              +:+ "/image/upload/c_fill,w_800,h_600,q_auto,f_auto/"
              +:+ public_id uploadResult
          ∧ thumbnailUrl processed
            = "https://res.cloudinary.com/" +:+ CLOUDINARY_CLOUD_NAME
              +:+ "/image/upload/c_thumb,w_200,h_200,q_auto,f_auto/"
              +:+ public_id uploadResult
      end.
Proof.
  unfold processProductImages. split.
  - rewrite fmap_imap.
    rewrite (imap_ext _ (const id)).
    + by rewrite imap_const, list_fmap_id.
    + intros i imageUrl _. unfold processImage. cbn [compose].
      by destruct (upload sv i).
  - intros i imageUrl processed Himage Hprocessed.
    rewrite list_lookup_imap, Himage in Hprocessed.
    injection Hprocessed as <-. unfold processImage.
    destruct (upload sv i) as [uploadResult|e]; [|done].
    cbn [backgroundRemoved cloudinaryUrl optimizedUrl thumbnailUrl].
    unfold generateThumbnailUrl, generateOptimizedUrl.
    split_and!; reflexivity.
Qed.







(** X16. A classification reply that is the JSON value [null] is parsed
    and returned by [classifyProduct] as it is; the run then fails in the
    design stage, where the prompt reads the properties of the
    classification: after the reports of the first four stages comes the
    report of that error, whatever the other replies are. *)
Theorem null_classification_fails_design (sv : Services)
    (request : GenerateLandingPageRequest) (info : ProductInfo)
    (reply : string) (j : Json) :
  (run (extractProductInfo sv)).2 = Ok info →
  chat_classify sv = Ok reply →
  JSON_parse reply = Some j →
  json_is_null j = true →
  classify (chat_classify sv) info = Ok (Parsed j)
  ∧ run (generate sv request)
    = (delivered (take 4 schedule ++ [errorReport (ErrorObj null_read_message)]),
       Throw (ErrorObj null_read_message)).
Proof.
  intros Hi Hchat Hparse Hnull.
  assert (Hc : classify (chat_classify sv) info = Ok (Parsed j)).
  { unfold classifyProduct. by rewrite Hchat, Hparse. }
  split; [exact Hc|].
  apply (generateLandingPage_design_fails _ _ _ _ _ _ _ _ _ _ _ Hi Hc).
  unfold generateDesignTheme, readClassification. by rewrite Hnull.
Qed.

End Pipeline.

(** X16 at work: the LLM answers the classification request with
    [null]. *)
Lemma null_classification_fails_design_witness :
  sampleRun nullServices
  = (take 4 schedule
       ++ [errorReport
             (ErrorObj "Cannot read properties of null (reading 'category')")],
     Throw (ErrorObj "Cannot read properties of null (reading 'category')")).
Proof.
  apply (null_classification_fails_design sampleParse sampleIsNull
           sampleAddHours "Cannot read properties of null (reading 'category')"
           "demo" true nullServices sampleRequest sampleInfo "null" "null");
    reflexivity.
Defined.

End GeneratorMoreFacts.

(** ** The hooks of the landing page *)

Module HooksFacts.

Import JSString JSStringFacts Hooks.

(** *** The countdown *)



(** *** The URL check and the mutation *)

Section Url.

Variable URL_hostname : string → option string.

(** X18. [validateProductUrl] returns [false] and throws nothing for a
    URL that does not parse, and accepts every URL whose host name has a
    supported domain somewhere in it, whatever comes before and after:
    the domain need not be the end of the host name. *)
Theorem validateProductUrl_substring (url : string) :
  (URL_hostname url = None → validateProductUrl URL_hostname url = false)
  ∧ (∀ domain before after,
       domain ∈ supportedDomains →
       URL_hostname url = Some (before +:+ domain +:+ after) →
       validateProductUrl URL_hostname url = true).
Proof.
  unfold validateProductUrl. split; [by intros ->|].
  intros domain before after Hdomain ->.
  apply existsb_exists. exists domain.
  split; [by apply list_elem_of_In|].
  apply includes_app_l, includes_app_r, includes_refl.
Qed.

Context {num : Type} `{Numeric num} {Json Date : Type}.
Variable JSON_parse : string → option Json.
Variable json_is_null : Json → bool.
Variable addHours : Date → Z → Date.
Variable null_read_message : string.
Variable CLOUDINARY_CLOUD_NAME : string.

Local Abbreviation generate :=
  (Hooks.generate URL_hostname JSON_parse json_is_null addHours
     null_read_message CLOUDINARY_CLOUD_NAME).

(** X19. What reaches [setProgress] in one call of [generate] of
    [useGenerateLandingPage], the callback of the generator, [onSuccess]
    and [onError] together.  For a URL that the check rejects, one value
    does: the object of [onError] with the message "Unsupported product
    URL ..."; no page is stored.  For a URL that the check accepts,
    either the run returns a page, and then the reports of the whole
    schedule, which ends at 100, are followed by [null] and the page is
    stored; or the run throws, and then the first two to five reports of
    the schedule and the report of the error by the generator (message
    "Generation failed") are followed by the object of [onError], whose
    message is that of the error, and no page is stored.  So the last
    value is [null] exactly when the mutation returns a page, and
    otherwise the object of [onError]. *)
Theorem useGenerateLandingPage_progress
    (sv : Generator.Services (num := num) (Date := Date))
    (request : Generator.GenerateLandingPageRequest) :
  let unsupported :=
    ErrorObj "Unsupported product URL. Please use URLs from Amazon, Flipkart, Myntra, or other supported platforms." in
  let call := generate sv request in
  (validateProductUrl URL_hostname (Generator.productUrl request) = false →
   call
   = mkGeneration [Some (failure unsupported)] []
       [toast_error "Generation failed: Unsupported product URL. Please use URLs from Amazon, Flipkart, Myntra, or other supported platforms."]
       (Throw unsupported))
  ∧ (validateProductUrl URL_hostname (Generator.productUrl request) = true →
     (∃ page,
        call
        = mkGeneration ((Some ∘ ofReport <$> Generator.schedule) ++ [None])
            [page] [toast_success "Landing page generated successfully!"]
            (Ok page))
     ∨ (∃ n e,
          (2 ≤ n ≤ 5)%nat
          ∧ call
            = mkGeneration
                ((Some ∘ ofReport
                    <$> take n Generator.schedule ++ [Generator.errorReport e])
                   ++ [Some (failure e)])
                []
                [toast_error
                   ("Generation failed: "
                    +:+ default "undefined" (error_message e))]
                (Throw e)))
  ∧ ((∃ page, settled call = Ok page ∧ setLandingPageData call = [page])
     ↔ last (setProgress call) = Some None)
  ∧ (∀ e, settled call = Throw e →
          last (setProgress call) = Some (Some (failure e))
          ∧ hp_message (failure e) = error_message e
          ∧ setLandingPageData call = []).
Proof.
  intros unsupported call. subst call. unfold Hooks.generate, mutationFn.
  destruct (validateProductUrl _ _) eqn:Hvalid; cbn [negb].
  - split; [done|].
    destruct (GeneratorFacts.generateLandingPage_cases JSON_parse json_is_null
                addHours null_read_message CLOUDINARY_CLOUD_NAME true sv request)
      as [(n & e & Hn & ->)|(page & ->)]; cbn [Generator.delivered].
    + split; [intros _; right; by exists n, e|].
      cbn [settled setProgress setLandingPageData]. rewrite last_snoc.
      split.
      * split; [by intros (page & ? & _) | by intros [= ?]].
      * by intros e' [= <-].
    + split; [intros _; left; by exists page|].
      cbn [settled setProgress setLandingPageData]. rewrite last_snoc.
      split; [|done]. split; [done | by exists page].
  - split; [done|]. split; [done|].
    cbn. split.
    + split; [by intros (page & ? & _) | by intros [= ?]].
    + by intros e [= <-].
Qed.

End Url.

(** X18 at work: a host name that only starts like a supported domain
    is accepted, and a text that is no URL is refused. *)
Lemma validateProductUrl_substring_witness :
  validateProductUrl sampleHostname "https://amazon.com.shop.example/item" = true
  ∧ validateProductUrl sampleHostname "amazon.com" = false.
Proof.
  split.
  - destruct (validateProductUrl_substring sampleHostname
                "https://amazon.com.shop.example/item") as [_ Haccepts].
    apply (Haccepts "amazon.com" "" ".shop.example"); [|reflexivity].
    apply list_elem_of_here.
  - by destruct (validateProductUrl_substring sampleHostname "amazon.com")
      as [Hrefuses _]; apply Hrefuses.
Defined.

(** X19 at work: a text that is no URL, a run in which the LLM service
    is down, and a run that returns a page. *)
Lemma useGenerateLandingPage_progress_witness :
  let generate :=
    generate sampleHostname Generator.sampleParse Generator.sampleIsNull
      Generator.sampleAddHours
      "Cannot read properties of null (reading 'category')" "demo" in
  let unsupported :=
    ErrorObj "Unsupported product URL. Please use URLs from Amazon, Flipkart, Myntra, or other supported platforms." in
  let down := ErrorObj "Groq API error: Service Unavailable" in
  generate Generator.groqDownServices
    (Generator.mkGenerateLandingPageRequest "amazon.com" None)
  = mkGeneration [Some (failure unsupported)] []
      [toast_error "Generation failed: Unsupported product URL. Please use URLs from Amazon, Flipkart, Myntra, or other supported platforms."]
      (Throw unsupported)
  ∧ last (setProgress
            (generate Generator.groqDownServices Generator.sampleRequest))
    = Some (Some (mkProgress "error" 0
                    (Some "Groq API error: Service Unavailable") false
                    (Some "Groq API error: Service Unavailable")))
  ∧ hp_progress
    <$> omap id (setProgress
                   (generate Generator.groqDownServices Generator.sampleRequest))
    = [0; 10; 25; 0; 0]
  ∧ last (setProgress
            (generate Generator.fallbackServices Generator.sampleRequest))
    = Some None.
Proof.
  intros generate unsupported down.
  split_and!.
  - by apply (useGenerateLandingPage_progress sampleHostname Generator.sampleParse
                Generator.sampleIsNull Generator.sampleAddHours
                "Cannot read properties of null (reading 'category')" "demo"
                Generator.groqDownServices
                (Generator.mkGenerateLandingPageRequest "amazon.com" None)).
  - destruct (useGenerateLandingPage_progress sampleHostname
                Generator.sampleParse Generator.sampleIsNull
                Generator.sampleAddHours
                "Cannot read properties of null (reading 'category')" "demo"
                Generator.groqDownServices Generator.sampleRequest)
      as (_ & _ & _ & Hthrows).
    by destruct (Hthrows down eq_refl) as [Hlast _].
  - reflexivity.
  - destruct (useGenerateLandingPage_progress sampleHostname
                Generator.sampleParse Generator.sampleIsNull
                Generator.sampleAddHours
                "Cannot read properties of null (reading 'category')" "demo"
                Generator.fallbackServices Generator.sampleRequest)
      as (_ & _ & Hreturns & _).
    apply Hreturns. eexists. split; reflexivity.
Defined.

(** *** The check of the form on the page and the check of the service *)

Lemma trimStart_nil (s : list Z) :
  trimStart s = [] ↔ forallb is_space s = true.
Proof.
  induction s as [|c s IH]; [done|]. simpl.
  destruct (is_space c); [exact IH | done].
Qed.

(** What is left of a text after [trimStart] starts with a character
    that is no white space. *)
Lemma trimStart_spaces (s : list Z) :
  forallb is_space (trimStart s) = true → trimStart s = [].
Proof.
  induction s as [|c s IH]; [done|]. simpl.
  destruct (is_space c) eqn:Hc; [exact IH|].
  simpl. by rewrite Hc.
Qed.

Lemma forallb_reverse {A : Type} (p : A → bool) (l : list A) :
  forallb p (reverse l) = forallb p l.
Proof.
  induction l as [|x l IH]; [done|].
  rewrite reverse_cons, forallb_app, IH. simpl.
  rewrite andb_true_r. apply andb_comm.
Qed.

(** A text trims to the empty string exactly when it is made of white
    space only. *)
Lemma trim_nil (s : list Z) : trim s = [] ↔ forallb is_space s = true.
Proof.
  unfold trim. split.
  - intros Htrim. apply (f_equal reverse) in Htrim.
    rewrite reverse_involutive in Htrim. change (reverse []) with (@nil Z) in Htrim.
    apply trimStart_nil in Htrim. rewrite forallb_reverse in Htrim.
    by apply trimStart_nil, trimStart_spaces.
  - intros Hs. apply trimStart_nil in Hs. by rewrite Hs.
Qed.

Section Validation.

Variable text_lt : list Z → Z → bool.
Variable text_gt : list Z → Z → bool.

Local Abbreviation validateField := (Hooks.validateField text_lt text_gt).
Local Abbreviation validateForm := (Hooks.validateForm text_lt text_gt).

Lemma push_if_nil (cond : bool) (msg : string) (errors : list string) :
  COD.push_if cond msg errors = [] ↔ cond = false ∧ errors = [].
Proof.
  unfold COD.push_if. destruct cond.
  - split; [|by intros [? _]]. by destruct errors.
  - intuition congruence.
Qed.

(** The form passes when no field has an error. *)
Lemma validateForm_true (formData : string → FormValue)
    (validationRules : list (string * Rule)) :
  (validateForm formData validationRules).2 = true ↔
  Forall (λ entry, validateField entry.1 (formData entry.1) entry.2 = [])
    validationRules.
Proof.
  unfold Hooks.validateForm. cbn [snd]. rewrite bool_decide_eq_true.
  induction validationRules as [|[fieldName rules] validationRules IH].
  - split; [constructor | done].
  - rewrite Forall_cons. cbn [omap list_omap fst snd].
    destruct (validateField fieldName (formData fieldName) rules) as [|first rest].
    + rewrite IH. intuition congruence.
    + simpl. intuition congruence.
Qed.

(** A required text with a minimal length. *)
Lemma validateField_min_length (name : string) (n : Z) (s : list Z) :
  0 < n →
  validateField name (VText s) (mkRule true (Some n) None None None None) = [] ↔
  falsy s || (strlen s <? n) = false ∧ trim s ≠ [].
Proof.
  intros Hn. unfold Hooks.validateField.
  cbn [required minLength maxLength pattern min max truthy_number truthy blank
       length_of from_option].
  destruct (Z.eqb_spec n 0); [lia|].
  rewrite !push_if_nil. cbn [andb].
  destruct (falsy s) eqn:Hs; cbn [negb orb andb].
  - intuition congruence.
  - destruct (decide (trim s = [])) as [Ht|Ht].
    + rewrite bool_decide_eq_true_2 by done. intuition congruence.
    + rewrite bool_decide_eq_false_2 by done. intuition congruence.
Qed.

(** A required text with a pattern. *)
Lemma validateField_pattern (name : string) (r : regex) (s : list Z) :
  validateField name (VText s) (mkRule true None None (Some r) None None) = [] ↔
  falsy s || negb (test r s) = false ∧ trim s ≠ [].
Proof.
  unfold Hooks.validateField.
  cbn [required minLength maxLength pattern min max truthy_number truthy blank
       text_of].
  rewrite !push_if_nil. cbn [andb].
  destruct (falsy s) eqn:Hs; cbn [negb orb andb].
  - intuition congruence.
  - destruct (decide (trim s = [])) as [Ht|Ht].
    + rewrite bool_decide_eq_true_2 by done. intuition congruence.
    + rewrite bool_decide_eq_false_2 by done. intuition congruence.
Qed.

(** A text of digits is not made of white space. *)
Lemma digits_not_blank (n : nat) (s : list Z) :
  falsy s || negb (test (Repeat n (Class is_digit)) s) = false → trim s ≠ [].
Proof.
  rewrite test_Repeat_Class. intros Hs Htrim.
  apply trim_nil in Htrim.
  destruct s as [|c s]; [done|].
  unfold falsy in Hs. rewrite bool_decide_eq_false_2 in Hs by done.
  cbn [orb forallb] in *.
  apply negb_false_iff, andb_true_iff in Hs as [_ [Hdigit _]%andb_true_iff].
  apply andb_true_iff in Htrim as [Hspace _].
  unfold is_digit, is_space in *. lia.
Qed.

(** An optional text with a pattern. *)
Lemma validateField_optional (name : string) (r : regex) (e : option (list Z)) :
  validateField name (from_option VText VUndefined e)
    (mkRule false None None (Some r) None None) = [] ↔
  match e with
  | Some s => negb (falsy s) && negb (test r s)
  | None => false
  end = false.
Proof.
  unfold Hooks.validateField.
  cbn [required minLength maxLength pattern min max truthy_number].
  rewrite !push_if_nil. cbn [andb].
  destruct e as [s|]; cbn [from_option truthy text_of andb]; intuition congruence.
Qed.

(** A required number between two bounds. *)
Lemma validateField_bounds (name : string) (q : option Z) :
  validateField name (VNumber q) (mkRule true None None None (Some 1) (Some 10))
  = [] ↔
  COD.quantity_rejected q = false.
Proof.
  unfold Hooks.validateField, COD.quantity_rejected.
  cbn [required minLength maxLength pattern min max truthy_number Z.eqb
       truthy blank value_lt value_gt].
  rewrite !push_if_nil.
  destruct q as [n|]; cbn [negb orb andb]; [|intuition congruence].
  destruct (Z.eqb_spec n 0), (Z.ltb_spec n 1), (Z.ltb_spec 10 n);
    cbn [negb orb andb]; intuition congruence.
Qed.

Lemma collectErrors_nil (formData : COD.CODFormData) :
  COD.validateCODForm formData = Ok tt ↔ COD.collectErrors formData = [].
Proof.
  unfold COD.validateCODForm.
  destruct (COD.collectErrors formData); simpl; intuition congruence.
Qed.

(** X20. The check of the form on the page ([validateForm] with the
    rules of [createCODForm]) and the check of the service
    ([validateCODForm]): the page accepts exactly the forms that the
    service accepts and in which the name, the address, the city and the
    state are not made of white space only.  So an order that the page
    submits is never refused by the service: [submitOrder] on a request
    with a form that [validateForm] let through returns a success with a
    new order id. *)
Theorem validateForm_stricter (formData : COD.CODFormData) :
  ((validateForm (fieldValue formData) formRules).2 = true ↔
   COD.validateCODForm formData = Ok tt
   ∧ trim (COD.name formData) ≠ []
   ∧ trim (COD.address formData) ≠ []
   ∧ trim (COD.city formData) ≠ []
   ∧ trim (COD.state formData) ≠ [])
  ∧ ((validateForm (fieldValue formData) formRules).2 = true →
     ∀ clock request,
       COD.formData request = formData →
       COD.submitOrder clock request
       = COD.mkSubmitResult (COD.generateOrderId clock) true
           "Order placed successfully! You will receive a confirmation call within 2 hours.").
Proof.
  assert (Hiff : (validateForm (fieldValue formData) formRules).2 = true ↔
                 COD.validateCODForm formData = Ok tt
                 ∧ trim (COD.name formData) ≠ []
                 ∧ trim (COD.address formData) ≠ []
                 ∧ trim (COD.city formData) ≠ []
                 ∧ trim (COD.state formData) ≠ []).
  { rewrite validateForm_true, collectErrors_nil.
    change formRules with
      [("name", mkRule true (Some 2) None None None None);
       ("phone", mkRule true None None (Some COD.phone_pattern) None None);
       ("email", mkRule false None None (Some COD.email_pattern) None None);
       ("address", mkRule true (Some 10) None None None None);
       ("city", mkRule true (Some 2) None None None None);
       ("state", mkRule true (Some 2) None None None None);
       ("pincode", mkRule true None None (Some COD.pincode_pattern) None None);
       ("quantity", mkRule true None None None (Some 1) (Some 10))].
    rewrite !Forall_cons, Forall_nil. cbn [fst snd].
    change (fieldValue formData "name") with (VText (COD.name formData)).
    change (fieldValue formData "phone") with (VText (COD.phone formData)).
    change (fieldValue formData "email")
      with (from_option VText VUndefined (COD.email formData)).
    change (fieldValue formData "address") with (VText (COD.address formData)).
    change (fieldValue formData "city") with (VText (COD.city formData)).
    change (fieldValue formData "state") with (VText (COD.state formData)).
    change (fieldValue formData "pincode") with (VText (COD.pincode formData)).
    change (fieldValue formData "quantity")
      with (VNumber (COD.quantity formData)).
    rewrite !validateField_min_length by lia.
    rewrite !validateField_pattern, validateField_optional,
      validateField_bounds.
    unfold COD.collectErrors. rewrite !push_if_nil.
    unfold COD.email_rejected.
    pose proof (digits_not_blank 10 (COD.phone formData)).
    pose proof (digits_not_blank 6 (COD.pincode formData)).
    unfold COD.phone_pattern, COD.pincode_pattern in *.
    intuition congruence. }
  split; [exact Hiff|].
  intros Hvalid clock request <-.
  apply CODFacts.submitOrder_valid. by apply Hiff.
Qed.

(** The valid form of the order service passes the page.  The form whose
    name is two spaces passes the service and not the page, which shows
    "name is required". *)
Example blank_name_passes_service :
  validateForm (fieldValue COD.validForm) formRules = ([], true)
  ∧ COD.validateCODForm blankNameForm = Ok tt
  ∧ validateForm (fieldValue blankNameForm) formRules
    = ([("name", "name is required")], false).
Proof. repeat split; reflexivity. Qed.

End Validation.

End HooksFacts.

(** ** More of the order service *)

Module CODMoreFacts.

Import JSString JSStringFacts COD CODFacts.

(** X21. [submitOrder] throws nothing: what the validation throws comes
    back as a result.  The result is a success exactly when no field of
    the form is violated.  A success carries the new order id, which has
    the format [COD-[0-9A-Z]+-[0-9A-Z]{5}] whenever the clock is positive
    and the random text has five base-36 digits or more after ["0."]; a
    failure carries the empty order id and, as its message, the messages
    of all the violated fields joined by [", "]. *)
Theorem submitOrder_outcome (clock : Clock) (request : CODOrderRequest) :
  let result := submitOrder clock request in
  let violated := violatedFields (formData request) in
  (success result = true ↔ violated = [])
  ∧ (violated = [] →
     orderId result = generateOrderId clock
     ∧ ∀ digits,
         0 < Date_now clock →
         random_toString36 clock = "0." +:+ digits →
         (5 ≤ String.length digits)%nat →
         forallb is_base36 (units digits) = true →
         test order_id_pattern (units (orderId result)) = true)
  ∧ (violated ≠ [] →
     result
     = mkSubmitResult "" false (join ", " (field_message <$> violated))).
Proof.
  intros result violated. subst result.
  unfold submitOrder, validateCODForm. rewrite collectErrors_violated.
  fold violated.
  destruct violated as [|f violated]; cbn [fmap list_fmap length Nat.ltb Nat.leb].
  - cbn [processOrder orderId success]. split_and!; try done.
    intros _. split; [done|].
    intros digits Hnow Hrandom Hlen Hdigits.
    by apply (generateOrderId_format clock digits).
  - cbn [messageOf success]. split_and!; try done.
Qed.

(** X21 at work: the valid form with five digits as its phone number and
    eleven as its quantity. *)
Lemma submitOrder_outcome_witness :
  submitOrder usualClock
    (mkCODOrderRequest "lp_1700000000000_k3x9a1b2c"
       (withPhone (units "12345") (withQuantity (Some 11) validForm))
       (mkOrderedProduct "Desk Lamp" None))
  = mkSubmitResult "" false
      "Phone number must be 10 digits, Quantity must be between 1 and 10".
Proof.
  by apply (submitOrder_outcome usualClock
              (mkCODOrderRequest "lp_1700000000000_k3x9a1b2c"
                 (withPhone (units "12345") (withQuantity (Some 11) validForm))
                 (mkOrderedProduct "Desk Lamp" None))).
Defined.

End CODMoreFacts.
